(** * Gap analyzer: orchestration pipeline, validation and deduplication

    A shallow embedding of the Python services under [app/services] and of
    the schemas under [app/schemas].  Python exceptions are an explicit
    [result]; the database session, the ORM objects it tracks and the log
    of calls to the outside world are an explicit state; the behaviour of
    the outside world (database, language model, search providers,
    extraction service) is a record of oracles, so that a statement
    quantified over all [World]s speaks about every behaviour of the
    collaborators.  Floating-point scores are rationals.  The two methods
    of [str] that depend on the character tables of the interpreter,
    [lower] and [strip] of whitespace, are oracles as well. *)

From Stdlib Require Import QArith Ascii String.
From stdpp Require Import base option list strings pretty gmap.

Local Open Scope string_scope.
Local Open Scope list_scope.

(** ** Python values shared by all services *)

(** An exception instance: its class name and [str(e)]. *)
Record exn := mk_exn { exn_class : string; exn_str : string }.

Definition AttributeError (cls attr : string) : exn :=
  mk_exn "AttributeError"
         ("'" +:+ cls +:+ "' object has no attribute '" +:+ attr +:+ "'").
Definition ValueError (msg : string) : exn := mk_exn "ValueError" msg.

(** The outcome of evaluating a Python expression or awaiting a coroutine. *)
Inductive result (A : Type) : Type :=
| Ok (a : A)
| Raise (e : exn).
Arguments Ok {A} a.
Arguments Raise {A} e.

Definition is_ok {A} (r : result A) : bool :=
  match r with Ok _ => true | Raise _ => false end.

(** Truthiness of [Optional[str]]: [None] and the empty string are falsy. *)
Definition truthy_str (o : option string) : bool :=
  match o with
  | Some s => negb (String.eqb s "")
  | None => false
  end.

(** [x or d] on [Optional[float]]: [None] and zero are falsy. *)
Definition float_or (x : option Q) (d : Q) : Q :=
  match x with
  | Some v => if Qeq_bool v 0 then d else v
  | None => d
  end.

(** [a > b] on scores. *)
Definition Qgtb (a b : Q) : bool := negb (Qle_bool a b).

(** [l[:n]] for a Python [int] [n]: a negative bound counts from the end. *)
Definition slice_to {A} (l : list A) (n : Z) : list A :=
  if (0 <=? n)%Z then take (Z.to_nat n) l
  else take (length l - Z.to_nat (- n)) l.

(** ** Schemas ([app/schemas/gap_schemas.py]) *)

Module Schemas.

(** A pydantic model instance seen from outside: its attributes by name.
    Reading an attribute that is not a declared field raises
    [AttributeError]. *)
Record PyObject := mk_obj { obj_class : string; obj_attrs : gmap string string }.

Definition getattr (o : PyObject) (name : string) : result string :=
  match obj_attrs o !! name with
  | Some v => Ok v
  | None => Raise (AttributeError (obj_class o) name)
  end.

(** [GapAnalysisRequest(paperId=..., paperExtractionId=..., correlationId=...,
    requestId=..., config=...)]: the declared fields, under their declared
    names (no alias is declared). *)
Definition GapAnalysisRequest
    (paperId paperExtractionId correlationId requestId config : string)
  : PyObject :=
  mk_obj "GapAnalysisRequest"
         (<["paperId" := paperId]>
          (<["paperExtractionId" := paperExtractionId]>
           (<["correlationId" := correlationId]>
            (<["requestId" := requestId]>
             (<["config" := config]> ∅))))).

Record ResearchTopic := mk_ResearchTopic {
  rt_title : string;
  rt_description : string;
  rt_research_questions : list string;
  rt_methodology_suggestions : option string;
  rt_expected_outcomes : option string;
  rt_relevance_score : Q
}.

Record GapDetail := mk_GapDetail {
  gd_gap_id : string;
  gd_name : string;
  gd_description : string;
  gd_category : string;
  gd_validation_status : string;
  gd_confidence_score : Q;
  gd_evidence_anchors : list (string * string * string);
  gd_supporting_papers_count : nat;
  gd_conflicting_papers_count : nat;
  gd_suggested_topics : list ResearchTopic
}.

Record GapAnalysisResponse := mk_GapAnalysisResponse {
  request_id : string;
  correlation_id : string;
  status : string;
  message : string;
  gap_analysis_id : option string;
  total_gaps : Z;
  valid_gaps : Z;
  gaps : option (list GapDetail);
  error : option string;
  completed_at : option nat
}.

Record InitialGap := mk_InitialGap {
  name : string;
  description : string;
  category : string;
  reasoning : string;
  evidence : string
}.

Record ValidationResult := mk_ValidationResult {
  is_valid : bool;
  confidence : Q;
  vr_reasoning : string;
  should_modify : bool;
  modification_suggestion : option string;
  supporting_papers : list (gmap string string);
  conflicting_papers : list (gmap string string)
}.

Record PaperSearchResult := mk_PaperSearchResult {
  title : string;
  abstract : option string;
  doi : option string;
  url : option string;
  pdf_url : option string
}.

Record ExtractedContent := mk_ExtractedContent {
  ec_title : string;
  ec_abstract : option string;
  ec_sections : list (string * string);
  extraction_success : bool;
  ec_error : option string
}.

End Schemas.
Import Schemas.

(** ** ORM models ([app/model/gap_models.py], as the services use them) *)

Inductive GapStatus := PROCESSING | COMPLETED | FAILED.

Inductive GapValidationStatus := INITIAL | VALIDATING | VALID | INVALID | MODIFIED.

Definition GapStatus_str (s : GapStatus) : string :=
  match s with
  | PROCESSING => "PROCESSING" | COMPLETED => "COMPLETED" | FAILED => "FAILED"
  end.

Definition GapValidationStatus_str (s : GapValidationStatus) : string :=
  match s with
  | INITIAL => "INITIAL" | VALIDATING => "VALIDATING" | VALID => "VALID"
  | INVALID => "INVALID" | MODIFIED => "MODIFIED"
  end.

#[global] Instance GapStatus_eq_dec : EqDecision GapStatus.
Proof. solve_decision. Defined.

#[global] Instance GapValidationStatus_eq_dec : EqDecision GapValidationStatus.
Proof. solve_decision. Defined.

(** A paper reference inside a verdict: a [Dict[str, str]]. *)
Definition PaperRef : Type := gmap string string.

(** One element of [modification_history]. *)
Record HistoryEntry := mk_HistoryEntry {
  he_timestamp : nat;
  he_original : string;
  he_modification : option string
}.

Record EvidenceAnchor := mk_EvidenceAnchor {
  ea_title : option string;
  ea_url : string;
  ea_type : string
}.

(** The seven enrichment columns written together by the expansion step. *)
Record Expansion := mk_Expansion {
  potential_impact : option string;
  research_hints : option string;
  implementation_suggestions : option string;
  risks_and_challenges : option string;
  required_resources : option string;
  estimated_difficulty : option string;
  estimated_timeline : option string
}.

Definition no_expansion : Expansion :=
  mk_Expansion None None None None None None None.

(** One element of the [suggested_topics] list of the expansion reply; the
    outer [option] of [td_relevance_score] tells whether the key is there. *)
Record TopicData := mk_TopicData {
  td_title : option string;
  td_description : option string;
  td_research_questions : list string;
  td_methodology_suggestions : option string;
  td_expected_outcomes : option string;
  td_relevance_score : option (option Q)
}.

Record GapTopic := mk_GapTopic {
  gt_research_gap_id : nat;
  gt_title : option string;
  gt_description : option string;
  gt_research_questions : option (list string);
  gt_methodology_suggestions : option string;
  gt_expected_outcomes : option string;
  gt_relevance_score : option Q
}.

Record GapValidationPaper := mk_GapValidationPaper {
  vp_research_gap_id : nat;
  vp_title : string;
  vp_doi : option string;
  vp_url : option string;
  vp_extraction_status : string;
  vp_extracted_text : option string
}.

Record ResearchGap := mk_ResearchGap {
  rg_id : nat;
  rg_gap_analysis_id : nat;
  rg_gap_id : string;
  rg_order_index : nat;
  rg_name : string;
  rg_description : string;
  rg_category : string;
  rg_initial_reasoning : string;
  rg_initial_evidence : string;
  rg_validation_status : GapValidationStatus;
  rg_validation_query : option string;
  rg_validation_confidence : option Q;
  rg_validation_reasoning : option string;
  rg_validated_at : option nat;
  rg_papers_analyzed_count : option nat;
  rg_modification_history : option (list HistoryEntry);
  rg_supporting_papers : option (list PaperRef);
  rg_conflicting_papers : option (list PaperRef);
  rg_expansion : Expansion;
  rg_suggested_topics : option (list TopicData);
  rg_evidence_anchors : option (list EvidenceAnchor)
}.

Definition set_rg_description (v : string) (x : ResearchGap) : ResearchGap :=
  {| rg_id := rg_id x; rg_gap_analysis_id := rg_gap_analysis_id x;
     rg_gap_id := rg_gap_id x; rg_order_index := rg_order_index x;
     rg_name := rg_name x; rg_description := v; rg_category := rg_category x;
     rg_initial_reasoning := rg_initial_reasoning x;
     rg_initial_evidence := rg_initial_evidence x;
     rg_validation_status := rg_validation_status x;
     rg_validation_query := rg_validation_query x;
     rg_validation_confidence := rg_validation_confidence x;
     rg_validation_reasoning := rg_validation_reasoning x;
     rg_validated_at := rg_validated_at x;
     rg_papers_analyzed_count := rg_papers_analyzed_count x;
     rg_modification_history := rg_modification_history x;
     rg_supporting_papers := rg_supporting_papers x;
     rg_conflicting_papers := rg_conflicting_papers x;
     rg_expansion := rg_expansion x;
     rg_suggested_topics := rg_suggested_topics x;
     rg_evidence_anchors := rg_evidence_anchors x |}.

Definition set_rg_validation_status (v : GapValidationStatus) (x : ResearchGap) : ResearchGap :=
  {| rg_id := rg_id x; rg_gap_analysis_id := rg_gap_analysis_id x;
     rg_gap_id := rg_gap_id x; rg_order_index := rg_order_index x;
     rg_name := rg_name x; rg_description := rg_description x;
     rg_category := rg_category x;
     rg_initial_reasoning := rg_initial_reasoning x;
     rg_initial_evidence := rg_initial_evidence x; rg_validation_status := v;
     rg_validation_query := rg_validation_query x;
     rg_validation_confidence := rg_validation_confidence x;
     rg_validation_reasoning := rg_validation_reasoning x;
     rg_validated_at := rg_validated_at x;
     rg_papers_analyzed_count := rg_papers_analyzed_count x;
     rg_modification_history := rg_modification_history x;
     rg_supporting_papers := rg_supporting_papers x;
     rg_conflicting_papers := rg_conflicting_papers x;
     rg_expansion := rg_expansion x;
     rg_suggested_topics := rg_suggested_topics x;
     rg_evidence_anchors := rg_evidence_anchors x |}.

Definition set_rg_validation_query (v : option string) (x : ResearchGap) : ResearchGap :=
  {| rg_id := rg_id x; rg_gap_analysis_id := rg_gap_analysis_id x;
     rg_gap_id := rg_gap_id x; rg_order_index := rg_order_index x;
     rg_name := rg_name x; rg_description := rg_description x;
     rg_category := rg_category x;
     rg_initial_reasoning := rg_initial_reasoning x;
     rg_initial_evidence := rg_initial_evidence x;
     rg_validation_status := rg_validation_status x;
     rg_validation_query := v;
     rg_validation_confidence := rg_validation_confidence x;
     rg_validation_reasoning := rg_validation_reasoning x;
     rg_validated_at := rg_validated_at x;
     rg_papers_analyzed_count := rg_papers_analyzed_count x;
     rg_modification_history := rg_modification_history x;
     rg_supporting_papers := rg_supporting_papers x;
     rg_conflicting_papers := rg_conflicting_papers x;
     rg_expansion := rg_expansion x;
     rg_suggested_topics := rg_suggested_topics x;
     rg_evidence_anchors := rg_evidence_anchors x |}.

Definition set_rg_validation_confidence (v : option Q) (x : ResearchGap) : ResearchGap :=
  {| rg_id := rg_id x; rg_gap_analysis_id := rg_gap_analysis_id x;
     rg_gap_id := rg_gap_id x; rg_order_index := rg_order_index x;
     rg_name := rg_name x; rg_description := rg_description x;
     rg_category := rg_category x;
     rg_initial_reasoning := rg_initial_reasoning x;
     rg_initial_evidence := rg_initial_evidence x;
     rg_validation_status := rg_validation_status x;
     rg_validation_query := rg_validation_query x;
     rg_validation_confidence := v;
     rg_validation_reasoning := rg_validation_reasoning x;
     rg_validated_at := rg_validated_at x;
     rg_papers_analyzed_count := rg_papers_analyzed_count x;
     rg_modification_history := rg_modification_history x;
     rg_supporting_papers := rg_supporting_papers x;
     rg_conflicting_papers := rg_conflicting_papers x;
     rg_expansion := rg_expansion x;
     rg_suggested_topics := rg_suggested_topics x;
     rg_evidence_anchors := rg_evidence_anchors x |}.

Definition set_rg_validation_reasoning (v : option string) (x : ResearchGap) : ResearchGap :=
  {| rg_id := rg_id x; rg_gap_analysis_id := rg_gap_analysis_id x;
     rg_gap_id := rg_gap_id x; rg_order_index := rg_order_index x;
     rg_name := rg_name x; rg_description := rg_description x;
     rg_category := rg_category x;
     rg_initial_reasoning := rg_initial_reasoning x;
     rg_initial_evidence := rg_initial_evidence x;
     rg_validation_status := rg_validation_status x;
     rg_validation_query := rg_validation_query x;
     rg_validation_confidence := rg_validation_confidence x;
     rg_validation_reasoning := v; rg_validated_at := rg_validated_at x;
     rg_papers_analyzed_count := rg_papers_analyzed_count x;
     rg_modification_history := rg_modification_history x;
     rg_supporting_papers := rg_supporting_papers x;
     rg_conflicting_papers := rg_conflicting_papers x;
     rg_expansion := rg_expansion x;
     rg_suggested_topics := rg_suggested_topics x;
     rg_evidence_anchors := rg_evidence_anchors x |}.

Definition set_rg_validated_at (v : option nat) (x : ResearchGap) : ResearchGap :=
  {| rg_id := rg_id x; rg_gap_analysis_id := rg_gap_analysis_id x;
     rg_gap_id := rg_gap_id x; rg_order_index := rg_order_index x;
     rg_name := rg_name x; rg_description := rg_description x;
     rg_category := rg_category x;
     rg_initial_reasoning := rg_initial_reasoning x;
     rg_initial_evidence := rg_initial_evidence x;
     rg_validation_status := rg_validation_status x;
     rg_validation_query := rg_validation_query x;
     rg_validation_confidence := rg_validation_confidence x;
     rg_validation_reasoning := rg_validation_reasoning x;
     rg_validated_at := v;
     rg_papers_analyzed_count := rg_papers_analyzed_count x;
     rg_modification_history := rg_modification_history x;
     rg_supporting_papers := rg_supporting_papers x;
     rg_conflicting_papers := rg_conflicting_papers x;
     rg_expansion := rg_expansion x;
     rg_suggested_topics := rg_suggested_topics x;
     rg_evidence_anchors := rg_evidence_anchors x |}.

Definition set_rg_papers_analyzed_count (v : option nat) (x : ResearchGap) : ResearchGap :=
  {| rg_id := rg_id x; rg_gap_analysis_id := rg_gap_analysis_id x;
     rg_gap_id := rg_gap_id x; rg_order_index := rg_order_index x;
     rg_name := rg_name x; rg_description := rg_description x;
     rg_category := rg_category x;
     rg_initial_reasoning := rg_initial_reasoning x;
     rg_initial_evidence := rg_initial_evidence x;
     rg_validation_status := rg_validation_status x;
     rg_validation_query := rg_validation_query x;
     rg_validation_confidence := rg_validation_confidence x;
     rg_validation_reasoning := rg_validation_reasoning x;
     rg_validated_at := rg_validated_at x; rg_papers_analyzed_count := v;
     rg_modification_history := rg_modification_history x;
     rg_supporting_papers := rg_supporting_papers x;
     rg_conflicting_papers := rg_conflicting_papers x;
     rg_expansion := rg_expansion x;
     rg_suggested_topics := rg_suggested_topics x;
     rg_evidence_anchors := rg_evidence_anchors x |}.

Definition set_rg_modification_history (v : option (list HistoryEntry)) (x : ResearchGap) : ResearchGap :=
  {| rg_id := rg_id x; rg_gap_analysis_id := rg_gap_analysis_id x;
     rg_gap_id := rg_gap_id x; rg_order_index := rg_order_index x;
     rg_name := rg_name x; rg_description := rg_description x;
     rg_category := rg_category x;
     rg_initial_reasoning := rg_initial_reasoning x;
     rg_initial_evidence := rg_initial_evidence x;
     rg_validation_status := rg_validation_status x;
     rg_validation_query := rg_validation_query x;
     rg_validation_confidence := rg_validation_confidence x;
     rg_validation_reasoning := rg_validation_reasoning x;
     rg_validated_at := rg_validated_at x;
     rg_papers_analyzed_count := rg_papers_analyzed_count x;
     rg_modification_history := v;
     rg_supporting_papers := rg_supporting_papers x;
     rg_conflicting_papers := rg_conflicting_papers x;
     rg_expansion := rg_expansion x;
     rg_suggested_topics := rg_suggested_topics x;
     rg_evidence_anchors := rg_evidence_anchors x |}.

Definition set_rg_supporting_papers (v : option (list PaperRef)) (x : ResearchGap) : ResearchGap :=
  {| rg_id := rg_id x; rg_gap_analysis_id := rg_gap_analysis_id x;
     rg_gap_id := rg_gap_id x; rg_order_index := rg_order_index x;
     rg_name := rg_name x; rg_description := rg_description x;
     rg_category := rg_category x;
     rg_initial_reasoning := rg_initial_reasoning x;
     rg_initial_evidence := rg_initial_evidence x;
     rg_validation_status := rg_validation_status x;
     rg_validation_query := rg_validation_query x;
     rg_validation_confidence := rg_validation_confidence x;
     rg_validation_reasoning := rg_validation_reasoning x;
     rg_validated_at := rg_validated_at x;
     rg_papers_analyzed_count := rg_papers_analyzed_count x;
     rg_modification_history := rg_modification_history x;
     rg_supporting_papers := v;
     rg_conflicting_papers := rg_conflicting_papers x;
     rg_expansion := rg_expansion x;
     rg_suggested_topics := rg_suggested_topics x;
     rg_evidence_anchors := rg_evidence_anchors x |}.

Definition set_rg_conflicting_papers (v : option (list PaperRef)) (x : ResearchGap) : ResearchGap :=
  {| rg_id := rg_id x; rg_gap_analysis_id := rg_gap_analysis_id x;
     rg_gap_id := rg_gap_id x; rg_order_index := rg_order_index x;
     rg_name := rg_name x; rg_description := rg_description x;
     rg_category := rg_category x;
     rg_initial_reasoning := rg_initial_reasoning x;
     rg_initial_evidence := rg_initial_evidence x;
     rg_validation_status := rg_validation_status x;
     rg_validation_query := rg_validation_query x;
     rg_validation_confidence := rg_validation_confidence x;
     rg_validation_reasoning := rg_validation_reasoning x;
     rg_validated_at := rg_validated_at x;
     rg_papers_analyzed_count := rg_papers_analyzed_count x;
     rg_modification_history := rg_modification_history x;
     rg_supporting_papers := rg_supporting_papers x;
     rg_conflicting_papers := v; rg_expansion := rg_expansion x;
     rg_suggested_topics := rg_suggested_topics x;
     rg_evidence_anchors := rg_evidence_anchors x |}.

Definition set_rg_expansion (v : Expansion) (x : ResearchGap) : ResearchGap :=
  {| rg_id := rg_id x; rg_gap_analysis_id := rg_gap_analysis_id x;
     rg_gap_id := rg_gap_id x; rg_order_index := rg_order_index x;
     rg_name := rg_name x; rg_description := rg_description x;
     rg_category := rg_category x;
     rg_initial_reasoning := rg_initial_reasoning x;
     rg_initial_evidence := rg_initial_evidence x;
     rg_validation_status := rg_validation_status x;
     rg_validation_query := rg_validation_query x;
     rg_validation_confidence := rg_validation_confidence x;
     rg_validation_reasoning := rg_validation_reasoning x;
     rg_validated_at := rg_validated_at x;
     rg_papers_analyzed_count := rg_papers_analyzed_count x;
     rg_modification_history := rg_modification_history x;
     rg_supporting_papers := rg_supporting_papers x;
     rg_conflicting_papers := rg_conflicting_papers x; rg_expansion := v;
     rg_suggested_topics := rg_suggested_topics x;
     rg_evidence_anchors := rg_evidence_anchors x |}.

Definition set_rg_suggested_topics (v : option (list TopicData)) (x : ResearchGap) : ResearchGap :=
  {| rg_id := rg_id x; rg_gap_analysis_id := rg_gap_analysis_id x;
     rg_gap_id := rg_gap_id x; rg_order_index := rg_order_index x;
     rg_name := rg_name x; rg_description := rg_description x;
     rg_category := rg_category x;
     rg_initial_reasoning := rg_initial_reasoning x;
     rg_initial_evidence := rg_initial_evidence x;
     rg_validation_status := rg_validation_status x;
     rg_validation_query := rg_validation_query x;
     rg_validation_confidence := rg_validation_confidence x;
     rg_validation_reasoning := rg_validation_reasoning x;
     rg_validated_at := rg_validated_at x;
     rg_papers_analyzed_count := rg_papers_analyzed_count x;
     rg_modification_history := rg_modification_history x;
     rg_supporting_papers := rg_supporting_papers x;
     rg_conflicting_papers := rg_conflicting_papers x;
     rg_expansion := rg_expansion x; rg_suggested_topics := v;
     rg_evidence_anchors := rg_evidence_anchors x |}.

Definition set_rg_evidence_anchors (v : option (list EvidenceAnchor)) (x : ResearchGap) : ResearchGap :=
  {| rg_id := rg_id x; rg_gap_analysis_id := rg_gap_analysis_id x;
     rg_gap_id := rg_gap_id x; rg_order_index := rg_order_index x;
     rg_name := rg_name x; rg_description := rg_description x;
     rg_category := rg_category x;
     rg_initial_reasoning := rg_initial_reasoning x;
     rg_initial_evidence := rg_initial_evidence x;
     rg_validation_status := rg_validation_status x;
     rg_validation_query := rg_validation_query x;
     rg_validation_confidence := rg_validation_confidence x;
     rg_validation_reasoning := rg_validation_reasoning x;
     rg_validated_at := rg_validated_at x;
     rg_papers_analyzed_count := rg_papers_analyzed_count x;
     rg_modification_history := rg_modification_history x;
     rg_supporting_papers := rg_supporting_papers x;
     rg_conflicting_papers := rg_conflicting_papers x;
     rg_expansion := rg_expansion x;
     rg_suggested_topics := rg_suggested_topics x;
     rg_evidence_anchors := v |}.

Record GapAnalysis := mk_GapAnalysis {
  ga_id : nat;
  ga_paper_id : string;
  ga_paper_extraction_id : string;
  ga_correlation_id : string;
  ga_request_id : string;
  ga_status : GapStatus;
  ga_started_at : nat;
  ga_config : string;
  ga_total_gaps_identified : option Z;
  ga_valid_gaps_count : option Z;
  ga_invalid_gaps_count : option Z;
  ga_completed_at : option nat;
  ga_error_message : option string
}.

Definition set_ga_status (v : GapStatus) (x : GapAnalysis) : GapAnalysis :=
  {| ga_id := ga_id x; ga_paper_id := ga_paper_id x;
     ga_paper_extraction_id := ga_paper_extraction_id x;
     ga_correlation_id := ga_correlation_id x;
     ga_request_id := ga_request_id x; ga_status := v;
     ga_started_at := ga_started_at x; ga_config := ga_config x;
     ga_total_gaps_identified := ga_total_gaps_identified x;
     ga_valid_gaps_count := ga_valid_gaps_count x;
     ga_invalid_gaps_count := ga_invalid_gaps_count x;
     ga_completed_at := ga_completed_at x;
     ga_error_message := ga_error_message x |}.

Definition set_ga_total_gaps_identified (v : option Z) (x : GapAnalysis) : GapAnalysis :=
  {| ga_id := ga_id x; ga_paper_id := ga_paper_id x;
     ga_paper_extraction_id := ga_paper_extraction_id x;
     ga_correlation_id := ga_correlation_id x;
     ga_request_id := ga_request_id x; ga_status := ga_status x;
     ga_started_at := ga_started_at x; ga_config := ga_config x;
     ga_total_gaps_identified := v;
     ga_valid_gaps_count := ga_valid_gaps_count x;
     ga_invalid_gaps_count := ga_invalid_gaps_count x;
     ga_completed_at := ga_completed_at x;
     ga_error_message := ga_error_message x |}.

Definition set_ga_valid_gaps_count (v : option Z) (x : GapAnalysis) : GapAnalysis :=
  {| ga_id := ga_id x; ga_paper_id := ga_paper_id x;
     ga_paper_extraction_id := ga_paper_extraction_id x;
     ga_correlation_id := ga_correlation_id x;
     ga_request_id := ga_request_id x; ga_status := ga_status x;
     ga_started_at := ga_started_at x; ga_config := ga_config x;
     ga_total_gaps_identified := ga_total_gaps_identified x;
     ga_valid_gaps_count := v;
     ga_invalid_gaps_count := ga_invalid_gaps_count x;
     ga_completed_at := ga_completed_at x;
     ga_error_message := ga_error_message x |}.

Definition set_ga_invalid_gaps_count (v : option Z) (x : GapAnalysis) : GapAnalysis :=
  {| ga_id := ga_id x; ga_paper_id := ga_paper_id x;
     ga_paper_extraction_id := ga_paper_extraction_id x;
     ga_correlation_id := ga_correlation_id x;
     ga_request_id := ga_request_id x; ga_status := ga_status x;
     ga_started_at := ga_started_at x; ga_config := ga_config x;
     ga_total_gaps_identified := ga_total_gaps_identified x;
     ga_valid_gaps_count := ga_valid_gaps_count x;
     ga_invalid_gaps_count := v; ga_completed_at := ga_completed_at x;
     ga_error_message := ga_error_message x |}.

Definition set_ga_completed_at (v : option nat) (x : GapAnalysis) : GapAnalysis :=
  {| ga_id := ga_id x; ga_paper_id := ga_paper_id x;
     ga_paper_extraction_id := ga_paper_extraction_id x;
     ga_correlation_id := ga_correlation_id x;
     ga_request_id := ga_request_id x; ga_status := ga_status x;
     ga_started_at := ga_started_at x; ga_config := ga_config x;
     ga_total_gaps_identified := ga_total_gaps_identified x;
     ga_valid_gaps_count := ga_valid_gaps_count x;
     ga_invalid_gaps_count := ga_invalid_gaps_count x; ga_completed_at := v;
     ga_error_message := ga_error_message x |}.

Definition set_ga_error_message (v : option string) (x : GapAnalysis) : GapAnalysis :=
  {| ga_id := ga_id x; ga_paper_id := ga_paper_id x;
     ga_paper_extraction_id := ga_paper_extraction_id x;
     ga_correlation_id := ga_correlation_id x;
     ga_request_id := ga_request_id x; ga_status := ga_status x;
     ga_started_at := ga_started_at x; ga_config := ga_config x;
     ga_total_gaps_identified := ga_total_gaps_identified x;
     ga_valid_gaps_count := ga_valid_gaps_count x;
     ga_invalid_gaps_count := ga_invalid_gaps_count x;
     ga_completed_at := ga_completed_at x; ga_error_message := v |}.

(** ** Rows of an extraction, as [_fetch_paper_data] reads them *)

(** A section with the [text] of its paragraph rows, in order; the same
    three members make the section [dict] of [extracted_content]. *)
Record SectionRow := mk_SectionRow {
  sr_title : option string;
  sr_section_type : option string;
  sr_paragraphs : list (option string)
}.

(** A figure or a table. *)
Record CaptionRow := mk_CaptionRow {
  cr_caption : option string;
  cr_label : option string
}.

(** What the queries that follow the extraction row answer: the sections in
    the order of their index, each with its paragraphs, the figures and the
    tables. *)
Record ExtractionRows := mk_ExtractionRows {
  er_sections : list SectionRow;
  er_figures : list CaptionRow;
  er_tables : list CaptionRow
}.

(** The [extracted_content] dictionary. *)
Record ExtractedDict := mk_ExtractedDict {
  xd_sections : list SectionRow;
  xd_figures : list CaptionRow;
  xd_tables : list CaptionRow;
  xd_conclusion : option string
}.

(** The empty dictionary returned when there is no extraction row: every
    [get] on it is falsy, as on a dictionary with empty lists. *)
Definition empty_dict : ExtractedDict := mk_ExtractedDict [] [] [] None.

(** ** The outside world *)

(** What is sent to the language model.  The wording of the prompts is not
    modelled, only which call it is and the data it is built from. *)
Inductive Prompt :=
| PromptInitialGaps (paper_data : string) (extracted_content : ExtractedDict)
| PromptSearchQuery (gap : InitialGap)
| PromptValidateGap (gap : InitialGap) (related_papers : list ExtractedContent)
| PromptExpandGap (gap : InitialGap) (confidence : option Q).

(** Calls that leave the process, in the order they are made. *)
Inductive Event :=
| EvCommit
| EvExecute
| EvRateLimit
| EvGenerateContent (p : Prompt)
| EvSleep (seconds : nat)
| EvSearch (provider query : string) (limit : Z)
| EvExtractUrl (pdf_url : string)
| EvCloseSearch
| EvCloseGrobid.

(** The reply of the expansion call once parsed. *)
Record ExpandedDetails := mk_ExpandedDetails {
  ed_expansion : Expansion;
  ed_suggested_topics : list TopicData
}.

(** Every behaviour of the collaborators: what each outside call answers.
    [None] in an [option exn] means that the call returns normally. *)
Record World := mk_World {
  (* persistence *)
  commit_outcome : nat -> option exn;
  execute_outcome : nat -> option exn;
  select_paper : string -> result (option string);
  select_extraction : string -> result (option ExtractionRows);
  uuid4 : nat -> string;
  (* language model: the n-th call of [model.generate_content] *)
  generate_content : nat -> Prompt -> result string;
  parse_initial_gaps : string -> result (list InitialGap);
  parse_validation : string -> result ValidationResult;
  parse_expanded : string -> result ExpandedDetails;
  (* search providers, each with its own retry wrapper already applied *)
  search_semantic_scholar : string -> Z -> result (list PaperSearchResult);
  search_crossref : string -> Z -> result (list PaperSearchResult);
  search_arxiv : string -> Z -> result (list PaperSearchResult);
  (* extraction service *)
  extract_from_url_outcome : string -> result ExtractedContent;
  (* HTTP clients *)
  close_search_outcome : option exn;
  close_grobid_outcome : option exn;
  (* [str.lower] and [str.strip] (of whitespace) of the interpreter *)
  str_lower : string -> string;
  str_strip : string -> string;
  (* helpers of [app/utils/helpers.py] *)
  clean_text : string -> string;
  calculate_similarity : string -> string -> Q
}.

(** The session: counters of the calls made so far, the clock, the ORM
    objects, the rows added, and the log of outside calls. *)
Record St := mk_St {
  n_commits : nat;
  n_executes : nat;
  n_llm_calls : nat;
  clock : nat;
  run : option GapAnalysis;
  status_writes : list GapStatus;
  gap_store : list ResearchGap;
  topics : list GapTopic;
  validation_papers : list GapValidationPaper;
  events : list Event
}.

Definition set_n_commits (v : nat) (x : St) : St :=
  {| n_commits := v; n_executes := n_executes x;
     n_llm_calls := n_llm_calls x; clock := clock x; run := run x;
     status_writes := status_writes x; gap_store := gap_store x;
     topics := topics x; validation_papers := validation_papers x;
     events := events x |}.

Definition set_n_executes (v : nat) (x : St) : St :=
  {| n_commits := n_commits x; n_executes := v; n_llm_calls := n_llm_calls x;
     clock := clock x; run := run x; status_writes := status_writes x;
     gap_store := gap_store x; topics := topics x;
     validation_papers := validation_papers x; events := events x |}.

Definition set_n_llm_calls (v : nat) (x : St) : St :=
  {| n_commits := n_commits x; n_executes := n_executes x; n_llm_calls := v;
     clock := clock x; run := run x; status_writes := status_writes x;
     gap_store := gap_store x; topics := topics x;
     validation_papers := validation_papers x; events := events x |}.

Definition set_clock (v : nat) (x : St) : St :=
  {| n_commits := n_commits x; n_executes := n_executes x;
     n_llm_calls := n_llm_calls x; clock := v; run := run x;
     status_writes := status_writes x; gap_store := gap_store x;
     topics := topics x; validation_papers := validation_papers x;
     events := events x |}.

Definition set_run (v : option GapAnalysis) (x : St) : St :=
  {| n_commits := n_commits x; n_executes := n_executes x;
     n_llm_calls := n_llm_calls x; clock := clock x; run := v;
     status_writes := status_writes x; gap_store := gap_store x;
     topics := topics x; validation_papers := validation_papers x;
     events := events x |}.

Definition set_status_writes (v : list GapStatus) (x : St) : St :=
  {| n_commits := n_commits x; n_executes := n_executes x;
     n_llm_calls := n_llm_calls x; clock := clock x; run := run x;
     status_writes := v; gap_store := gap_store x; topics := topics x;
     validation_papers := validation_papers x; events := events x |}.

Definition set_gap_store (v : list ResearchGap) (x : St) : St :=
  {| n_commits := n_commits x; n_executes := n_executes x;
     n_llm_calls := n_llm_calls x; clock := clock x; run := run x;
     status_writes := status_writes x; gap_store := v; topics := topics x;
     validation_papers := validation_papers x; events := events x |}.

Definition set_topics (v : list GapTopic) (x : St) : St :=
  {| n_commits := n_commits x; n_executes := n_executes x;
     n_llm_calls := n_llm_calls x; clock := clock x; run := run x;
     status_writes := status_writes x; gap_store := gap_store x; topics := v;
     validation_papers := validation_papers x; events := events x |}.

Definition set_validation_papers (v : list GapValidationPaper) (x : St) : St :=
  {| n_commits := n_commits x; n_executes := n_executes x;
     n_llm_calls := n_llm_calls x; clock := clock x; run := run x;
     status_writes := status_writes x; gap_store := gap_store x;
     topics := topics x; validation_papers := v; events := events x |}.

Definition set_events (v : list Event) (x : St) : St :=
  {| n_commits := n_commits x; n_executes := n_executes x;
     n_llm_calls := n_llm_calls x; clock := clock x; run := run x;
     status_writes := status_writes x; gap_store := gap_store x;
     topics := topics x; validation_papers := validation_papers x;
     events := v |}.

(** ** State and exceptions *)

Definition M (A : Type) : Type := St -> result A * St.

Definition ret {A} (a : A) : M A := fun st => (Ok a, st).

Definition bind {A B} (m : M A) (k : A -> M B) : M B :=
  fun st =>
    match m st with
    | (Ok a, st') => k a st'
    | (Raise e, st') => (Raise e, st')
    end.

Definition raise {A} (e : exn) : M A := fun st => (Raise e, st).

Definition lift {A} (r : result A) : M A := fun st => (r, st).

Definition lift_outcome (o : option exn) : M unit :=
  match o with
  | None => ret tt
  | Some e => raise e
  end.

Notation "'let*' x ':=' m 'in' k" := (bind m (fun x => k))
  (at level 10, x name, m at level 100, k at level 200).
Notation "m >> k" := (bind m (fun _ => k))
  (at level 100, k at level 200, right associativity).

(** [try: body  except Exception as e: handler(e)] *)
Definition try_except {A} (body : M A) (handler : exn -> M A) : M A :=
  fun st =>
    match body st with
    | (Ok a, st') => (Ok a, st')
    | (Raise e, st') => handler e st'
    end.

(** [try: x = first(); rest(x)  except Exception as e: handler(x, e)] where
    [x] is still [None] in the handler when [first] is the one that raised. *)
Definition try_let {A B} (first : M A) (rest : A -> M B)
    (handler : option A -> exn -> M B) : M B :=
  fun st =>
    match first st with
    | (Raise e, st') => handler None e st'
    | (Ok x, st') => try_except (rest x) (handler (Some x)) st'
    end.

(** [try: body  finally: cleanup]: the cleanup always runs; when it raises,
    its exception is the one that leaves the statement. *)
Definition try_finally {A} (body : M A) (cleanup : M unit) : M A :=
  fun st =>
    match body st with
    | (r, st') =>
        match cleanup st' with
        | (Ok _, st'') => (r, st'')
        | (Raise e, st'') => (Raise e, st'')
        end
    end.

Fixpoint mapM {A B} (f : A -> M B) (l : list A) : M (list B) :=
  match l with
  | [] => ret []
  | x :: l' => let* y := f x in let* ys := mapM f l' in ret (y :: ys)
  end.

(** [asyncio.gather] with [return_exceptions=True]: every task is awaited,
    its value or its exception is stored at the task's position. *)
Fixpoint gather {A} (tasks : list (M A)) : M (list (result A)) :=
  match tasks with
  | [] => ret []
  | t :: ts =>
      fun st =>
        match t st with
        | (r, st') => (let* rs := gather ts in ret (r :: rs)) st'
        end
  end.

Definition log (e : Event) : M unit :=
  fun st => (Ok tt, set_events (events st ++ [e]) st).

Definition datetime_now : M nat :=
  fun st => (Ok (clock st), set_clock (S (clock st)) st).

(** [await session.commit()] *)
Definition commit (w : World) : M unit :=
  fun st =>
    let st' := set_n_commits (S (n_commits st)) (set_events (events st ++ [EvCommit]) st) in
    match commit_outcome w (n_commits st) with
    | None => (Ok tt, st')
    | Some e => (Raise e, st')
    end.

(** [await session.execute(select(...))] *)
Definition execute (w : World) : M unit :=
  fun st =>
    let st' := set_n_executes (S (n_executes st)) (set_events (events st ++ [EvExecute]) st) in
    match execute_outcome w (n_executes st) with
    | None => (Ok tt, st')
    | Some e => (Raise e, st')
    end.

(** Attribute assignment on the [ResearchGap] object behind handle [h]. *)
Definition modify_gap (h : nat) (f : ResearchGap -> ResearchGap) : M unit :=
  fun st => (Ok tt, set_gap_store (alter f h (gap_store st)) st).

Definition read_gap (h : nat) : M ResearchGap :=
  fun st =>
    match gap_store st !! h with
    | Some g => (Ok g, st)
    | None => (Raise (mk_exn "ReferenceError" "no such gap record"), st)
    end.

(** Attribute assignment on the [GapAnalysis] object of the session. *)
Definition modify_run (f : GapAnalysis -> GapAnalysis) : M unit :=
  fun st => (Ok tt, set_run (f <$> run st) st).

Definition read_run : M GapAnalysis :=
  fun st =>
    match run st with
    | Some a => (Ok a, st)
    | None => (Raise (mk_exn "ReferenceError" "no analysis record"), st)
    end.

(** [analysis.status = s]; every such assignment is recorded in
    [status_writes]. *)
Definition assign_status (s : GapStatus) : M unit :=
  fun st =>
    (Ok tt, set_status_writes (status_writes st ++ [s])
              (set_run (set_ga_status s <$> run st) st)).

(** ** Search service ([app/services/search_service.py]): deduplication *)

Module Dedup.
Section Dedup.

(** [lower] is [str.lower]; [clean_text] and [calculate_similarity] come from
    [app/utils/helpers.py].  The deduplication is stated for any such
    functions. *)
Variable lower : string -> string.
Variable clean_text : string -> string.
Variable calculate_similarity : string -> string -> Q.

Definition threshold : Q := 8 # 10.

Definition normalized (r : PaperSearchResult) : string :=
  lower (clean_text (title r)).

(** The inner loop: scan the accepted results, stop at the first one whose
    title is more than [0.8] similar. *)
Definition is_duplicate (normalized_title : string)
    (unique_results : list PaperSearchResult) : bool :=
  existsb
    (fun existing_result =>
       Qgtb (calculate_similarity normalized_title (normalized existing_result))
            threshold)
    unique_results.

(** One iteration of the outer loop. *)
Definition dedup_step (unique_results : list PaperSearchResult)
    (r : PaperSearchResult) : list PaperSearchResult :=
  if is_duplicate (normalized r) unique_results
  then unique_results
  else unique_results ++ [r].

Definition _deduplicate_results (results : list PaperSearchResult)
  : list PaperSearchResult :=
  fold_left dedup_step results [].

End Dedup.
End Dedup.

(** ** Helpers ([app/utils/helpers.py]) *)

Module Helpers.

(** Modelled from the spec: the [retry_async] decorator of
    [app/utils/helpers.py], which is not part of the sources at hand.  The
    operation is run; when it fails, the wrapper waits [delay] and runs it
    again, up to [max_attempts] attempts in total; the failure of the last
    attempt goes to the caller. *)
Fixpoint retry_async {A} (max_attempts delay : nat) (op : M A) : M A :=
  match max_attempts with
  | 0 => raise (mk_exn "RuntimeError" "no attempt was made")
  | S k =>
      fun st =>
        match op st with
        | (Ok a, st') => (Ok a, st')
        | (Raise e, st') =>
            match k with
            | 0 => (Raise e, st')
            | S _ => (log (EvSleep delay) >> retry_async k delay op) st'
            end
        end
  end.

(** Modelled from the spec: [AsyncBatchProcessor.process] of
    [app/utils/helpers.py], which is not part of the sources at hand.  The
    tasks are run in submission order (one schedule of the bounded pool);
    the results come back in submission order, and a task that fails gives
    [None] at its position without disturbing the others. *)
Fixpoint process {B} (tasks : list (M (option B))) : M (list (option B)) :=
  match tasks with
  | [] => ret []
  | t :: ts =>
      fun st =>
        match t st with
        | (Ok r, st') => (let* rs := process ts in ret (r :: rs)) st'
        | (Raise _, st') => (let* rs := process ts in ret (None :: rs)) st'
        end
  end.

(** [RateLimiter.wait_if_needed]: only the fact that the limiter was
    consulted is kept. *)
Definition wait_if_needed : M unit := log EvRateLimit.

End Helpers.

(** ** [str] methods used by the services *)

Fixpoint drop_while {A} (p : A -> bool) (l : list A) : list A :=
  match l with
  | [] => []
  | x :: l' => if p x then drop_while p l' else l
  end.

(** [s.strip(chars)] with [p] telling which characters go. *)
Definition strip (p : ascii -> bool) (s : string) : string :=
  string_of_list_ascii
    (rev (drop_while p (rev (drop_while p (list_ascii_of_string s))))).

Definition is_dquote (c : ascii) : bool := (nat_of_ascii c =? 34)%nat.

(** ** Language-model service ([app/services/gemini_service.py]) *)

Module GeminiService.

(** [await asyncio.to_thread(self.model.generate_content, prompt)] followed
    by [response.text]. *)
Definition model_generate_content (w : World) (p : Prompt) : M string :=
  fun st =>
    (generate_content w (n_llm_calls st) p,
     set_n_llm_calls (S (n_llm_calls st))
       (set_events (events st ++ [EvGenerateContent p]) st)).

(** [' '.join(texts)]: a [TypeError] at the first item that is [None]. *)
Fixpoint str_join_check (i : nat) (texts : list (option string)) : result unit :=
  match texts with
  | [] => Ok tt
  | Some _ :: rest => str_join_check (S i) rest
  | None :: _ =>
      Raise (mk_exn "TypeError"
               ("sequence item " +:+ pretty i
                +:+ ": expected str instance, NoneType found"))
  end.

(** The loop of [_prepare_paper_context] over the sections: a section with a
    non-empty title has the texts of its first three paragraphs joined. *)
Fixpoint sections_check (sections : list SectionRow) : result unit :=
  match sections with
  | [] => Ok tt
  | section :: rest =>
      match (if truthy_str (sr_title section)
             then str_join_check 0 (take 3 (sr_paragraphs section))
             else Ok tt) with
      | Ok _ => sections_check rest
      | Raise e => Raise e
      end
  end.

(** [_prepare_paper_context]: the wording of the context is not modelled,
    only whether building it raises; the first ten sections are read. *)
Definition _prepare_paper_context (paper_data : string)
    (extracted_content : ExtractedDict) : result unit :=
  sections_check (take 10 (xd_sections extracted_content)).

Definition generate_initial_gaps (w : World) (paper_data : string)
    (extracted_content : ExtractedDict) : M (list InitialGap) :=
  Helpers.retry_async 3 2
    (try_except
       (Helpers.wait_if_needed >>
        lift (_prepare_paper_context paper_data extracted_content) >>
        let* text := model_generate_content w
                  (PromptInitialGaps paper_data extracted_content) in
        let* gaps := lift (parse_initial_gaps w text) in
        ret gaps)
       (fun _ => ret [])).

Definition fallback_query (gap : InitialGap) : string :=
  name gap +:+ " " +:+ category gap.

Definition generate_search_query (w : World) (gap : InitialGap) : M string :=
  try_except
    (let* text := model_generate_content w (PromptSearchQuery gap) in
     let query := strip is_dquote (str_strip w text) in
     ret query)
    (fun _ => ret (fallback_query gap)).

(** The default verdict of [validate_gap]. *)
Definition default_validation : ValidationResult :=
  mk_ValidationResult true (3 # 10) "Could not validate due to error" false
                      None [] [].

Definition validate_gap (w : World) (gap : InitialGap)
    (related_papers : list ExtractedContent) : M ValidationResult :=
  Helpers.retry_async 3 2
    (try_except
       (Helpers.wait_if_needed >>
        let* text := model_generate_content w
                  (PromptValidateGap gap (take 10 related_papers)) in
        let* validation := lift (parse_validation w text) in
        ret validation)
       (fun _ => ret default_validation)).

(** The [dict] that [_expand_gap_details] passes as [validation]. *)
Record ValidationDict := mk_ValidationDict {
  vd_confidence : option Q;
  vd_reasoning : option string
}.

(** [validation.confidence] on that [dict]: a [dict] has items, not
    attributes. *)
Definition dict_attr_confidence (validation : ValidationDict) : result (option Q) :=
  Raise (AttributeError "dict" "confidence").

Definition unavailable_details : ExpandedDetails :=
  mk_ExpandedDetails
    (mk_Expansion (Some "Unable to generate impact analysis")
                  (Some "Unable to generate hints")
                  (Some "Unable to generate suggestions")
                  (Some "Unable to identify risks")
                  (Some "Unable to identify resources")
                  (Some "unknown")
                  (Some "unknown"))
    [].

Definition expand_gap_details (w : World) (gap : InitialGap)
    (validation : ValidationDict) : M ExpandedDetails :=
  Helpers.retry_async 3 2
    (try_except
       (Helpers.wait_if_needed >>
        let* c := lift (dict_attr_confidence validation) in
        let* text := model_generate_content w (PromptExpandGap gap c) in
        let* expanded_data := lift (parse_expanded w text) in
        ret expanded_data)
       (fun _ => ret unavailable_details)).

End GeminiService.

(** ** Search service ([app/services/search_service.py]) *)

Module WebSearchService.

Definition _search_semantic_scholar (w : World) (query : string) (limit : Z)
  : M (list PaperSearchResult) :=
  log (EvSearch "semantic_scholar" query limit) >>
  lift (search_semantic_scholar w query limit).

Definition _search_crossref (w : World) (query : string) (limit : Z)
  : M (list PaperSearchResult) :=
  log (EvSearch "crossref" query limit) >>
  lift (search_crossref w query limit).

Definition _search_arxiv (w : World) (query : string) (limit : Z)
  : M (list PaperSearchResult) :=
  log (EvSearch "arxiv" query limit) >>
  lift (search_arxiv w query limit).

Definition _deduplicate_results (w : World) (results : list PaperSearchResult)
  : list PaperSearchResult :=
  Dedup._deduplicate_results (str_lower w) (clean_text w) (calculate_similarity w)
                             results.

(** The loop over [results_lists]: lists are appended, exceptions only
    logged. *)
Definition extend_all (results_lists : list (result (list PaperSearchResult)))
  : list PaperSearchResult :=
  fold_left
    (fun all_results results =>
       match results with
       | Ok l => all_results ++ l
       | Raise _ => all_results
       end)
    results_lists [].

Definition search_papers (w : World) (query : string) (max_results : Z)
  : M (list PaperSearchResult) :=
  let* results_lists := gather [ _search_semantic_scholar w query max_results;
                            _search_crossref w query max_results;
                            _search_arxiv w query max_results ] in
  let all_results := extend_all results_lists in
  let unique_results := _deduplicate_results w all_results in
  ret (slice_to unique_results max_results).

Definition close (w : World) : M unit :=
  log EvCloseSearch >> lift_outcome (close_search_outcome w).

End WebSearchService.

(** ** Extraction client ([app/services/grobid_client.py]) *)

Module GrobidClient.

Definition extract_from_url (w : World) (pdf_url : string) : M ExtractedContent :=
  log (EvExtractUrl pdf_url) >>
  lift (extract_from_url_outcome w pdf_url).

Definition _create_extraction_from_metadata (paper : PaperSearchResult)
  : M ExtractedContent :=
  ret (mk_ExtractedContent (title paper) (abstract paper) [] false
                           (Some "No PDF available")).

(** The task built for one paper. *)
Definition extraction_task (w : World) (paper : PaperSearchResult)
  : M ExtractedContent :=
  match pdf_url paper with
  | Some u =>
      if truthy_str (Some u) then extract_from_url w u
      else _create_extraction_from_metadata paper
  | None => _create_extraction_from_metadata paper
  end.

(** What the result loop appends for position [i]. *)
Definition collect (papers : list PaperSearchResult) (i : nat)
    (r : result ExtractedContent) : ExtractedContent :=
  match r with
  | Ok content => content
  | Raise e =>
      mk_ExtractedContent
        (match papers !! i with Some p => title p | None => "" end)
        None [] false (Some (exn_str e))
  end.

Definition extract_batch (w : World) (papers : list PaperSearchResult)
  : M (list ExtractedContent) :=
  let* results := gather (map (extraction_task w) papers) in
  ret (imap (collect papers) results).

Definition close (w : World) : M unit :=
  log EvCloseGrobid >> lift_outcome (close_grobid_outcome w).

End GrobidClient.

(** ** Orchestrator ([app/services/gap_analysis_service.py]) *)

Module GapAnalysisService.

(** [session.add], [session.commit] and [session.refresh] of a new object:
    the object joins the session, and one answer of the commit oracle stands
    for the round trip of the commit and of the refresh that follows it. *)
Definition _create_gap_analysis (w : World) (request : PyObject) : M nat :=
  let* paper_id := lift (getattr request "paper_id") in
  let* paper_extraction_id := lift (getattr request "paper_extraction_id") in
  let* correlation_id := lift (getattr request "correlation_id") in
  let* request_id := lift (getattr request "request_id") in
  let* started_at := datetime_now in
  let* config := lift (getattr request "config") in
  let analysis :=
    mk_GapAnalysis 0 paper_id paper_extraction_id correlation_id request_id
                   PROCESSING started_at config None None None None None in
  (fun st => (Ok tt, set_status_writes (status_writes st ++ [PROCESSING])
                       (set_run (Some analysis) st))) >>
  commit w >>
  ret (ga_id analysis).

(** [needle in s] *)
Fixpoint contains (needle s : string) : bool :=
  String.prefix needle s
  || match s with
     | EmptyString => false
     | String _ s' => contains needle s'
     end.

(** [' '.join([p.text for p in paragraphs if p.text])] *)
Definition joined_text (paragraphs : list (option string)) : string :=
  String.concat " "
    (omap (fun text => if truthy_str text then text else None) paragraphs).

(** The [conclusion] entry after the loop over the sections: the text of
    the last section whose title contains "conclusion". *)
Definition conclusion_of (w : World) (sections : list SectionRow) : option string :=
  fold_left
    (fun conclusion section =>
       if truthy_str (sr_title section)
          && contains "conclusion" (str_lower w (default "" (sr_title section)))
       then Some (joined_text (sr_paragraphs section))
       else conclusion)
    sections None.

(** [_fetch_paper_data]: the paper row; the extraction row; the sections,
    the figures and the tables; then one query per section for its
    paragraphs.  The paper row is kept as one value. *)
Definition _fetch_paper_data (w : World) (paper_id extraction_id : string)
  : M (option string * option ExtractedDict) :=
  execute w >>
  let* paper := lift (select_paper w paper_id) in
  match paper with
  | None => ret (None, None)
  | Some paper_data =>
      execute w >>
      let* extraction := lift (select_extraction w extraction_id) in
      match extraction with
      | None => ret (Some paper_data, Some empty_dict)
      | Some rows =>
          execute w >>
          execute w >>
          execute w >>
          mapM (fun section : SectionRow => execute w) (er_sections rows) >>
          ret (Some paper_data,
               Some (mk_ExtractedDict (er_sections rows) (er_figures rows)
                       (er_tables rows) (conclusion_of w (er_sections rows))))
      end
  end.

Definition _create_gap_record (w : World) (analysis_id : nat) (gap : InitialGap)
    (index : nat) : M nat :=
  fun st =>
    let h := length (gap_store st) in
    let gap_record :=
      mk_ResearchGap h analysis_id (uuid4 w h) index
                     (name gap) (description gap) (category gap)
                     (reasoning gap) (evidence gap)
                     INITIAL None None None None None None None None
                     no_expansion None None in
    (commit w >> ret h) (set_gap_store (gap_store st ++ [gap_record]) st).

Definition session_add_validation_paper (p : GapValidationPaper) : M unit :=
  fun st => (Ok tt, set_validation_papers (validation_papers st ++ [p]) st).

Definition session_add_topic (t : GapTopic) : M unit :=
  fun st => (Ok tt, set_topics (topics st ++ [t]) st).

Definition validation_paper_of (h : nat)
    (pc : PaperSearchResult * ExtractedContent) : GapValidationPaper :=
  let paper := fst pc in
  let content := snd pc in
  mk_GapValidationPaper h (title paper) (doi paper) (url paper)
    (if extraction_success content then "SUCCESS" else "FAILED")
    (if truthy_str (ec_abstract content) then ec_abstract content else None).

(** The branch taken when the search comes back empty. *)
Definition assume_valid (w : World) (h : nat) : M bool :=
  modify_gap h (set_rg_validation_status VALID) >>
  modify_gap h (set_rg_validation_confidence (Some (5 # 10))) >>
  let* t := datetime_now in
  modify_gap h (set_rg_validated_at (Some t)) >>
  commit w >>
  ret true.

(** The update of the record from the verdict. *)
Definition apply_validation (w : World) (gap : InitialGap) (h : nat)
    (validation_result : ValidationResult) : M bool :=
  modify_gap h (set_rg_validation_confidence (Some (confidence validation_result))) >>
  modify_gap h (set_rg_validation_reasoning (Some (vr_reasoning validation_result))) >>
  let* t := datetime_now in
  modify_gap h (set_rg_validated_at (Some t)) >>
  if is_valid validation_result then
    (if should_modify validation_result then
       modify_gap h (set_rg_validation_status MODIFIED) >>
       let* t' := datetime_now in
       modify_gap h (set_rg_modification_history
                       (Some [ mk_HistoryEntry t' (description gap)
                                 (modification_suggestion validation_result) ])) >>
       match modification_suggestion validation_result with
       | Some s =>
           if truthy_str (Some s) then modify_gap h (set_rg_description s)
           else ret tt
       | None => ret tt
       end
     else
       modify_gap h (set_rg_validation_status VALID)) >>
    modify_gap h (set_rg_supporting_papers
                    (Some (supporting_papers validation_result))) >>
    modify_gap h (set_rg_conflicting_papers
                    (Some (conflicting_papers validation_result))) >>
    commit w >>
    ret true
  else
    modify_gap h (set_rg_validation_status INVALID) >>
    commit w >>
    ret false.

(** The [try] block of [_validate_gap]. *)
Definition validate_body (w : World) (gap : InitialGap) (h : nat) : M bool :=
  modify_gap h (set_rg_validation_status VALIDATING) >>
  commit w >>
  let* search_query := GeminiService.generate_search_query w gap in
  modify_gap h (set_rg_validation_query (Some search_query)) >>
  let* related_papers := WebSearchService.search_papers w search_query 10 in
  match related_papers with
  | [] => assume_valid w h
  | _ :: _ =>
      let* extracted_contents := GrobidClient.extract_batch w related_papers in
      mapM (fun pc => session_add_validation_paper (validation_paper_of h pc))
           (zip related_papers extracted_contents) >>
      modify_gap h (set_rg_papers_analyzed_count (Some (length related_papers))) >>
      let* validation_result := GeminiService.validate_gap w gap extracted_contents in
      apply_validation w gap h validation_result
  end.

(** The [except] block of [_validate_gap]. *)
Definition validate_handler (w : World) (h : nat) (e : exn) : M bool :=
  modify_gap h (set_rg_validation_status VALID) >>
  modify_gap h (set_rg_validation_confidence (Some (3 # 10))) >>
  modify_gap h (set_rg_validation_reasoning
                  (Some ("Validation error: " +:+ exn_str e))) >>
  commit w >>
  ret true.

Definition _validate_gap (w : World) (gap : InitialGap) (h : nat) : M bool :=
  try_except (validate_body w gap h) (validate_handler w h).

Definition topic_of (h : nat) (topic_data : TopicData) : GapTopic :=
  mk_GapTopic h (td_title topic_data) (td_description topic_data)
    (Some (td_research_questions topic_data))
    (td_methodology_suggestions topic_data)
    (td_expected_outcomes topic_data)
    (match td_relevance_score topic_data with
     | Some v => v
     | None => Some (5 # 10)
     end).

Definition anchors_of (kind : string) (papers : option (list PaperRef))
  : list EvidenceAnchor :=
  match papers with
  | Some l =>
      map (fun paper : PaperRef =>
             mk_EvidenceAnchor (paper !! "title") (default "" (paper !! "url")) kind)
          l
  | None => []
  end.

Definition _expand_gap_details (w : World) (gap : InitialGap) (h : nat) : M unit :=
  try_except
    (let* gap_record := read_gap h in
     let validation_result :=
       GeminiService.mk_ValidationDict (rg_validation_confidence gap_record)
                                       (rg_validation_reasoning gap_record) in
     let* expanded_details := GeminiService.expand_gap_details w gap validation_result in
     modify_gap h (set_rg_expansion (ed_expansion expanded_details)) >>
     mapM (fun topic_data => session_add_topic (topic_of h topic_data))
          (ed_suggested_topics expanded_details) >>
     modify_gap h (set_rg_suggested_topics
                     (Some (ed_suggested_topics expanded_details))) >>
     let* gap_record' := read_gap h in
     modify_gap h (set_rg_evidence_anchors
                     (Some (anchors_of "supporting" (rg_supporting_papers gap_record')
                            ++ anchors_of "conflicting" (rg_conflicting_papers gap_record')))) >>
     commit w)
    (fun _ => ret tt).

Definition _process_single_gap (w : World) (analysis_id : nat) (gap : InitialGap)
    (index : nat) : M (option nat) :=
  try_except
    (let* gap_record := _create_gap_record w analysis_id gap index in
     let* valid := _validate_gap w gap gap_record in
     if valid : bool then
       _expand_gap_details w gap gap_record >>
       ret (Some gap_record)
     else ret None)
    (fun _ => ret None).

Definition _update_analysis_summary (w : World) (total_gaps valid_gaps : Z) : M unit :=
  modify_run (set_ga_total_gaps_identified (Some total_gaps)) >>
  modify_run (set_ga_valid_gaps_count (Some valid_gaps)) >>
  modify_run (set_ga_invalid_gaps_count (Some (total_gaps - valid_gaps)%Z)) >>
  assign_status COMPLETED >>
  let* t := datetime_now in
  modify_run (set_ga_completed_at (Some t)) >>
  commit w.

Definition _mark_analysis_failed (w : World) (error : string) : M unit :=
  assign_status FAILED >>
  modify_run (set_ga_error_message (Some error)) >>
  let* t := datetime_now in
  modify_run (set_ga_completed_at (Some t)) >>
  commit w.

Definition ValidationError (model field : string) : exn :=
  mk_exn "ValidationError" (model +:+ "." +:+ field +:+ ": input should be a valid value").

(** A required field of a response model: [None] is refused. *)
Definition required {A} (model field : string) (v : option A) : result A :=
  match v with
  | Some a => Ok a
  | None => Raise (ValidationError model field)
  end.

Definition research_topic_of (topic : GapTopic) : result ResearchTopic :=
  match required "ResearchTopic" "title" (gt_title topic) with
  | Raise e => Raise e
  | Ok t =>
      match required "ResearchTopic" "description" (gt_description topic) with
      | Raise e => Raise e
      | Ok d =>
          Ok (mk_ResearchTopic t d
                (default [] (gt_research_questions topic))
                (gt_methodology_suggestions topic)
                (gt_expected_outcomes topic)
                (float_or (gt_relevance_score topic) (5 # 10)))
      end
  end.

Fixpoint research_topics_of (l : list GapTopic) : result (list ResearchTopic) :=
  match l with
  | [] => Ok []
  | topic :: l' =>
      match research_topic_of topic with
      | Raise e => Raise e
      | Ok t =>
          match research_topics_of l' with
          | Raise e => Raise e
          | Ok ts => Ok (t :: ts)
          end
      end
  end.

Definition len_or_zero {A} (l : option (list A)) : nat :=
  match l with Some l' => length l' | None => 0 end.

(** One element of [evidence_anchors: List[Dict[str, str]]]: an anchor
    whose title is [None] is refused. *)
Definition anchor_dict (a : EvidenceAnchor) : result (string * string * string) :=
  match ea_title a with
  | Some t => Ok (t, ea_url a, ea_type a)
  | None => Raise (ValidationError "GapDetail" "evidence_anchors")
  end.

Fixpoint anchor_dicts (l : list EvidenceAnchor)
  : result (list (string * string * string)) :=
  match l with
  | [] => Ok []
  | a :: l' =>
      match anchor_dict a with
      | Raise e => Raise e
      | Ok d =>
          match anchor_dicts l' with
          | Raise e => Raise e
          | Ok ds => Ok (d :: ds)
          end
      end
  end.

(** [GapDetail(...)] *)
Definition gap_detail_of (gap : ResearchGap) (research_topics : list ResearchTopic)
  : result GapDetail :=
  match anchor_dicts (default [] (rg_evidence_anchors gap)) with
  | Raise e => Raise e
  | Ok evidence_anchors =>
      Ok (mk_GapDetail (rg_gap_id gap) (rg_name gap) (rg_description gap)
            (rg_category gap)
            (GapValidationStatus_str (rg_validation_status gap))
            (float_or (rg_validation_confidence gap) (5 # 10))
            evidence_anchors
            (len_or_zero (rg_supporting_papers gap))
            (len_or_zero (rg_conflicting_papers gap))
            research_topics)
  end.

(** One turn of the loop of [_prepare_response]. *)
Definition prepare_gap_detail (w : World) (h : nat) : M GapDetail :=
  let* gap := read_gap h in
  execute w >>
  let* rows := (fun st => (Ok (filter (fun t => gt_research_gap_id t = rg_id gap) (topics st)), st)) in
  let* research_topics := lift (research_topics_of rows) in
  lift (gap_detail_of gap research_topics).

Definition _prepare_response (w : World) (valid_gaps : list nat)
  : M GapAnalysisResponse :=
  let* gap_details := mapM (prepare_gap_detail w) valid_gaps in
  let* analysis := read_run in
  let* total := lift (required "GapAnalysisResponse" "total_gaps"
                          (ga_total_gaps_identified analysis)) in
  let* valid := lift (required "GapAnalysisResponse" "valid_gaps"
                          (ga_valid_gaps_count analysis)) in
  ret (mk_GapAnalysisResponse
         (ga_request_id analysis) (ga_correlation_id analysis) "SUCCESS"
         ("Successfully identified " +:+ pretty (length valid_gaps)
            +:+ " valid research gaps")
         (Some (pretty (ga_id analysis))) total valid (Some gap_details) None
         (ga_completed_at analysis)).

Definition failed_response (request_id correlation_id : string) (e : exn)
  : GapAnalysisResponse :=
  mk_GapAnalysisResponse request_id correlation_id "FAILED"
    ("Analysis failed: " +:+ exn_str e) None 0 0 None (Some (exn_str e)) None.

(** Steps 2 to 6, the part of the [try] block after the record is created. *)
Definition run_pipeline (w : World) (request : PyObject) (analysis : nat)
  : M GapAnalysisResponse :=
  let* paper_id := lift (getattr request "paper_id") in
  let* paper_extraction_id := lift (getattr request "paper_extraction_id") in
  let* fetched := _fetch_paper_data w paper_id paper_extraction_id in
  match fetched with
  | (Some paper_data, extracted_content) =>
      let* initial_gaps := GeminiService.generate_initial_gaps w paper_data
                        (default empty_dict extracted_content) in
      match initial_gaps with
      | [] => raise (ValueError "No gaps could be identified")
      | _ :: _ =>
          let gap_processing_tasks :=
            imap (fun i gap => _process_single_gap w analysis gap i) initial_gaps in
          let* gap_results := Helpers.process gap_processing_tasks in
          let valid_gaps := omap id gap_results in
          _update_analysis_summary w (Z.of_nat (length initial_gaps))
                                     (Z.of_nat (length valid_gaps)) >>
          let* response := _prepare_response w valid_gaps in
          ret response
      end
  | (None, _) => raise (ValueError "Paper not found")
  end.

(** The [except] block of [analyze_paper]. *)
Definition on_failure (w : World) (request : PyObject) (analysis : option nat)
    (e : exn) : M GapAnalysisResponse :=
  match analysis with
  | Some _ => _mark_analysis_failed w (exn_str e)
  | None => ret tt
  end >>
  let* request_id := lift (getattr request "request_id") in
  let* correlation_id := lift (getattr request "correlation_id") in
  ret (failed_response request_id correlation_id e).

Definition analyze_paper (w : World) (request : PyObject) : M GapAnalysisResponse :=
  try_finally
    (try_let (_create_gap_analysis w request)
             (run_pipeline w request)
             (on_failure w request))
    (WebSearchService.close w >> GrobidClient.close w).

End GapAnalysisService.

(** ** Reference values used in the statements *)

(** The results a provider contributes: its list, or nothing when it failed. *)
Definition surviving (r : result (list PaperSearchResult)) : list PaperSearchResult :=
  match r with
  | Ok l => l
  | Raise _ => []
  end.

(** The record expected at the position of [paper]. *)
Definition extraction_record (w : World) (paper : PaperSearchResult)
  : ExtractedContent :=
  if truthy_str (pdf_url paper) then
    match extract_from_url_outcome w (default "" (pdf_url paper)) with
    | Ok content => content
    | Raise e => mk_ExtractedContent (title paper) None [] false (Some (exn_str e))
    end
  else
    mk_ExtractedContent (title paper) (abstract paper) [] false
                        (Some "No PDF available").

(** What awaiting the task of [paper] gives. *)
Definition extraction_outcome (w : World) (paper : PaperSearchResult)
  : result ExtractedContent :=
  if truthy_str (pdf_url paper) then
    extract_from_url_outcome w (default "" (pdf_url paper))
  else
    Ok (mk_ExtractedContent (title paper) (abstract paper) [] false
                            (Some "No PDF available")).


(** The query that [generate_search_query] returns when the language model
    answers [r]. *)
Definition query_from (w : World) (gap : InitialGap) (r : result string)
  : string :=
  match r with
  | Ok text => strip is_dquote (str_strip w text)
  | Raise _ => GeminiService.fallback_query gap
  end.

(** The verdict that [validate_gap] returns when the language model
    answers [r]. *)
Definition verdict_from (w : World) (r : result string) : ValidationResult :=
  match r with
  | Ok text =>
      match parse_validation w text with
      | Ok v => v
      | Raise _ => GeminiService.default_validation
      end
  | Raise _ => GeminiService.default_validation
  end.

(** A status is terminal when it is not [PROCESSING]. *)
Definition terminal (s : GapStatus) : bool :=
  match s with
  | PROCESSING => false
  | COMPLETED | FAILED => true
  end.

(** A log of status writes in which a terminal status, once written, is never
    followed by the write of a different status. *)
Definition terminal_set_once (writes : list GapStatus) : Prop :=
  forall i j s t,
    i < j -> writes !! i = Some s -> terminal s = true ->
    writes !! j = Some t -> t = s.

(** The status writes that one run of [analyze_paper] can make. *)
Definition run_status_writes : list (list GapStatus) :=
  [ []; [PROCESSING]; [PROCESSING; COMPLETED]; [PROCESSING; FAILED];
    [PROCESSING; COMPLETED; FAILED] ].

(** What [search_papers] returns for a query, from the answers of the three
    providers. *)
Definition search_result (w : World) (query : string) (max_results : Z)
  : list PaperSearchResult :=
  slice_to
    (WebSearchService._deduplicate_results w
       (surviving (search_semantic_scholar w query max_results)
        ++ surviving (search_crossref w query max_results)
        ++ surviving (search_arxiv w query max_results)))
    max_results.

Definition search_events (query : string) (max_results : Z) : list Event :=
  [ EvSearch "semantic_scholar" query max_results;
    EvSearch "crossref" query max_results;
    EvSearch "arxiv" query max_results ].

(** ** Sample worlds and inputs *)

Module Examples.

Definition st_init : St := mk_St 0 0 0 0 None [] [] [] [] [].

Definition gap1 : InitialGap :=
  mk_InitialGap "Scalability" "No evaluation beyond one thousand nodes"
                "empirical" "Only small graphs are used" "Section 5".

Definition paperA : PaperSearchResult :=
  mk_PaperSearchResult "Scaling graph analysis" (Some "An abstract") None
                       (Some "http://a.example") (Some "http://a.example/a.pdf").

Definition paperB : PaperSearchResult :=
  mk_PaperSearchResult "Another study" None (Some "10.1/x") None None.

(** The paper of [paperA] as another provider lists it: the title differs
    in case only. *)
Definition paperA_again : PaperSearchResult :=
  mk_PaperSearchResult "SCALING GRAPH ANALYSIS" None None
                       (Some "http://arxiv.example/abs/1") None.

Definition paperC : PaperSearchResult :=
  mk_PaperSearchResult "A third study" None None None None.

(** An extraction with two sections, no figure and no table. *)
Definition rows1 : ExtractionRows :=
  mk_ExtractionRows
    [ mk_SectionRow (Some "Evaluation") (Some "body")
        [Some "Graphs of one thousand nodes are used."];
      mk_SectionRow (Some "Conclusion") (Some "body")
        [Some "Larger graphs are left to future work."] ]
    [] [].

Definition db_error : exn := mk_exn "OperationalError" "connection lost".

Definition verdict_invalid : ValidationResult :=
  mk_ValidationResult false (9 # 10) "already solved" false None [] [].

Definition verdict_modify : ValidationResult :=
  mk_ValidationResult true (7 # 10) "partly addressed" true
                      (Some "A narrower gap") [] [].


(** Lower-casing of the letters A to Z, the [str.lower] of the samples. *)
Definition lower_ascii (c : ascii) : ascii :=
  let n := nat_of_ascii c in
  if ((65 <=? n) && (n <=? 90))%nat then ascii_of_nat (n + 32) else c.

Fixpoint lower (s : string) : string :=
  match s with
  | EmptyString => EmptyString
  | String c s' => String (lower_ascii c) (lower s')
  end.

(** The whitespace below code point 128 (space, tab to carriage return, and
    the separators [0x1c] to [0x1f]), for the [str.strip] of the samples. *)
Definition is_space (c : ascii) : bool :=
  let n := nat_of_ascii c in
  ((n =? 32) || ((9 <=? n) && (n <=? 13)) || ((28 <=? n) && (n <=? 31)))%nat.

(** Titles are compared as they are and are similar only when equal. *)
Definition exact_similarity (s t : string) : Q :=
  if String.eqb s t then 1 else 0.

(** A world in which everything works but the second search provider, with
    the given behaviour of the commits and of the queries, the given
    results of the first and of the third provider, and the given
    verdict. *)
Definition world_full (commits executes : nat -> option exn)
    (found found_arxiv : list PaperSearchResult) (verdict : ValidationResult)
  : World :=
  mk_World commits executes
    (fun _ => Ok (Some "paper")) (fun _ => Ok (Some rows1))
    (fun n => "gap-" +:+ pretty n)
    (fun _ _ => Ok "  graph scalability  ")
    (fun _ => Ok [gap1]) (fun _ => Ok verdict)
    (fun _ => Ok GeminiService.unavailable_details)
    (fun _ _ => Ok found)
    (fun _ _ => Raise (mk_exn "ConnectError" "crossref is down"))
    (fun _ _ => Ok found_arxiv)
    (fun _ => Ok (mk_ExtractedContent "Scaling graph analysis"
                    (Some "An abstract") [] true None))
    None None lower (strip is_space) (fun s => s) exact_similarity.

(** The same, the third provider finding nothing. *)
Definition world_of (commits executes : nat -> option exn)
    (found : list PaperSearchResult) (verdict : ValidationResult) : World :=
  world_full commits executes found [] verdict.

Definition always_ok : nat -> option exn := fun _ => None.

Definition fails_at (k : nat) : nat -> option exn :=
  fun n => if (n =? k)%nat then Some db_error else None.

Definition fails_from (k : nat) : nat -> option exn :=
  fun n => if (k <=? n)%nat then Some db_error else None.

Definition quiet_world : World :=
  world_of always_ok always_ok [paperA; paperB] verdict_modify.

(** An object with the attributes that [analyze_paper] reads. *)
Definition request_double : PyObject :=
  mk_obj "SimpleNamespace"
         (<["paper_id" := "P1"]>
          (<["paper_extraction_id" := "E1"]>
           (<["correlation_id" := "corr-1"]>
            (<["request_id" := "req-1"]>
             (<["config" := "{}"]> ∅))))).

(** The query of response assembly fails: the eighth query of the run,
    after the seven of [_fetch_paper_data] for an extraction of two
    sections. *)
Definition world_assembly_fails : World :=
  world_of always_ok (fails_at 7) [paperA; paperB] verdict_modify.

(** The database is lost after the first commit. *)
Definition world_db_down : World :=
  world_of (fails_from 1) always_ok [paperA; paperB] verdict_modify.

(** The first and the third provider list the same paper. *)
Definition world_overlap : World :=
  world_full always_ok always_ok [paperA; paperB] [paperA_again; paperC]
             verdict_modify.

(** No provider finds anything. *)
Definition world_no_results : World :=
  world_of always_ok always_ok [] verdict_modify.


(** The session once the record of [gap1] has been created in [w]. *)
Definition st_one (w : World) : St :=
  snd (GapAnalysisService._create_gap_record w 0 gap1 0 st_init).

(** The session when the [try] block of the validation of that record has
    failed in [w]. *)
Definition st_body_failed (w : World) : St :=
  snd (GapAnalysisService.validate_body w gap1 0 (st_one w)).

(** The session at the end of a successful run in [w]. *)
Definition st_done (w : World) : St :=
  snd (GapAnalysisService.analyze_paper w request_double st_init).



End Examples.

(** ** Reference values for the further properties *)

(** The links that [extract_batch] follows: the non-empty [pdf_url]s, in the
    order of the papers. *)
Definition pdf_links (papers : list PaperSearchResult) : list string :=
  omap (fun p => if truthy_str (pdf_url p) then pdf_url p else None) papers.

(** The candidates that [generate_initial_gaps] returns when the language
    model answers [r]. *)
Definition initial_gaps_from (w : World) (r : result string) : list InitialGap :=
  match r with
  | Ok text =>
      match parse_initial_gaps w text with
      | Ok gaps => gaps
      | Raise _ => []
      end
  | Raise _ => []
  end.

(** The context of the paper can be built: among the first ten sections,
    every section with a non-empty title has a text in each of its first
    three paragraphs. *)
Definition context_builds (extracted_content : ExtractedDict) : Prop :=
  Forall (fun section =>
            truthy_str (sr_title section) = true ->
            Forall (fun text : option string => text <> None)
                   (take 3 (sr_paragraphs section)))
         (take 10 (xd_sections extracted_content)).

(** The candidates that [generate_initial_gaps] returns when the model has
    been called [n] times before: none when the context cannot be built. *)
Definition candidates_from (w : World) (n : nat) (paper_data : string)
    (extracted_content : ExtractedDict) : list InitialGap :=
  match GeminiService._prepare_paper_context paper_data extracted_content with
  | Ok _ =>
      initial_gaps_from w
        (generate_content w n (PromptInitialGaps paper_data extracted_content))
  | Raise _ => []
  end.

(** The model calls of [generate_initial_gaps]. *)
Definition candidate_calls (paper_data : string)
    (extracted_content : ExtractedDict) : list Event :=
  match GeminiService._prepare_paper_context paper_data extracted_content with
  | Ok _ => [EvGenerateContent (PromptInitialGaps paper_data extracted_content)]
  | Raise _ => []
  end.

(** The number of queries [_fetch_paper_data] makes for a paper that is
    found, and the dictionary it returns, from the answer of the extraction
    query. *)
Definition fetch_queries (extraction : option ExtractionRows) : nat :=
  match extraction with
  | None => 2
  | Some rows => 5 + length (er_sections rows)
  end.

Definition content_of (w : World) (extraction : option ExtractionRows)
  : ExtractedDict :=
  match extraction with
  | None => empty_dict
  | Some rows =>
      mk_ExtractedDict (er_sections rows) (er_figures rows) (er_tables rows)
        (GapAnalysisService.conclusion_of w (er_sections rows))
  end.

(** Two sessions that differ at most in the queries and model calls made
    and in the log of outside calls. *)
Definition same_records (st st' : St) : Prop :=
  n_commits st' = n_commits st /\ clock st' = clock st
  /\ run st' = run st /\ status_writes st' = status_writes st
  /\ gap_store st' = gap_store st /\ topics st' = topics st
  /\ validation_papers st' = validation_papers st.

(** The status a value returned by the validation goes with. *)
Definition status_fits (r : result bool) (s : GapValidationStatus) : Prop :=
  match r with
  | Ok true => s = VALID \/ s = MODIFIED
  | Ok false => s = INVALID
  | Raise _ => True
  end.

(** The ids under which the run of the session was requested. *)
Definition run_ids (st : St) : option (string * string) :=
  (fun a => (ga_request_id a, ga_correlation_id a)) <$> run st.

(** ** Further sample worlds *)

Module MoreExamples.
Import Examples.

(** An extraction whose only section has a paragraph without text. *)
Definition rows_without_text : ExtractionRows :=
  mk_ExtractionRows [ mk_SectionRow (Some "Methods") (Some "body") [None] ] [] [].

(** A world in which everything works but the second search provider, as
    [quiet_world], with the given answers of the paper query and of the
    extraction queries and the given decoding of the candidates. *)
Definition world_with (paper : result (option string))
    (extraction : option ExtractionRows)
    (candidates : result (list InitialGap)) : World :=
  mk_World always_ok always_ok
    (fun _ => paper) (fun _ => Ok extraction)
    (fun n => "gap-" +:+ pretty n)
    (fun _ _ => Ok "  graph scalability  ")
    (fun _ => candidates) (fun _ => Ok verdict_modify)
    (fun _ => Ok GeminiService.unavailable_details)
    (fun _ _ => Ok [paperA; paperB])
    (fun _ _ => Raise (mk_exn "ConnectError" "crossref is down"))
    (fun _ _ => Ok [])
    (fun _ => Ok (mk_ExtractedContent "Scaling graph analysis"
                    (Some "An abstract") [] true None))
    None None lower (strip is_space) (fun s => s) exact_similarity.

(** The paper of the request is not in the database. *)
Definition world_paper_missing : World :=
  world_with (Ok None) (Some rows1) (Ok [gap1]).

(** The context of the paper cannot be built. *)
Definition world_no_context : World :=
  world_with (Ok (Some "paper")) (Some rows_without_text) (Ok [gap1]).

(** The run of [request_double] in [quiet_world]. *)
Definition run_quiet : result GapAnalysisResponse * St :=
  Eval vm_compute in
    GapAnalysisService.analyze_paper quiet_world request_double st_init.

Definition response_quiet : GapAnalysisResponse :=
  match fst run_quiet with
  | Ok resp => resp
  | Raise e => GapAnalysisService.failed_response "" "" e
  end.

End MoreExamples.


(* ===================================================================== *)
(** * The message adapter (app/services/rabbitmq_service.py) *)

Module RabbitMQService.


























End RabbitMQService.

Module AdapterExamples.
Import Examples RabbitMQService.





End AdapterExamples.
(* ===================================================================== *)
(** * Properties *)

Section DedupFacts.

Variable lower : string -> string.
Variable clean_text : string -> string.
Variable calculate_similarity : string -> string -> Q.

Abbreviation dedup := (Dedup._deduplicate_results lower clean_text calculate_similarity).
Abbreviation step := (Dedup.dedup_step lower clean_text calculate_similarity).
Abbreviation dup := (Dedup.is_duplicate lower clean_text calculate_similarity).
Abbreviation norm := (Dedup.normalized lower clean_text).
Abbreviation sim := calculate_similarity.

Lemma Qgtb_true (a b : Q) : Qgtb a b = true <-> (b < a)%Q.
Proof.
  unfold Qgtb. rewrite negb_true_iff, <- not_true_iff_false, Qle_bool_iff.
  split; [apply Qnot_le_lt | apply Qlt_not_le].
Qed.

Lemma Qgtb_false (a b : Q) : Qgtb a b = false <-> (a <= b)%Q.
Proof.
  unfold Qgtb. rewrite negb_false_iff. apply Qle_bool_iff.
Qed.

Lemma is_duplicate_true t acc :
  dup t acc = true <->
  exists e, e ∈ acc /\ (Dedup.threshold < sim t (norm e))%Q.
Proof.
  unfold Dedup.is_duplicate. rewrite existsb_exists. split.
  - intros (e & Hin & Hgt). exists e. split.
    + by apply list_elem_of_In.
    + by apply Qgtb_true.
  - intros (e & Hin & Hgt). exists e. split.
    + by apply list_elem_of_In.
    + by apply Qgtb_true.
Qed.

Lemma is_duplicate_false t acc :
  dup t acc = false <->
  forall e, e ∈ acc -> (sim t (norm e) <= Dedup.threshold)%Q.
Proof.
  unfold Dedup.is_duplicate. split.
  - intros H e Hin. apply Qgtb_false.
    apply not_true_iff_false. intros Hgt.
    apply not_true_iff_false in H. apply H.
    apply existsb_exists. exists e. split; [by apply list_elem_of_In | done].
  - intros H. apply not_true_iff_false. intros Hex.
    apply existsb_exists in Hex as (e & Hin & Hgt).
    apply Qgtb_true in Hgt. apply list_elem_of_In in Hin.
    specialize (H e Hin). by apply Qlt_not_le in Hgt.
Qed.

Lemma dedup_snoc pre r : dedup (pre ++ [r]) = step (dedup pre) r.
Proof. unfold Dedup._deduplicate_results. by rewrite fold_left_app. Qed.

Lemma dedup_app pre post :
  dedup (pre ++ post) = fold_left step post (dedup pre).
Proof. unfold Dedup._deduplicate_results. by rewrite fold_left_app. Qed.

Lemma step_cases acc r :
  (dup (norm r) acc = true /\ step acc r = acc) \/
  (dup (norm r) acc = false /\ step acc r = acc ++ [r]).
Proof.
  unfold Dedup.dedup_step. destruct (dup (norm r) acc); [left | right]; done.
Qed.

Lemma fold_step_prefix post : forall acc, acc `prefix_of` fold_left step post acc.
Proof.
  induction post as [|r post IH]; intros acc; simpl; [done|].
  destruct (step_cases acc r) as [[_ ->]|[_ ->]]; [apply IH|].
  etrans; [|apply IH]. by apply prefix_app_r.
Qed.

Lemma fold_step_head post : forall a acc,
  head (fold_left step post (a :: acc)) = Some a.
Proof.
  intros a acc. destruct (fold_step_prefix post (a :: acc)) as [k ->]. done.
Qed.

Lemma dedup_sublist results : dedup results `sublist_of` results.
Proof.
  induction results as [|r pre IH] using rev_ind; [done|].
  rewrite dedup_snoc.
  destruct (step_cases (dedup pre) r) as [[_ ->]|[_ ->]].
  - by apply sublist_inserts_r.
  - by apply sublist_app.
Qed.

Lemma ForallOrdPairs_snoc {A} (R : A -> A -> Prop) (l : list A) (x : A) :
  ForallOrdPairs R l -> (forall a, a ∈ l -> R a x) -> ForallOrdPairs R (l ++ [x]).
Proof.
  induction 1 as [|a l Ha Hl IH]; intros Hx; simpl.
  - constructor; [constructor | constructor].
  - constructor.
    + apply Forall_app. split; [done|].
      constructor; [|constructor]. apply Hx. by left.
    + apply IH. intros b Hb. apply Hx. by right.
Qed.

Lemma dedup_pairwise results :
  ForallOrdPairs (fun a b => (sim (norm b) (norm a) <= Dedup.threshold)%Q)
                 (dedup results).
Proof.
  induction results as [|r pre IH] using rev_ind; [constructor|].
  rewrite dedup_snoc.
  destruct (step_cases (dedup pre) r) as [[_ ->]|[Hd ->]]; [done|].
  apply ForallOrdPairs_snoc; [done|].
  by apply is_duplicate_false.
Qed.

Lemma snoc_neq {A} (l : list A) (x : A) : l ++ [x] <> l.
Proof.
  intros H. apply (f_equal length) in H. rewrite length_app in H. simpl in H. lia.
Qed.

Lemma ForallOrdPairs_lookup {A} (R : A -> A -> Prop) (l : list A) i j a b :
  ForallOrdPairs R l -> i < j -> l !! i = Some a -> l !! j = Some b -> R a b.
Proof.
  intros H. revert i j. induction H as [|x l Hx Hl IH]; intros i j Hij Hi Hj.
  - done.
  - destruct j as [|j]; [lia|]. destruct i as [|i]; simpl in Hi, Hj.
    + injection Hi as ->. rewrite Forall_forall in Hx. apply Hx.
      by eapply list_elem_of_lookup_2.
    + eapply (IH i j); [lia|done|done].
Qed.

(** Every result of the input is kept, or more than [0.8] similar to a
    result that is kept. *)
Lemma dedup_cover results :
  Forall (fun r =>
            r ∈ dedup results
            \/ exists e, e ∈ dedup results
                         /\ (Dedup.threshold < sim (norm r) (norm e))%Q)
         results.
Proof.
  induction results as [|r pre IH] using rev_ind; [constructor|].
  assert (Hmono : forall x, x ∈ dedup pre -> x ∈ dedup (pre ++ [r])).
  { intros x Hx. rewrite dedup_app.
    destruct (fold_step_prefix [r] (dedup pre)) as [k ->].
    apply elem_of_app. by left. }
  apply Forall_app. split.
  - eapply Forall_impl; [exact IH|]. simpl.
    intros x [Hx|(e & He & Hsim)]; [left; auto|right; exists e; auto].
  - apply Forall_singleton. rewrite dedup_snoc.
    destruct (step_cases (dedup pre) r) as [[Hd ->]|[Hd ->]].
    + right. by apply is_duplicate_true.
    + left. apply elem_of_app. right. by apply list_elem_of_singleton.
Qed.

(** C3.  Deduplication keeps a subsequence of the input in first-occurrence
    order: what was accepted after a prefix stays accepted, in place; the
    next result is dropped exactly when its normalized title (the cleaned
    title, lower-cased) is more than [0.8] similar to the normalized title
    of a result accepted before it, and is appended exactly when all those
    similarities are at most [0.8]; the first result of a non-empty input
    is always kept; for any two results of the output the similarity
    computed between the later and the earlier title is at most [0.8]; and
    when the similarity is symmetric, so is the similarity of any two
    results of the output, in either order. *)
Theorem deduplicate_results_first_occurrence (results : list PaperSearchResult) :
  dedup results `sublist_of` results
  /\ (forall pre post, dedup pre `prefix_of` dedup (pre ++ post))
  /\ (forall pre r,
        (dedup (pre ++ [r]) = dedup pre <->
         exists e, e ∈ dedup pre
                   /\ (8 # 10 < sim (lower (clean_text (title r)))
                                   (lower (clean_text (title e))))%Q)
        /\ (dedup (pre ++ [r]) = dedup pre ++ [r] <->
            forall e, e ∈ dedup pre ->
                      (sim (lower (clean_text (title r)))
                           (lower (clean_text (title e))) <= 8 # 10)%Q))
  /\ (forall r rest, head (dedup (r :: rest)) = Some r)
  /\ ForallOrdPairs
       (fun a b => (sim (lower (clean_text (title b)))
                        (lower (clean_text (title a))) <= 8 # 10)%Q)
       (dedup results)
  /\ ((forall s t, (sim s t == sim t s)%Q) ->
      forall i j a b,
        i <> j -> dedup results !! i = Some a -> dedup results !! j = Some b ->
        (sim (lower (clean_text (title a)))
             (lower (clean_text (title b))) <= 8 # 10)%Q).
Proof.
  pose proof (dedup_pairwise results) as Hpair.
  unfold Dedup.normalized, Dedup.threshold in Hpair.
  split; [apply dedup_sublist|].
  split; [intros pre post; rewrite dedup_app; apply fold_step_prefix|].
  split.
  { intros pre r. rewrite dedup_snoc.
    pose proof (is_duplicate_true (norm r) (dedup pre)) as Ht.
    pose proof (is_duplicate_false (norm r) (dedup pre)) as Hf.
    unfold Dedup.normalized, Dedup.threshold in Ht, Hf.
    rewrite <- Ht, <- Hf.
    destruct (step_cases (dedup pre) r) as [[Hd ->]|[Hd ->]];
      unfold Dedup.normalized in Hd; rewrite Hd.
    - split; split; try done. intros H. symmetry in H. by apply snoc_neq in H.
    - split; split; try done. intros H. by apply snoc_neq in H. }
  split.
  { intros r rest. unfold Dedup._deduplicate_results. simpl.
    unfold Dedup.dedup_step at 2. simpl. apply fold_step_head. }
  split; [exact Hpair|].
  intros Hsym i j a b Hij Ha Hb.
  destruct (Nat.lt_total i j) as [Hlt|[Heq|Hgt]]; [|done|].
  - rewrite Hsym.
    exact (ForallOrdPairs_lookup _ _ i j a b Hpair Hlt Ha Hb).
  - exact (ForallOrdPairs_lookup _ _ j i b a Hpair Hgt Hb Ha).
Qed.

End DedupFacts.

(** ** Running the monad *)

Lemma bind_ok {A B} (m : M A) (k : A -> M B) st a st' :
  m st = (Ok a, st') -> bind m k st = k a st'.
Proof. unfold bind. by intros ->. Qed.

Lemma bind_raise {A B} (m : M A) (k : A -> M B) st e st' :
  m st = (Raise e, st') -> bind m k st = (Raise e, st').
Proof. unfold bind. by intros ->. Qed.

Lemma try_except_ok {A} (m : M A) (h : exn -> M A) st a st' :
  m st = (Ok a, st') -> try_except m h st = (Ok a, st').
Proof. unfold try_except. by intros ->. Qed.

Lemma try_except_raise {A} (m : M A) (h : exn -> M A) st e st' :
  m st = (Raise e, st') -> try_except m h st = h e st'.
Proof. unfold try_except. by intros ->. Qed.

Lemma commit_ok w st :
  commit_outcome w (n_commits st) = None ->
  commit w st =
  (Ok tt, set_n_commits (S (n_commits st)) (set_events (events st ++ [EvCommit]) st)).
Proof. unfold commit. by intros ->. Qed.

Lemma commit_raise w st e :
  commit_outcome w (n_commits st) = Some e ->
  commit w st =
  (Raise e, set_n_commits (S (n_commits st)) (set_events (events st ++ [EvCommit]) st)).
Proof. unfold commit. by intros ->. Qed.

(** [gather] never raises and answers once per task. *)
Lemma gather_total {A} (tasks : list (M A)) :
  forall st, exists rs st',
    gather tasks st = (Ok rs, st') /\ length rs = length tasks.
Proof.
  induction tasks as [|t ts IH]; intros st; simpl.
  - by exists [], st.
  - destruct (t st) as [r st1]. destruct (IH st1) as (rs & st2 & Hg & Hlen).
    exists (r :: rs), st2. split; [|simpl; lia].
    by rewrite (bind_ok _ _ _ _ _ Hg).
Qed.

(** When each task answers as [out] says, whatever the state, [gather]
    returns those answers in task order. *)
Lemma gather_map {A X} (task : X -> M A) (out : X -> result A) (xs : list X) :
  (forall x st, fst (task x st) = out x) ->
  forall st, exists st', gather (map task xs) st = (Ok (map out xs), st').
Proof.
  intros Hout. induction xs as [|x xs IH]; intros st; simpl.
  - by exists st.
  - specialize (Hout x st). destruct (task x st) as [r st1]. simpl in Hout. subst r.
    destruct (IH st1) as (st2 & Hg). exists st2.
    by rewrite (bind_ok _ _ _ _ _ Hg).
Qed.

(** ** Search *)

Lemma search_papers_run w query max_results st :
  WebSearchService.search_papers w query max_results st =
  (Ok (search_result w query max_results),
   set_events (events st ++ search_events query max_results) st).
Proof.
  unfold WebSearchService.search_papers, search_result, search_events,
    WebSearchService._search_semantic_scholar,
    WebSearchService._search_crossref, WebSearchService._search_arxiv,
    WebSearchService.extend_all, bind, gather, log, lift, ret.
  simpl.
  destruct (search_semantic_scholar w query max_results),
    (search_crossref w query max_results),
    (search_arxiv w query max_results); simpl;
    rewrite ?app_nil_r, <- ?app_assoc; reflexivity.
Qed.

(** C6.  The query goes to the three providers (in the model: one after
    the other, each exactly once, whatever the others answer); the search
    never raises, and returns the deduplicated merge, in provider order and
    then in each provider's order, of the results of the providers that did
    not fail, cut to [max_results].  The deduplicated merge is a
    subsequence of the merge that starts with its first result; any later
    result of it is at most [0.8] similar in normalized title to any
    earlier one; and every result of the merge is in it or is more than
    [0.8] similar to one that is. *)
Theorem search_papers_survives_provider_failure
    (w : World) (query : string) (max_results : Z) (st : St) :
  (0 <= max_results)%Z ->
  exists unique st',
    WebSearchService.search_papers w query max_results st
    = (Ok (take (Z.to_nat max_results) unique), st')
    /\ events st' =
       events st ++ [ EvSearch "semantic_scholar" query max_results;
                      EvSearch "crossref" query max_results;
                      EvSearch "arxiv" query max_results ]
    /\ unique = WebSearchService._deduplicate_results w
                  (surviving (search_semantic_scholar w query max_results)
                   ++ surviving (search_crossref w query max_results)
                   ++ surviving (search_arxiv w query max_results))
    /\ unique `sublist_of`
         (surviving (search_semantic_scholar w query max_results)
          ++ surviving (search_crossref w query max_results)
          ++ surviving (search_arxiv w query max_results))
    /\ head unique
       = head (surviving (search_semantic_scholar w query max_results)
               ++ surviving (search_crossref w query max_results)
               ++ surviving (search_arxiv w query max_results))
    /\ ForallOrdPairs
         (fun a b =>
            (calculate_similarity w
               (str_lower w (clean_text w (title b)))
               (str_lower w (clean_text w (title a))) <= 8 # 10)%Q)
         unique
    /\ Forall
         (fun r =>
            r ∈ unique
            \/ exists e,
                 e ∈ unique
                 /\ (8 # 10 < calculate_similarity w
                                (str_lower w (clean_text w (title r)))
                                (str_lower w (clean_text w (title e))))%Q)
         (surviving (search_semantic_scholar w query max_results)
          ++ surviving (search_crossref w query max_results)
          ++ surviving (search_arxiv w query max_results)).
Proof.
  intros Hmax.
  set (merged := surviving (search_semantic_scholar w query max_results)
                 ++ surviving (search_crossref w query max_results)
                 ++ surviving (search_arxiv w query max_results)).
  exists (WebSearchService._deduplicate_results w merged),
    (set_events (events st ++ search_events query max_results) st).
  split.
  { rewrite search_papers_run. unfold search_result, slice_to.
    apply Z.leb_le in Hmax. by rewrite Hmax. }
  split; [reflexivity|].
  split; [reflexivity|].
  unfold WebSearchService._deduplicate_results.
  split; [apply dedup_sublist|].
  split.
  { destruct merged as [|r rest]; [done|].
    unfold Dedup._deduplicate_results. simpl.
    unfold Dedup.dedup_step at 2. simpl. apply fold_step_head. }
  split.
  - exact (dedup_pairwise (str_lower w) (clean_text w) (calculate_similarity w)
                          merged).
  - exact (dedup_cover (str_lower w) (clean_text w) (calculate_similarity w)
                       merged).
Qed.

(** ** Batch extraction *)

Lemma extraction_task_outcome w paper st :
  fst (GrobidClient.extraction_task w paper st) = extraction_outcome w paper.
Proof.
  unfold GrobidClient.extraction_task, extraction_outcome.
  destruct (pdf_url paper) as [u|]; [|done]. simpl.
  destruct (negb (u =? "")%string); [|done].
  unfold GrobidClient.extract_from_url, bind, log, lift. done.
Qed.

Lemma collect_outcomes w papers :
  imap (GrobidClient.collect papers) (map (extraction_outcome w) papers)
  = map (extraction_record w) papers.
Proof.
  apply list_eq. intros i.
  rewrite list_lookup_imap, !list_lookup_fmap.
  destruct (papers !! i) as [p|] eqn:Hp; simpl; [|done].
  f_equal. unfold GrobidClient.collect, extraction_outcome, extraction_record.
  destruct (truthy_str (pdf_url p)); [|done].
  destruct (extract_from_url_outcome w _); [done|]. by rewrite Hp.
Qed.

Lemma zip_with_image {A B} (f : A -> B) (l : list A) :
  zip l (map f l) = map (fun x => (x, f x)) l.
Proof. induction l as [|x l IH]; simpl; [done|]. by rewrite IH. Qed.

Lemma extract_batch_value w papers st :
  exists st',
    GrobidClient.extract_batch w papers st
    = (Ok (map (extraction_record w) papers), st').
Proof.
  destruct (gather_map (GrobidClient.extraction_task w) (extraction_outcome w)
              papers (extraction_task_outcome w) st) as (st' & Hg).
  exists st'. unfold GrobidClient.extract_batch.
  rewrite (bind_ok _ _ _ _ _ Hg). unfold ret. by rewrite collect_outcomes.
Qed.

(** C9.  Batch extraction never raises and returns exactly one record per
    input result, in input order: the record the extraction returned, or,
    when the extraction raised, a placeholder with [extraction_success =
    false] and the error text; a result without a PDF link gets a
    placeholder with [extraction_success = false] and the error
    "No PDF available".  Pairing results and records by position loses
    nothing. *)
Theorem extract_batch_position_aligned
    (w : World) (papers : list PaperSearchResult) (st : St) :
  exists contents st',
    GrobidClient.extract_batch w papers st = (Ok contents, st')
    /\ length contents = length papers
    /\ contents = map (extraction_record w) papers
    /\ zip papers contents = map (fun p => (p, extraction_record w p)) papers
    /\ Forall (fun p =>
                 (truthy_str (pdf_url p) = false ->
                  extraction_success (extraction_record w p) = false
                  /\ ec_error (extraction_record w p) = Some "No PDF available")
                 /\ (forall e,
                       truthy_str (pdf_url p) = true ->
                       extract_from_url_outcome w (default "" (pdf_url p)) = Raise e ->
                       extraction_success (extraction_record w p) = false
                       /\ ec_error (extraction_record w p) = Some (exn_str e)))
              papers.
Proof.
  destruct (extract_batch_value w papers st) as (st' & Hrun).
  exists (map (extraction_record w) papers), st'.
  split; [done|].
  split; [by rewrite length_map|]. split; [done|].
  split; [apply zip_with_image|].
  apply Forall_forall. intros p _. unfold extraction_record. split.
  - by intros ->.
  - intros e -> ->. done.
Qed.

(** ** Language-model calls *)

(** C8.  [generate_search_query] never raises, and when the call to the
    language model fails it returns the query built from the name and the
    category of the gap.  It makes that call exactly once and nothing else:
    the rate limiter is not consulted and a failed call is not tried
    again. *)
Theorem generate_search_query_single_unthrottled_call
    (w : World) (gap : InitialGap) (st : St) :
  exists st',
    GeminiService.generate_search_query w gap st =
    (Ok (query_from w gap (generate_content w (n_llm_calls st) (PromptSearchQuery gap))),
     st')
    /\ events st' = events st ++ [EvGenerateContent (PromptSearchQuery gap)]
    /\ n_llm_calls st' = S (n_llm_calls st).
Proof.
  unfold GeminiService.generate_search_query, try_except, bind,
    GeminiService.model_generate_content, ret, query_from.
  destruct (generate_content w (n_llm_calls st) (PromptSearchQuery gap));
    eexists; (split; [reflexivity|]); simpl; done.
Qed.

(** The verdict call, by contrast, consults the rate limiter before its one
    call to the model; it never raises: any failure gives the default
    verdict, so its retry wrapper never sees a failure to retry. *)
Lemma validate_gap_default_on_failure
    (w : World) (gap : InitialGap) (papers : list ExtractedContent) (st : St) :
  exists st',
    GeminiService.validate_gap w gap papers st =
    (Ok (verdict_from w
           (generate_content w (n_llm_calls st)
              (PromptValidateGap gap (take 10 papers)))), st')
    /\ events st' =
       events st ++ [EvRateLimit; EvGenerateContent (PromptValidateGap gap (take 10 papers))]
    /\ n_llm_calls st' = S (n_llm_calls st)
    /\ n_commits st' = n_commits st
    /\ gap_store st' = gap_store st
    /\ clock st' = clock st.
Proof.
  unfold GeminiService.validate_gap, Helpers.retry_async, try_except, bind,
    Helpers.wait_if_needed, log, GeminiService.model_generate_content, lift, ret,
    verdict_from.
  simpl.
  destruct (generate_content w (n_llm_calls st) _) as [text|e]; simpl.
  - destruct (parse_validation w text); eexists; (split; [reflexivity|]); simpl;
      rewrite <- ?app_assoc; done.
  - eexists; (split; [reflexivity|]); simpl; rewrite <- ?app_assoc; done.
Qed.

(** ** Response assembly *)

Lemma bind_ok_inv {A B} (m : M A) (k : A -> M B) st b st' :
  bind m k st = (Ok b, st') ->
  exists a st1, m st = (Ok a, st1) /\ k a st1 = (Ok b, st').
Proof.
  unfold bind. destruct (m st) as [[a|e] st1]; [|done]. intros H. by exists a, st1.
Qed.







(** ** Frames: what an operation leaves alone *)

Definition preserves {A B} (proj : St -> B) (m : M A) : Prop :=
  forall st, proj (snd (m st)) = proj st.

Section Frames.
Context {B : Type} (proj : St -> B).

Lemma preserves_ret {A} (a : A) : preserves proj (ret a).
Proof. done. Qed.

Lemma preserves_raise {A} (e : exn) : preserves proj (raise (A:=A) e).
Proof. done. Qed.

Lemma preserves_lift {A} (r : result A) : preserves proj (lift r).
Proof. done. Qed.

Lemma preserves_lift_outcome (o : option exn) : preserves proj (lift_outcome o).
Proof. by destruct o. Qed.

Lemma preserves_bind {A C} (m : M A) (k : A -> M C) :
  preserves proj m -> (forall a, preserves proj (k a)) -> preserves proj (bind m k).
Proof.
  intros Hm Hk st. unfold bind. specialize (Hm st).
  destruct (m st) as [[a|e] st1]; simpl in *; [|done].
  by rewrite Hk.
Qed.

Lemma preserves_try_except {A} (m : M A) (h : exn -> M A) :
  preserves proj m -> (forall e, preserves proj (h e)) ->
  preserves proj (try_except m h).
Proof.
  intros Hm Hh st. unfold try_except. specialize (Hm st).
  destruct (m st) as [[a|e] st1]; simpl in *; [done|].
  by rewrite Hh.
Qed.

Lemma preserves_try_finally {A} (m : M A) (c : M unit) :
  preserves proj m -> preserves proj c -> preserves proj (try_finally m c).
Proof.
  intros Hm Hc st. unfold try_finally. specialize (Hm st).
  destruct (m st) as [r st1]. specialize (Hc st1).
  destruct (c st1) as [[[]|e] st2]; simpl in *; congruence.
Qed.

Lemma preserves_mapM {A C} (f : A -> M C) (l : list A) :
  (forall x, preserves proj (f x)) -> preserves proj (mapM f l).
Proof.
  intros Hf. induction l as [|x l IH]; simpl; [apply preserves_ret|].
  apply preserves_bind; [done|]. intros y.
  apply preserves_bind; [done|]. intros ys. apply preserves_ret.
Qed.

Lemma preserves_gather {A} (tasks : list (M A)) :
  Forall (preserves proj) tasks -> preserves proj (gather tasks).
Proof.
  induction 1 as [|t ts Ht Hts IH]; simpl; [apply preserves_ret|].
  intros st. specialize (Ht st). destruct (t st) as [r st1]. simpl in Ht.
  rewrite <- Ht. apply (preserves_bind (gather ts)); [done|].
  intros rs. apply preserves_ret.
Qed.

Lemma preserves_process {C} (tasks : list (M (option C))) :
  Forall (preserves proj) tasks -> preserves proj (Helpers.process tasks).
Proof.
  induction 1 as [|t ts Ht Hts IH]; simpl; [apply preserves_ret|].
  intros st. specialize (Ht st). destruct (t st) as [[r|e] st1]; simpl in Ht;
    rewrite <- Ht; (apply (preserves_bind (Helpers.process ts)); [done|]);
    intros rs; apply preserves_ret.
Qed.

Lemma preserves_retry_async {A} (n delay : nat) (op : M A) :
  preserves proj (log (EvSleep delay)) -> preserves proj op ->
  preserves proj (Helpers.retry_async n delay op).
Proof.
  intros Hlog Hop. induction n as [|k IH]; simpl; [apply preserves_raise|].
  intros st. specialize (Hop st). destruct (op st) as [[a|e] st1]; simpl in Hop; [done|].
  destruct k; [done|]. rewrite <- Hop.
  apply (preserves_bind (log (EvSleep delay))); [done|]. intros _. exact IH.
Qed.

End Frames.

(** Operations that touch one component of the state leave the others. *)
Ltac preserves_prim :=
  let st := fresh "st" in
  intros st;
  cbv [log datetime_now commit execute modify_gap read_gap modify_run read_run
       GapAnalysisService.session_add_validation_paper
       GapAnalysisService.session_add_topic
       GeminiService.model_generate_content Helpers.wait_if_needed];
  repeat case_match; reflexivity.

Create HintDb frames.

Ltac preserves_step :=
  first
    [ solve [auto with frames nocore]
    | apply preserves_ret
    | apply preserves_raise
    | apply preserves_lift
    | apply preserves_lift_outcome
    | apply preserves_bind; [|intros ?]
    | apply preserves_try_except; [|intros ?]
    | apply preserves_try_finally
    | apply preserves_mapM; intros ?
    | apply preserves_retry_async
    | solve [preserves_prim]
    | match goal with
      | |- preserves _ (match ?x with _ => _ end) => destruct x
      end ].

Ltac preserves_tac := repeat preserves_step.

Lemma status_writes_generate_search_query w gap :
  preserves status_writes (GeminiService.generate_search_query w gap).
Proof. unfold GeminiService.generate_search_query. preserves_tac. Qed.

Lemma status_writes_validate_gap w gap papers :
  preserves status_writes (GeminiService.validate_gap w gap papers).
Proof. unfold GeminiService.validate_gap. preserves_tac. Qed.

Lemma status_writes_expand_gap_details w gap v :
  preserves status_writes (GeminiService.expand_gap_details w gap v).
Proof. unfold GeminiService.expand_gap_details. preserves_tac. Qed.

Lemma status_writes_generate_initial_gaps w p c :
  preserves status_writes (GeminiService.generate_initial_gaps w p c).
Proof. unfold GeminiService.generate_initial_gaps. preserves_tac. Qed.

Lemma status_writes_search_papers w q n :
  preserves status_writes (WebSearchService.search_papers w q n).
Proof.
  unfold WebSearchService.search_papers. preserves_tac.
Qed.

Lemma status_writes_extract_batch w papers :
  preserves status_writes (GrobidClient.extract_batch w papers).
Proof.
  unfold GrobidClient.extract_batch. preserves_tac.
  apply preserves_gather. apply Forall_forall. intros t (p & -> & _)%list_elem_of_fmap.
  unfold GrobidClient.extraction_task, GrobidClient.extract_from_url,
    GrobidClient._create_extraction_from_metadata.
  preserves_tac.
Qed.

#[export] Hint Resolve status_writes_generate_search_query status_writes_validate_gap
  status_writes_expand_gap_details status_writes_generate_initial_gaps
  status_writes_search_papers status_writes_extract_batch : frames.

Lemma status_writes_create_gap_record w a gap i :
  preserves status_writes (GapAnalysisService._create_gap_record w a gap i).
Proof.
  intros st. unfold GapAnalysisService._create_gap_record, bind, commit, ret. simpl.
  by destruct (commit_outcome w (n_commits st)).
Qed.

Lemma status_writes_validate w gap h :
  preserves status_writes (GapAnalysisService._validate_gap w gap h).
Proof.
  unfold GapAnalysisService._validate_gap, GapAnalysisService.validate_body,
    GapAnalysisService.validate_handler, GapAnalysisService.assume_valid,
    GapAnalysisService.apply_validation.
  preserves_tac.
Qed.

Lemma status_writes_expand w gap h :
  preserves status_writes (GapAnalysisService._expand_gap_details w gap h).
Proof.
  unfold GapAnalysisService._expand_gap_details. preserves_tac.
Qed.

#[export] Hint Resolve status_writes_create_gap_record status_writes_validate
  status_writes_expand : frames.

Lemma status_writes_process_single_gap w a gap i :
  preserves status_writes (GapAnalysisService._process_single_gap w a gap i).
Proof.
  unfold GapAnalysisService._process_single_gap.
  preserves_tac.
Qed.

Lemma status_writes_fetch_paper_data w p x :
  preserves status_writes (GapAnalysisService._fetch_paper_data w p x).
Proof. unfold GapAnalysisService._fetch_paper_data. preserves_tac. Qed.

Lemma status_writes_prepare_response w hs :
  preserves status_writes (GapAnalysisService._prepare_response w hs).
Proof.
  unfold GapAnalysisService._prepare_response, GapAnalysisService.prepare_gap_detail.
  preserves_tac.
Qed.

Lemma status_writes_cleanup w :
  preserves status_writes (WebSearchService.close w >> GrobidClient.close w).
Proof.
  unfold WebSearchService.close, GrobidClient.close. preserves_tac.
Qed.

(** ** The status of a run *)

Lemma bind_preserved_cases {A C} (m : M A) (k : A -> M C) st :
  preserves status_writes m ->
  (exists e st1, bind m k st = (Raise e, st1)
                 /\ status_writes st1 = status_writes st)
  \/ (exists a st1, bind m k st = k a st1
                    /\ status_writes st1 = status_writes st).
Proof.
  intros Hm. specialize (Hm st). unfold bind.
  destruct (m st) as [[a|e] st1]; simpl in Hm; [right|left]; eauto.
Qed.

Tactic Notation "step_bind" "by" tactic(tac)
    "as" simple_intropattern(a) simple_intropattern(st1) :=
  match goal with
  | |- context [bind ?m ?k ?st] =>
      let H := fresh in
      assert (H : preserves status_writes m) by tac;
      destruct (bind_preserved_cases m k st H)
        as [(? & st1 & -> & ?)|(a & st1 & -> & ?)];
      clear H
  end.

Ltac stop_here :=
  exists []; simpl; rewrite app_nil_r; split; [congruence|auto].

Lemma update_analysis_summary_writes w total valid st :
  status_writes (snd (GapAnalysisService._update_analysis_summary w total valid st))
  = status_writes st ++ [COMPLETED].
Proof.
  unfold GapAnalysisService._update_analysis_summary, bind, modify_run,
    assign_status, datetime_now, commit. simpl.
  by destruct (commit_outcome w (n_commits st)).
Qed.

Lemma mark_analysis_failed_writes w error st :
  status_writes (snd (GapAnalysisService._mark_analysis_failed w error st))
  = status_writes st ++ [FAILED].
Proof.
  unfold GapAnalysisService._mark_analysis_failed, bind, modify_run,
    assign_status, datetime_now, commit. simpl.
  by destruct (commit_outcome w (n_commits st)).
Qed.

Lemma create_gap_analysis_writes w request st :
  match GapAnalysisService._create_gap_analysis w request st with
  | (Ok _, st1) => status_writes st1 = status_writes st ++ [PROCESSING]
  | (Raise _, st1) =>
      status_writes st1 = status_writes st
      \/ status_writes st1 = status_writes st ++ [PROCESSING]
  end.
Proof.
  unfold GapAnalysisService._create_gap_analysis, bind, lift, datetime_now,
    commit, ret.
  destruct (getattr request "paper_id"); [|by left].
  destruct (getattr request "paper_extraction_id"); [|by left].
  destruct (getattr request "correlation_id"); [|by left].
  destruct (getattr request "request_id"); [|by left]. simpl.
  destruct (getattr request "config"); [|by left]. simpl.
  destruct (commit_outcome w (n_commits st)); [by right|done].
Qed.

Lemma process_tasks_preserve w a (gaps : list InitialGap) :
  preserves status_writes
    (Helpers.process
       (imap (fun i gap => GapAnalysisService._process_single_gap w a gap i) gaps)).
Proof.
  apply preserves_process. apply Forall_forall.
  intros t (i & gap & -> & _)%elem_of_lookup_imap.
  apply status_writes_process_single_gap.
Qed.

Lemma prepare_response_success w hs st resp st' :
  GapAnalysisService._prepare_response w hs st = (Ok resp, st') ->
  status resp = "SUCCESS".
Proof.
  unfold GapAnalysisService._prepare_response.
  intros (ds & st1 & _ & Hrest)%bind_ok_inv.
  apply bind_ok_inv in Hrest as (a & st2 & _ & Hrest).
  apply bind_ok_inv in Hrest as (total & st3 & _ & Hrest).
  apply bind_ok_inv in Hrest as (valid & st4 & _ & Hret).
  by injection Hret as <- <-.
Qed.

Lemma summary_then_response w total hs st :
  let tail :=
    GapAnalysisService._update_analysis_summary w total (Z.of_nat (length hs)) >>
    let* response := GapAnalysisService._prepare_response w hs in
    ret response in
  status_writes (snd (tail st)) = status_writes st ++ [COMPLETED]
  /\ match fst (tail st) with
     | Ok resp => [COMPLETED] = [COMPLETED] /\ status resp = "SUCCESS"
     | Raise _ => True
     end.
Proof.
  simpl. unfold bind at 1 3.
  pose proof (update_analysis_summary_writes w total (Z.of_nat (length hs)) st) as Hsum.
  destruct (GapAnalysisService._update_analysis_summary w total _ st)
    as [[[]|e] st6]; simpl in Hsum; [|done].
  pose proof (status_writes_prepare_response w hs st6) as Hprep.
  unfold bind.
  destruct (GapAnalysisService._prepare_response w hs st6)
    as [[resp|e] st7] eqn:Hresp; simpl in Hprep |- *.
  - split; [congruence|]. split; [done|]. by eapply prepare_response_success.
  - split; [congruence|done].
Qed.

(** Steps 2 to 6 write [COMPLETED] at most once, and always before they
    return a response. *)
Lemma run_pipeline_writes w request a st :
  exists l,
    status_writes (snd (GapAnalysisService.run_pipeline w request a st))
    = status_writes st ++ l
    /\ match fst (GapAnalysisService.run_pipeline w request a st) with
       | Ok resp => l = [COMPLETED] /\ status resp = "SUCCESS"
       | Raise _ => l = [] \/ l = [COMPLETED]
       end.
Proof.
  unfold GapAnalysisService.run_pipeline.
  step_bind by (apply preserves_lift) as paper_id st1; [stop_here|].
  step_bind by (apply preserves_lift) as extraction_id st2; [stop_here|].
  step_bind by (apply status_writes_fetch_paper_data) as fetched st3; [stop_here|].
  destruct fetched as [[paper_data|] extracted_content]; [|stop_here].
  step_bind by (apply status_writes_generate_initial_gaps) as initial_gaps st4;
    [stop_here|].
  destruct initial_gaps as [|gap0 gaps0]; [stop_here|].
  step_bind by (apply process_tasks_preserve) as gap_results st5; [stop_here|].
  destruct (summary_then_response w (Z.of_nat (length (gap0 :: gaps0)))
              (omap id gap_results) st5) as (Hw & Hr).
  exists [COMPLETED]. split; [etrans; [exact Hw|]; congruence|].
  destruct (fst _); [done|by right].
Qed.

(** The failure handler writes [FAILED] when there is a record to mark, and
    answers, when it answers, with a [FAILED] response. *)
Lemma on_failure_writes w request analysis e st :
  status_writes (snd (GapAnalysisService.on_failure w request analysis e st))
  = status_writes st ++ match analysis with Some _ => [FAILED] | None => [] end
  /\ match fst (GapAnalysisService.on_failure w request analysis e st) with
     | Ok resp => status resp = "FAILED"
     | Raise _ => True
     end.
Proof.
  unfold GapAnalysisService.on_failure. unfold bind at 1 4.
  assert (Hm : exists r st1,
             match analysis with
             | Some _ => GapAnalysisService._mark_analysis_failed w (exn_str e)
             | None => ret tt
             end st = (r, st1)
             /\ status_writes st1
                = status_writes st
                  ++ match analysis with Some _ => [FAILED] | None => [] end).
  { destruct analysis as [a|].
    - pose proof (mark_analysis_failed_writes w (exn_str e) st) as H.
      destruct (GapAnalysisService._mark_analysis_failed w (exn_str e) st) as [r st1].
      by exists r, st1.
    - exists (Ok tt), st. by rewrite app_nil_r. }
  destruct Hm as (r & st1 & -> & Hs). destruct r as [[]|e1]; [|done].
  unfold bind, lift, ret.
  destruct (getattr request "request_id"); [|done].
  by destruct (getattr request "correlation_id").
Qed.

(** C2.  One call of [analyze_paper] writes the status of its run at most
    three times, in the order [PROCESSING], [COMPLETED], [FAILED]: nothing
    is ever written after [FAILED]; [COMPLETED] is written at most once and
    can only be followed by one write, of [FAILED], made by the failure
    handler; a response with status [SUCCESS] is returned only after the
    writes [PROCESSING; COMPLETED], and a response with status [FAILED]
    never after a log ending in [COMPLETED]. *)
Theorem analyze_paper_status_writes (w : World) (request : PyObject) (st : St) :
  exists l,
    status_writes (snd (GapAnalysisService.analyze_paper w request st))
    = status_writes st ++ l
    /\ l ∈ run_status_writes
    /\ match fst (GapAnalysisService.analyze_paper w request st) with
       | Ok resp =>
           (status resp = "SUCCESS" /\ l = [PROCESSING; COMPLETED])
           \/ (status resp = "FAILED"
               /\ l ∈ [ []; [PROCESSING]; [PROCESSING; FAILED];
                        [PROCESSING; COMPLETED; FAILED] ])
       | Raise _ => True
       end.
Proof.
  unfold GapAnalysisService.analyze_paper, try_finally.
  set (body := try_let _ _ _).
  assert (Hbody : exists l,
             status_writes (snd (body st)) = status_writes st ++ l
             /\ l ∈ run_status_writes
             /\ match fst (body st) with
                | Ok resp =>
                    (status resp = "SUCCESS" /\ l = [PROCESSING; COMPLETED])
                    \/ (status resp = "FAILED"
                        /\ l ∈ [ []; [PROCESSING]; [PROCESSING; FAILED];
                                 [PROCESSING; COMPLETED; FAILED] ])
                | Raise _ => True
                end).
  { subst body. unfold try_let.
    pose proof (create_gap_analysis_writes w request st) as Hc.
    destruct (GapAnalysisService._create_gap_analysis w request st)
      as [[a|e] st1].
    - unfold try_except.
      destruct (run_pipeline_writes w request a st1) as (l & Hl & Hr).
      destruct (GapAnalysisService.run_pipeline w request a st1)
        as [[resp|e] st2]; simpl in Hl, Hr.
      + destruct Hr as [-> Hs]. exists [PROCESSING; COMPLETED]. simpl.
        split; [rewrite Hl, Hc, <- app_assoc; done|].
        split; [unfold run_status_writes; set_solver|by left].
      + destruct (on_failure_writes w request (Some a) e st2) as (Hf & Hs).
        destruct (GapAnalysisService.on_failure w request (Some a) e st2)
          as [r st3]; simpl in Hf, Hs.
        exists ([PROCESSING] ++ l ++ [FAILED]). simpl.
        split; [rewrite Hf, Hl, Hc, <- !app_assoc; done|].
        destruct Hr as [->| ->]; simpl;
          (split; [unfold run_status_writes; set_solver|]);
          (destruct r; [right; split; [done|set_solver]|done]).
    - destruct (on_failure_writes w request None e st1) as (Hf & Hs).
      destruct (GapAnalysisService.on_failure w request None e st1)
        as [r st3]; simpl in Hf, Hs. rewrite app_nil_r in Hf.
      destruct Hc as [Hc|Hc].
      + exists []. simpl. rewrite app_nil_r.
        split; [congruence|].
        split; [unfold run_status_writes; set_solver|].
        destruct r; [right; split; [done|set_solver]|done].
      + exists [PROCESSING]. simpl.
        split; [congruence|].
        split; [unfold run_status_writes; set_solver|].
        destruct r; [right; split; [done|set_solver]|done]. }
  destruct Hbody as (l & Hl & Hin & Hr).
  destruct (body st) as [r st1]. simpl in Hl, Hr.
  pose proof (status_writes_cleanup w st1) as Hclean.
  destruct ((WebSearchService.close w >> GrobidClient.close w) st1)
    as [[[]|e] st2]; simpl in Hclean |- *; exists l;
    (split; [congruence|]); (split; [done|]); done.
Qed.

(** ** Validation of one gap *)

(** Read a component of a state through the updates of the others. *)
Ltac st_fields :=
  cbn [n_commits n_executes n_llm_calls clock run status_writes gap_store topics
       validation_papers events
       set_n_commits set_n_executes set_n_llm_calls set_clock set_run
       set_status_writes set_gap_store set_topics set_validation_papers
       set_events] in *.

Lemma generate_search_query_run w gap st :
  GeminiService.generate_search_query w gap st =
  (Ok (query_from w gap (generate_content w (n_llm_calls st) (PromptSearchQuery gap))),
   set_n_llm_calls (S (n_llm_calls st))
     (set_events (events st ++ [EvGenerateContent (PromptSearchQuery gap)]) st)).
Proof.
  unfold GeminiService.generate_search_query, try_except, bind,
    GeminiService.model_generate_content, ret, query_from.
  by destruct (generate_content w (n_llm_calls st) (PromptSearchQuery gap)).
Qed.

(** C7.  When the search comes back empty (and the two commits of the step
    succeed), validation marks the gap [VALID] with confidence [0.5], stamps
    [validated_at], leaves [validation_reasoning] as it was, and reports the
    gap as valid; besides the commits it makes one call to the language
    model for the query and the three searches, and neither an extraction
    nor a verdict call. *)
Theorem validate_gap_no_related_work
    (w : World) (gap : InitialGap) (h : nat) (st : St) (g : ResearchGap) :
  gap_store st !! h = Some g ->
  commit_outcome w (n_commits st) = None ->
  commit_outcome w (S (n_commits st)) = None ->
  search_result w
    (query_from w gap (generate_content w (n_llm_calls st) (PromptSearchQuery gap)))
    10 = [] ->
  exists st' g',
    GapAnalysisService._validate_gap w gap h st = (Ok true, st')
    /\ gap_store st' !! h = Some g'
    /\ rg_validation_status g' = VALID
    /\ rg_validation_confidence g' = Some (5 # 10)
    /\ rg_validated_at g' = Some (clock st)
    /\ rg_validation_reasoning g' = rg_validation_reasoning g
    /\ n_llm_calls st' = S (n_llm_calls st)
    /\ validation_papers st' = validation_papers st
    /\ events st' =
       events st
       ++ [EvCommit; EvGenerateContent (PromptSearchQuery gap)]
       ++ search_events
            (query_from w gap
               (generate_content w (n_llm_calls st) (PromptSearchQuery gap))) 10
       ++ [EvCommit].
Proof.
  intros Hg Hc0 Hc1 Hempty.
  unfold GapAnalysisService._validate_gap, GapAnalysisService.validate_body,
    try_except.
  erewrite bind_ok by reflexivity.
  erewrite bind_ok by (apply commit_ok; exact Hc0).
  erewrite bind_ok by apply generate_search_query_run.
  erewrite bind_ok by reflexivity.
  erewrite bind_ok by apply search_papers_run.
  st_fields. rewrite Hempty.
  unfold GapAnalysisService.assume_valid.
  do 2 (erewrite bind_ok by reflexivity).
  erewrite bind_ok by reflexivity.
  erewrite bind_ok by reflexivity.
  erewrite bind_ok by (apply commit_ok; exact Hc1).
  unfold ret.
  eexists _, _. split; [reflexivity|]. simpl.
  rewrite !list_lookup_alter_eq, Hg. simpl.
  split; [reflexivity|]. simpl. rewrite <- !app_assoc. done.
Qed.

(** Batch extraction only adds to the log of outside calls. *)
Lemma preserves_extract_batch {B} (proj : St -> B) w papers :
  (forall v s, proj (set_events v s) = proj s) ->
  preserves proj (GrobidClient.extract_batch w papers).
Proof.
  intros Hev. unfold GrobidClient.extract_batch.
  apply preserves_bind; [|intros; apply preserves_ret].
  apply preserves_gather. apply Forall_forall.
  intros t (p & -> & _)%list_elem_of_fmap.
  unfold GrobidClient.extraction_task, GrobidClient.extract_from_url,
    GrobidClient._create_extraction_from_metadata.
  assert (Hlog : forall e, preserves proj (log e)) by (intros e s; apply Hev).
  destruct (pdf_url p); [destruct (truthy_str _)|];
    repeat first [ apply preserves_ret | apply preserves_lift
                 | apply preserves_bind; [|intros ?] | apply Hlog ].
Qed.

Lemma extract_batch_run w papers st :
  exists st',
    GrobidClient.extract_batch w papers st
    = (Ok (map (extraction_record w) papers), st')
    /\ forall B (proj : St -> B),
         (forall v s, proj (set_events v s) = proj s) -> proj st' = proj st.
Proof.
  destruct (extract_batch_value w papers st) as (st' & Hrun).
  exists st'. split; [done|]. intros B proj Hev.
  pose proof (preserves_extract_batch proj w papers Hev st) as H.
  by rewrite Hrun in H.
Qed.

(** Recording the papers that were looked at never fails and only adds
    rows. *)
Lemma add_validation_papers_run h pcs : forall st,
  exists us st',
    mapM (fun pc => GapAnalysisService.session_add_validation_paper
                      (GapAnalysisService.validation_paper_of h pc)) pcs st
    = (Ok us, st')
    /\ forall B (proj : St -> B),
         (forall v s, proj (set_validation_papers v s) = proj s) ->
         proj st' = proj st.
Proof.
  induction pcs as [|pc pcs IH]; intros st; simpl.
  - by exists [], st.
  - erewrite bind_ok by reflexivity.
    destruct (IH (set_validation_papers
                    (validation_papers st
                     ++ [GapAnalysisService.validation_paper_of h pc]) st))
      as (us & st' & Hrun & Hframe).
    erewrite bind_ok by exact Hrun.
    exists (tt :: us), st'. split; [done|].
    intros B proj Hp. by rewrite (Hframe B proj Hp), Hp.
Qed.

(** What the update from the verdict does to the record, when its commit
    succeeds. *)
Lemma apply_validation_branches w gap h v st g :
  gap_store st !! h = Some g ->
  commit_outcome w (n_commits st) = None ->
  exists st' g',
    GapAnalysisService.apply_validation w gap h v st = (Ok (is_valid v), st')
    /\ gap_store st' !! h = Some g'
    /\ length (gap_store st') = length (gap_store st)
    /\ rg_validation_status g'
       = (if is_valid v then if should_modify v then MODIFIED else VALID
          else INVALID)
    /\ rg_description g'
       = (if is_valid v && should_modify v
             && truthy_str (modification_suggestion v)
          then default "" (modification_suggestion v)
          else rg_description g)
    /\ rg_modification_history g'
       = (if is_valid v && should_modify v
          then Some [ mk_HistoryEntry (S (clock st)) (description gap)
                        (modification_suggestion v) ]
          else rg_modification_history g)
    /\ rg_validation_confidence g' = Some (confidence v)
    /\ rg_validation_reasoning g' = Some (vr_reasoning v).
Proof.
  intros Hg Hc.
  unfold GapAnalysisService.apply_validation.
  do 4 (erewrite bind_ok by reflexivity).
  destruct (is_valid v); [destruct (should_modify v)|].
  - destruct (modification_suggestion v) as [s|] eqn:Hs;
      [destruct (truthy_str (Some s)) eqn:Ht|].
    all: erewrite bind_ok
      by (do 3 (erewrite bind_ok by reflexivity); st_fields; reflexivity).
    all: do 2 (erewrite bind_ok by reflexivity).
    all: erewrite bind_ok by (apply commit_ok; exact Hc).
    all: unfold ret; eexists _, _; (split; [reflexivity|]); st_fields.
    all: rewrite ?length_alter, !list_lookup_alter_eq, Hg; simpl.
    all: rewrite ?Ht; done.
  - do 3 (erewrite bind_ok by reflexivity).
    erewrite bind_ok by (apply commit_ok; exact Hc).
    unfold ret. eexists _, _. split; [reflexivity|]. st_fields.
    rewrite ?length_alter, !list_lookup_alter_eq, Hg. done.
  - erewrite bind_ok by reflexivity.
    erewrite bind_ok by (apply commit_ok; exact Hc).
    unfold ret. eexists _, _. split; [reflexivity|]. st_fields.
    rewrite ?length_alter, !list_lookup_alter_eq, Hg. done.
Qed.

(** The whole validation step on the path where the search finds something:
    the verdict is the one of [verdict_from] on the second call to the
    model, and the record is updated from it. *)
Lemma validate_gap_with_verdict w gap h st g p ps v :
  gap_store st !! h = Some g ->
  commit_outcome w (n_commits st) = None ->
  commit_outcome w (S (n_commits st)) = None ->
  search_result w
    (query_from w gap (generate_content w (n_llm_calls st) (PromptSearchQuery gap)))
    10 = p :: ps ->
  v = verdict_from w
        (generate_content w (S (n_llm_calls st))
           (PromptValidateGap gap
              (take 10 (map (extraction_record w) (p :: ps))))) ->
  exists st' g',
    GapAnalysisService._validate_gap w gap h st = (Ok (is_valid v), st')
    /\ gap_store st' !! h = Some g'
    /\ length (gap_store st') = length (gap_store st)
    /\ rg_validation_status g'
       = (if is_valid v then if should_modify v then MODIFIED else VALID
          else INVALID)
    /\ rg_description g'
       = (if is_valid v && should_modify v
             && truthy_str (modification_suggestion v)
          then default "" (modification_suggestion v)
          else rg_description g)
    /\ rg_modification_history g'
       = (if is_valid v && should_modify v
          then Some [ mk_HistoryEntry (S (clock st)) (description gap)
                        (modification_suggestion v) ]
          else rg_modification_history g)
    /\ rg_validation_confidence g' = Some (confidence v)
    /\ rg_validation_reasoning g' = Some (vr_reasoning v).
Proof.
  intros Hg Hc0 Hc1 Hsearch Hv.
  unfold GapAnalysisService._validate_gap, GapAnalysisService.validate_body,
    try_except.
  erewrite bind_ok by reflexivity.
  erewrite bind_ok by (apply commit_ok; exact Hc0).
  erewrite bind_ok by apply generate_search_query_run.
  erewrite bind_ok by reflexivity.
  erewrite bind_ok by apply search_papers_run.
  st_fields. rewrite Hsearch.
  match goal with
  | |- context [bind (GrobidClient.extract_batch w ?l) ?k ?s] =>
      destruct (extract_batch_run w l s) as (st4 & Hrun4 & Hf4)
  end.
  erewrite bind_ok by exact Hrun4.
  match goal with
  | |- context [bind (mapM ?f ?l) ?k ?s] =>
      destruct (add_validation_papers_run h l s) as (us & st5 & Hrun5 & Hf5)
  end.
  erewrite bind_ok by exact Hrun5.
  erewrite bind_ok by reflexivity.
  match goal with
  | |- context [bind (GeminiService.validate_gap w gap ?l) ?k ?s] =>
      destruct (validate_gap_default_on_failure w gap l s)
        as (st6 & Hrun6 & _ & _ & Hcm6 & Hgs6 & Hclk6)
  end.
  erewrite bind_ok by exact Hrun6.
  st_fields.
  pose proof (Hf4 _ n_llm_calls (fun _ _ => eq_refl)) as Hl4.
  pose proof (Hf4 _ n_commits (fun _ _ => eq_refl)) as Hn4.
  pose proof (Hf4 _ gap_store (fun _ _ => eq_refl)) as Hs4.
  pose proof (Hf4 _ clock (fun _ _ => eq_refl)) as Hk4.
  pose proof (Hf5 _ n_llm_calls (fun _ _ => eq_refl)) as Hl5.
  pose proof (Hf5 _ n_commits (fun _ _ => eq_refl)) as Hn5.
  pose proof (Hf5 _ gap_store (fun _ _ => eq_refl)) as Hs5.
  pose proof (Hf5 _ clock (fun _ _ => eq_refl)) as Hk5.
  st_fields.
  rewrite Hl5, Hl4, <- Hv.
  destruct (apply_validation_branches w gap h v st6
              (set_rg_papers_analyzed_count (Some (length (p :: ps)))
                 (set_rg_validation_query
                    (Some (query_from w gap
                             (generate_content w (n_llm_calls st)
                                (PromptSearchQuery gap))))
                    (set_rg_validation_status VALIDATING g))))
    as (st' & g' & Hrun & Hg' & Hlen & Hst & Hd & Hh & Hcf & Hr).
  { rewrite Hgs6, Hs5, Hs4, !list_lookup_alter_eq, Hg. done. }
  { rewrite Hcm6, Hn5, Hn4. exact Hc1. }
  rewrite Hrun. exists st', g'.
  split; [done|]. split; [done|].
  split; [by rewrite Hlen, Hgs6, Hs5, Hs4, !length_alter|].
  rewrite Hclk6, Hk5, Hk4 in Hh. done.
Qed.

(** The expansion step never fails and leaves the validation outcome of the
    record alone. *)
Lemma expand_gap_details_run w gap h st g :
  gap_store st !! h = Some g ->
  exists st' g',
    GapAnalysisService._expand_gap_details w gap h st = (Ok tt, st')
    /\ gap_store st' !! h = Some g'
    /\ rg_validation_status g' = rg_validation_status g
    /\ rg_description g' = rg_description g
    /\ rg_modification_history g' = rg_modification_history g
    /\ rg_validation_confidence g' = rg_validation_confidence g
    /\ rg_validation_reasoning g' = rg_validation_reasoning g.
Proof.
  intros Hg.
  unfold GapAnalysisService._expand_gap_details, try_except.
  erewrite bind_ok by (unfold read_gap; rewrite Hg; reflexivity).
  erewrite bind_ok by reflexivity.
  erewrite bind_ok by reflexivity.
  erewrite bind_ok by reflexivity.
  erewrite bind_ok by reflexivity.
  erewrite bind_ok
    by (unfold read_gap; st_fields; rewrite !list_lookup_alter_eq, Hg; reflexivity).
  erewrite bind_ok by reflexivity.
  unfold commit. st_fields.
  destruct (commit_outcome w (n_commits st)); unfold ret;
    eexists _, _; (split; [reflexivity|]); st_fields;
    rewrite !list_lookup_alter_eq, Hg; done.
Qed.

(** C5.  On the path where the search finds something, the verdict is
    obtained, and the commits of the step succeed, one gap is processed as
    follows.  [is_valid = false]: status [INVALID], description and history
    untouched, and the gap is not returned (it is left out of the report).
    [is_valid = true] and [should_modify = true]: status [MODIFIED], the
    description replaced by a non-empty [modification_suggestion], and the
    history made of one entry holding the original description and the
    suggestion.  [is_valid = true] and [should_modify = false]: status
    [VALID], description and history untouched.  In the last two cases the
    gap is returned. *)
Theorem process_single_gap_verdict_branches
    (w : World) (analysis_id : nat) (gap : InitialGap) (index : nat) (st : St)
    (p : PaperSearchResult) (ps : list PaperSearchResult) (v : ValidationResult) :
  commit_outcome w (n_commits st) = None ->
  commit_outcome w (S (n_commits st)) = None ->
  commit_outcome w (S (S (n_commits st))) = None ->
  search_result w
    (query_from w gap (generate_content w (n_llm_calls st) (PromptSearchQuery gap)))
    10 = p :: ps ->
  v = verdict_from w
        (generate_content w (S (n_llm_calls st))
           (PromptValidateGap gap
              (take 10 (map (extraction_record w) (p :: ps))))) ->
  exists st' g',
    GapAnalysisService._process_single_gap w analysis_id gap index st
    = (Ok (if is_valid v then Some (length (gap_store st)) else None), st')
    /\ gap_store st' !! length (gap_store st) = Some g'
    /\ rg_validation_status g'
       = (if is_valid v then if should_modify v then MODIFIED else VALID
          else INVALID)
    /\ rg_description g'
       = (if is_valid v && should_modify v
             && truthy_str (modification_suggestion v)
          then default "" (modification_suggestion v)
          else description gap)
    /\ rg_modification_history g'
       = (if is_valid v && should_modify v
          then Some [ mk_HistoryEntry (S (clock st)) (description gap)
                        (modification_suggestion v) ]
          else None).
Proof.
  intros Hc0 Hc1 Hc2 Hsearch Hv.
  unfold GapAnalysisService._process_single_gap, try_except.
  set (h := length (gap_store st)).
  set (g0 := mk_ResearchGap h analysis_id (uuid4 w h) index
               (name gap) (description gap) (category gap)
               (reasoning gap) (evidence gap)
               INITIAL None None None None None None None None
               no_expansion None None).
  set (st1 := set_n_commits (S (n_commits st))
                (set_events (events st ++ [EvCommit])
                   (set_gap_store (gap_store st ++ [g0]) st))).
  assert (Hcreate :
            GapAnalysisService._create_gap_record w analysis_id gap index st
            = (Ok h, st1)).
  { unfold GapAnalysisService._create_gap_record.
    erewrite bind_ok by (apply commit_ok; exact Hc0). reflexivity. }
  erewrite bind_ok by exact Hcreate.
  assert (Hg0 : gap_store st1 !! h = Some g0).
  { subst st1 h. st_fields. by rewrite lookup_app_r, Nat.sub_diag. }
  destruct (validate_gap_with_verdict w gap h st1 g0 p ps v Hg0)
    as (st2 & g2 & Hrun & Hg2 & Hlen & Hst & Hd & Hh & _ & _); try done.
  erewrite bind_ok by exact Hrun.
  destruct (is_valid v) eqn:Hvalid.
  - destruct (expand_gap_details_run w gap h st2 g2 Hg2)
      as (st3 & g3 & Hexp & Hg3 & Hst3 & Hd3 & Hh3 & _ & _).
    erewrite bind_ok by exact Hexp. unfold ret.
    exists st3, g3. split; [done|]. split; [done|].
    rewrite Hst3, Hd3, Hh3. done.
  - unfold ret. exists st2, g2. done.
Qed.

Lemma process_single_gap_never_raises w analysis_id gap index st :
  is_ok (fst (GapAnalysisService._process_single_gap w analysis_id gap index st))
  = true.
Proof.
  unfold GapAnalysisService._process_single_gap, try_except.
  by destruct (bind _ _ st) as [[r|e] st1].
Qed.

(** The number of gap records is changed by no step of the validation. *)
Lemma modify_gap_length h f :
  preserves (fun st => length (gap_store st)) (modify_gap h f).
Proof. intros st. unfold modify_gap. simpl. apply length_alter. Qed.

#[export] Hint Resolve modify_gap_length : frames.
#[export] Hint Extern 2 (preserves _ (GrobidClient.extract_batch _ _)) =>
  apply preserves_extract_batch; intros; reflexivity : frames.

Lemma validate_body_length w gap h :
  preserves (fun st => length (gap_store st))
            (GapAnalysisService.validate_body w gap h).
Proof.
  unfold GapAnalysisService.validate_body, GapAnalysisService.assume_valid,
    GapAnalysisService.apply_validation.
  preserves_tac.
Qed.

Lemma apply_validation_length w gap h v :
  preserves (fun st => length (gap_store st))
            (GapAnalysisService.apply_validation w gap h v).
Proof. unfold GapAnalysisService.apply_validation. preserves_tac. Qed.

Lemma lookup_after {A} (m : M A) h st g :
  preserves (fun st => length (gap_store st)) m ->
  gap_store st !! h = Some g ->
  exists g', gap_store (snd (m st)) !! h = Some g'.
Proof.
  intros Hm Hg. apply lookup_lt_is_Some. rewrite (Hm st).
  apply lookup_lt_is_Some. by exists g.
Qed.

Lemma apply_validation_commit_raises w gap h v st e :
  commit_outcome w (n_commits st) = Some e ->
  fst (GapAnalysisService.apply_validation w gap h v st) = Raise e.
Proof.
  intros Hc.
  unfold GapAnalysisService.apply_validation.
  do 4 (erewrite bind_ok by reflexivity).
  destruct (is_valid v); [destruct (should_modify v)|].
  - destruct (modification_suggestion v) as [s|] eqn:Hs;
      [destruct (truthy_str (Some s)) eqn:Ht|].
    all: erewrite bind_ok
      by (do 3 (erewrite bind_ok by reflexivity); st_fields; reflexivity).
    all: do 2 (erewrite bind_ok by reflexivity).
    all: erewrite bind_raise by (apply commit_raise; exact Hc).
    all: reflexivity.
  - do 3 (erewrite bind_ok by reflexivity).
    erewrite bind_raise by (apply commit_raise; exact Hc). reflexivity.
  - erewrite bind_ok by reflexivity.
    erewrite bind_raise by (apply commit_raise; exact Hc). reflexivity.
Qed.

(** The update from the verdict fails only in its commit. *)
Lemma apply_validation_raises_from_commit w gap h v st g e st' :
  gap_store st !! h = Some g ->
  GapAnalysisService.apply_validation w gap h v st = (Raise e, st') ->
  commit_outcome w (n_commits st) = Some e /\ n_commits st' = S (n_commits st).
Proof.
  intros Hg Hrun.
  destruct (commit_outcome w (n_commits st)) as [e0|] eqn:Hc.
  - revert Hrun. unfold GapAnalysisService.apply_validation.
    do 4 (erewrite bind_ok by reflexivity).
    destruct (is_valid v); [destruct (should_modify v)|].
    + destruct (modification_suggestion v) as [s|] eqn:Hs;
        [destruct (truthy_str (Some s)) eqn:Ht|].
      all: erewrite bind_ok
        by (do 3 (erewrite bind_ok by reflexivity); st_fields; reflexivity).
      all: do 2 (erewrite bind_ok by reflexivity).
      all: erewrite bind_raise by (apply commit_raise; exact Hc).
      all: by intros [= <- <-].
    + do 3 (erewrite bind_ok by reflexivity).
      erewrite bind_raise by (apply commit_raise; exact Hc).
      by intros [= <- <-].
    + erewrite bind_ok by reflexivity.
      erewrite bind_raise by (apply commit_raise; exact Hc).
      by intros [= <- <-].
  - destruct (apply_validation_branches w gap h v st g Hg Hc)
      as (s' & g' & Hok & _).
    rewrite Hok in Hrun. discriminate.
Qed.

(** Query generation, search, extraction and the verdict call never raise:
    an error leaves the [try] block of [_validate_gap] only from one of its
    commits, and that commit is the last one made. *)
Lemma validate_body_raises_from_commit w gap h st g e st1 :
  gap_store st !! h = Some g ->
  GapAnalysisService.validate_body w gap h st = (Raise e, st1) ->
  exists k,
    n_commits st1 = S k /\ n_commits st <= k /\ commit_outcome w k = Some e.
Proof.
  intros Hg. unfold GapAnalysisService.validate_body.
  erewrite bind_ok by reflexivity.
  destruct (commit_outcome w (n_commits st)) as [e0|] eqn:Hc0.
  { erewrite bind_raise by (apply commit_raise; exact Hc0).
    intros [= <- <-]. exists (n_commits st). st_fields. done. }
  erewrite bind_ok by (apply commit_ok; exact Hc0).
  erewrite bind_ok by apply generate_search_query_run.
  erewrite bind_ok by reflexivity.
  erewrite bind_ok by apply search_papers_run.
  st_fields.
  destruct (search_result w _ 10) as [|p ps] eqn:Hsearch.
  - unfold GapAnalysisService.assume_valid.
    do 4 (erewrite bind_ok by reflexivity).
    destruct (commit_outcome w (S (n_commits st))) as [e1|] eqn:Hc1.
    + erewrite bind_raise by (apply commit_raise; exact Hc1).
      intros [= <- <-]. exists (S (n_commits st)). st_fields.
      split; [done|]. split; [lia|done].
    + erewrite bind_ok by (apply commit_ok; exact Hc1). discriminate.
  - match goal with
    | |- context [bind (GrobidClient.extract_batch w ?l) ?k ?s] =>
        destruct (extract_batch_run w l s) as (st4 & Hrun4 & Hf4)
    end.
    erewrite bind_ok by exact Hrun4.
    match goal with
    | |- context [bind (mapM ?f ?l) ?k ?s] =>
        destruct (add_validation_papers_run h l s) as (us & st5 & Hrun5 & Hf5)
    end.
    erewrite bind_ok by exact Hrun5.
    erewrite bind_ok by reflexivity.
    match goal with
    | |- context [bind (GeminiService.validate_gap w gap ?l) ?k ?s] =>
        destruct (validate_gap_default_on_failure w gap l s)
          as (st6 & Hrun6 & _ & _ & Hcm6 & Hgs6 & _)
    end.
    erewrite bind_ok by exact Hrun6.
    pose proof (Hf4 _ gap_store (fun _ _ => eq_refl)) as Hs4.
    pose proof (Hf5 _ gap_store (fun _ _ => eq_refl)) as Hs5.
    pose proof (Hf4 _ n_commits (fun _ _ => eq_refl)) as Hn4.
    pose proof (Hf5 _ n_commits (fun _ _ => eq_refl)) as Hn5.
    st_fields. intros Hrun.
    eapply apply_validation_raises_from_commit in Hrun as [Hc Hn].
    + rewrite Hcm6, Hn5, Hn4 in Hc, Hn. st_fields.
      exists (S (n_commits st)). split; [done|]. split; [lia|done].
    + rewrite Hgs6, Hs5, Hs4, !list_lookup_alter_eq, Hg. reflexivity.
Qed.

(** C4.  An error leaves the [try] block of [_validate_gap] only from a
    commit (query generation, search, extraction and the verdict call
    never raise: a failure of the verdict call gives the default verdict).
    The handler then sets the record to [VALID] with confidence [0.3] and
    the reasoning "Validation error: " followed by the error text, and
    commits again.  When that commit succeeds the step reports the gap as
    valid; when it raises too, its exception leaves [_validate_gap] and
    [_process_single_gap] returns [None]: the gap is dropped from the
    report instead of being reported valid.  [_process_single_gap] never
    raises, so the run goes on. *)
Theorem validate_gap_fails_open
    (w : World) (analysis_id : nat) (gap : InitialGap) (index : nat)
    (st st0 st1 : St) (h : nat) (e : exn) :
  GapAnalysisService._create_gap_record w analysis_id gap index st = (Ok h, st0) ->
  GapAnalysisService.validate_body w gap h st0 = (Raise e, st1) ->
  (exists k,
      n_commits st1 = S k /\ n_commits st0 <= k /\ commit_outcome w k = Some e)
  /\ (exists st2 g2,
        gap_store st2 !! h = Some g2
        /\ rg_validation_status g2 = VALID
        /\ rg_validation_confidence g2 = Some (3 # 10)
        /\ rg_validation_reasoning g2 = Some ("Validation error: " +:+ exn_str e)
        /\ match commit_outcome w (n_commits st1) with
           | None =>
               GapAnalysisService._validate_gap w gap h st0 = (Ok true, st2)
           | Some e' =>
               GapAnalysisService._validate_gap w gap h st0 = (Raise e', st2)
               /\ GapAnalysisService._process_single_gap w analysis_id gap index st
                  = (Ok None, st2)
           end)
  /\ (forall s,
        is_ok (fst (GapAnalysisService._process_single_gap
                      w analysis_id gap index s)) = true)
  /\ (forall papers s,
        exists v s',
          GeminiService.validate_gap w gap papers s = (Ok v, s')
          /\ (is_ok (generate_content w (n_llm_calls s)
                       (PromptValidateGap gap (take 10 papers))) = false ->
              v = GeminiService.default_validation)).
Proof.
  intros Hcreate Hbody.
  assert (Hg0 : exists g0, gap_store st0 !! h = Some g0).
  { revert Hcreate. unfold GapAnalysisService._create_gap_record, bind, commit, ret.
    st_fields. destruct (commit_outcome w (n_commits st)); [done|].
    intros [= <- <-]. st_fields. eexists.
    by rewrite lookup_app_r, Nat.sub_diag. }
  destruct Hg0 as (g0 & Hg0).
  split; [by eapply validate_body_raises_from_commit|].
  destruct (lookup_after _ h st0 g0 (validate_body_length w gap h) Hg0)
    as (g1 & Hg1).
  rewrite Hbody in Hg1. simpl in Hg1.
  split.
  { assert (Hhandler :
      GapAnalysisService._validate_gap w gap h st0
      = GapAnalysisService.validate_handler w h e st1).
    { unfold GapAnalysisService._validate_gap.
      by rewrite (try_except_raise _ _ _ _ _ Hbody). }
    set (st2 := snd (GapAnalysisService.validate_handler w h e st1)).
    assert (Hst2 :
      GapAnalysisService.validate_handler w h e st1
      = (match commit_outcome w (n_commits st1) with
         | None => Ok true
         | Some e' => Raise e'
         end, st2)
      /\ exists g2,
          gap_store st2 !! h = Some g2
          /\ rg_validation_status g2 = VALID
          /\ rg_validation_confidence g2 = Some (3 # 10)
          /\ rg_validation_reasoning g2
             = Some ("Validation error: " +:+ exn_str e)).
    { subst st2. unfold GapAnalysisService.validate_handler.
      do 3 (erewrite bind_ok by reflexivity).
      unfold bind, commit, ret. st_fields.
      destruct (commit_outcome w (n_commits st1)); simpl;
        rewrite !list_lookup_alter_eq, Hg1; simpl;
        (split; [reflexivity|]); eexists; done. }
    destruct Hst2 as (Hrun & g2 & Hg2 & Hs2 & Hc2 & Hr2).
    exists st2, g2. do 4 (split; [done|]).
    rewrite Hhandler, Hrun.
    destruct (commit_outcome w (n_commits st1)) as [e'|]; [|done].
    split; [done|].
    unfold GapAnalysisService._process_single_gap, try_except.
    rewrite (bind_ok _ _ _ _ _ Hcreate).
    unfold bind at 1. by rewrite Hhandler, Hrun. }
  split; [intros s; apply process_single_gap_never_raises|].
  intros papers s.
  destruct (validate_gap_default_on_failure w gap papers s)
    as (s' & Hrun & _).
  eexists _, s'. split; [exact Hrun|].
  unfold verdict_from.
  by destruct (generate_content w (n_llm_calls s) _).
Qed.

(** ** The orchestrator boundary *)

Lemma declared_request_has_no_snake_case_field p x c r cfg attr :
  attr ∈ ["paper_id"; "paper_extraction_id"; "correlation_id"; "request_id"] ->
  getattr (GapAnalysisRequest p x c r cfg) attr
  = Raise (AttributeError "GapAnalysisRequest" attr).
Proof.
  intros H. unfold getattr, GapAnalysisRequest. simpl.
  repeat (apply elem_of_cons in H as [->|H]); [ | | | | by apply elem_of_nil in H];
    by rewrite !lookup_insert_ne, lookup_empty.
Qed.

(** C1.  On a request built by [GapAnalysisRequest], [analyze_paper] raises,
    whatever the collaborators do: reading [request.paper_id] fails inside
    the [try] block before a record exists, and reading
    [request.request_id] fails again inside the handler.  No record is
    created and no status is written. *)
Theorem analyze_paper_raises_on_declared_request
    (w : World) (paperId paperExtractionId correlationId requestId config : string)
    (st : St) :
  exists e st',
    GapAnalysisService.analyze_paper w
      (GapAnalysisRequest paperId paperExtractionId correlationId requestId config)
      st
    = (Raise e, st')
    /\ run st' = run st
    /\ status_writes st' = status_writes st
    /\ e = match close_search_outcome w, close_grobid_outcome w with
           | Some e1, _ => e1
           | None, Some e2 => e2
           | None, None => AttributeError "GapAnalysisRequest" "request_id"
           end.
Proof.
  unfold GapAnalysisService.analyze_paper, try_finally, try_let,
    GapAnalysisService._create_gap_analysis.
  rewrite (bind_raise _ _ st (AttributeError "GapAnalysisRequest" "paper_id") st);
    cycle 1.
  { unfold lift. rewrite declared_request_has_no_snake_case_field; [done|set_solver]. }
  unfold GapAnalysisService.on_failure.
  erewrite bind_ok by reflexivity.
  rewrite (bind_raise _ _ st (AttributeError "GapAnalysisRequest" "request_id") st);
    cycle 1.
  { unfold lift. rewrite declared_request_has_no_snake_case_field; [done|set_solver]. }
  unfold WebSearchService.close, GrobidClient.close, bind, log, lift_outcome.
  destruct (close_search_outcome w), (close_grobid_outcome w);
    eexists _, _; (split; [reflexivity|]); done.
Qed.

(** ** The statements at work on sample worlds *)

Import Examples.

Lemma search_papers_survives_crossref_outage :
  exists st',
    WebSearchService.search_papers world_overlap "graph scalability" 2 st_init
    = (Ok [paperA; paperB], st')
    /\ WebSearchService._deduplicate_results world_overlap
         [paperA; paperB; paperA_again; paperC]
       = [paperA; paperB; paperC].
Proof.
  destruct (search_papers_survives_provider_failure
              world_overlap "graph scalability" 2 st_init)
    as (unique & st' & H & _ & Hu & _); [lia|].
  assert (Hv : unique = [paperA; paperB; paperC])
    by (rewrite Hu; vm_compute; reflexivity).
  exists st'. rewrite H, Hv. split; [reflexivity|vm_compute; reflexivity].
Defined.

Lemma validate_gap_no_related_work_sample :
  exists st' g',
    GapAnalysisService._validate_gap world_no_results gap1 0
      (st_one world_no_results) = (Ok true, st')
    /\ gap_store st' !! 0 = Some g'
    /\ rg_validation_status g' = VALID
    /\ rg_validation_confidence g' = Some (5 # 10)
    /\ rg_validation_reasoning g' = None.
Proof.
  edestruct (validate_gap_no_related_work world_no_results gap1 0
               (st_one world_no_results))
    as (st' & g' & H1 & H2 & H3 & H4 & _ & H6 & _);
    [reflexivity | reflexivity | reflexivity | reflexivity |].
  exists st', g'. repeat split; assumption.
Defined.

Lemma process_single_gap_modified_sample :
  exists st' g',
    GapAnalysisService._process_single_gap quiet_world 0 gap1 0 st_init
    = (Ok (Some 0), st')
    /\ gap_store st' !! 0 = Some g'
    /\ rg_validation_status g' = MODIFIED
    /\ rg_description g' = "A narrower gap".
Proof.
  destruct (process_single_gap_verdict_branches quiet_world 0 gap1 0 st_init
              paperA [paperB] verdict_modify)
    as (st' & g' & H1 & H2 & H3 & H4 & _);
    [reflexivity | reflexivity | reflexivity | reflexivity | reflexivity |].
  exists st', g'. repeat split; assumption.
Defined.

(** The database is lost after the record of the gap is created: the commit
    of step 1 raises, the commit of the handler raises too, and the gap is
    not reported as valid but dropped. *)
Lemma fail_open_lost_when_database_stays_down :
  exists st2 g2,
    GapAnalysisService._process_single_gap world_db_down 0 gap1 0 st_init
    = (Ok None, st2)
    /\ GapAnalysisService._validate_gap world_db_down gap1 0 (st_one world_db_down)
       = (Raise db_error, st2)
    /\ gap_store st2 !! 0 = Some g2
    /\ rg_validation_status g2 = VALID
    /\ rg_validation_confidence g2 = Some (3 # 10)
    /\ rg_validation_reasoning g2 = Some "Validation error: connection lost".
Proof.
  destruct (validate_gap_fails_open world_db_down 0 gap1 0 st_init
              (st_one world_db_down) (st_body_failed world_db_down) 0 db_error)
    as (_ & (st2 & g2 & Hg2 & Hs & Hc & Hr & Hm) & _);
    [vm_compute; reflexivity | vm_compute; reflexivity |].
  assert (Hk : commit_outcome world_db_down
                 (n_commits (st_body_failed world_db_down)) = Some db_error)
    by (vm_compute; reflexivity).
  rewrite Hk in Hm. destruct Hm as [Hv Hp].
  exists st2, g2. repeat split; assumption.
Defined.


(** A run that had reached [COMPLETED] ends [FAILED]: the queries of the
    response assembly fail after the summary update, and the failure
    handler overwrites the status.  Marking a completed run as failed is
    not refused either. *)
Lemma completed_run_marked_failed :
  status_writes
    (snd (GapAnalysisService.analyze_paper world_assembly_fails request_double
            st_init))
  = [PROCESSING; COMPLETED; FAILED]
  /\ ~ terminal_set_once [PROCESSING; COMPLETED; FAILED]
  /\ ga_status <$> run (st_done quiet_world) = Some COMPLETED
  /\ ga_status
       <$> run (snd (GapAnalysisService._mark_analysis_failed quiet_world
                       "late error" (st_done quiet_world)))
     = Some FAILED.
Proof.
  split; [reflexivity|]. split; [|split; reflexivity].
  intros H. by specialize (H 1 2 COMPLETED FAILED (le_n 2) eq_refl eq_refl eq_refl).
Qed.

(** Nothing is found for the gap, validation reports it valid with
    confidence [0.5], and no reasoning is recorded. *)
Lemma no_related_work_leaves_reasoning_unset :
  search_result world_no_results "graph scalability" 10 = []
  /\ fst (GapAnalysisService._validate_gap world_no_results gap1 0
            (st_one world_no_results))
     = Ok true
  /\ rg_validation_confidence
       <$> gap_store (snd (GapAnalysisService._validate_gap world_no_results gap1 0
                             (st_one world_no_results))) !! 0
     = Some (Some (5 # 10))
  /\ rg_validation_reasoning
       <$> gap_store (snd (GapAnalysisService._validate_gap world_no_results gap1 0
                             (st_one world_no_results))) !! 0
     = Some None
  /\ rg_validation_reasoning
       <$> gap_store (snd (GapAnalysisService._validate_gap world_no_results gap1 0
                             (st_one world_no_results))) !! 0
     <> Some (Some "no related work found").
Proof. repeat split; vm_compute; solve [reflexivity | discriminate]. Qed.

(* ===================================================================== *)
(** * Further properties of the services *)

(** ** Deduplication, continued *)

Section DedupMore.

Variable lower : string -> string.
Variable clean_text : string -> string.
Variable calculate_similarity : string -> string -> Q.

Abbreviation dedup := (Dedup._deduplicate_results lower clean_text calculate_similarity).
Abbreviation step := (Dedup.dedup_step lower clean_text calculate_similarity).
Abbreviation dup := (Dedup.is_duplicate lower clean_text calculate_similarity).
Abbreviation norm := (Dedup.normalized lower clean_text).
Abbreviation sim := calculate_similarity.

Lemma ForallOrdPairs_snoc_inv {A} (R : A -> A -> Prop) (l : list A) (x : A) :
  ForallOrdPairs R (l ++ [x]) ->
  ForallOrdPairs R l /\ forall a, a ∈ l -> R a x.
Proof.
  induction l as [|a l IH]; simpl; intros H.
  - split; [constructor|]. intros a Ha. by apply elem_of_nil in Ha.
  - inversion H as [|? ? Ha Hl]; subst.
    apply Forall_app in Ha as [Ha Hx]. rewrite Forall_singleton in Hx.
    destruct (IH Hl) as [IH1 IH2]. split; [by constructor|].
    intros b [->|Hb]%elem_of_cons; [exact Hx|by apply IH2].
Qed.

(** A list in which no result is too similar to an earlier one is left as
    it is. *)
Lemma dedup_fixed (l : list PaperSearchResult) :
  ForallOrdPairs (fun a b => (sim (norm b) (norm a) <= Dedup.threshold)%Q) l ->
  dedup l = l.
Proof.
  induction l as [|r pre IH] using rev_ind; [done|].
  intros [Hpre Hr]%ForallOrdPairs_snoc_inv.
  rewrite (dedup_snoc lower clean_text calculate_similarity), IH by done.
  unfold Dedup.dedup_step.
  by rewrite (proj2 (is_duplicate_false lower clean_text calculate_similarity _ _) Hr).
Qed.

(** X1.  Deduplicating twice gives the same list as deduplicating once. *)
Theorem deduplicate_results_idempotent (results : list PaperSearchResult) :
  dedup (dedup results) = dedup results.
Proof. apply dedup_fixed, dedup_pairwise. Qed.

(** X2.  Nothing is lost without a reason: every input result is either in
    the output, or more than [0.8] similar to a result of the output; and
    the output is never longer than the input. *)
Theorem deduplicate_results_covers_input (results : list PaperSearchResult) :
  length (dedup results) <= length results
  /\ Forall (fun r =>
               r ∈ dedup results
               \/ exists e, e ∈ dedup results
                            /\ (Dedup.threshold < sim (norm r) (norm e))%Q)
            results.
Proof.
  split; [apply sublist_length, dedup_sublist|].
  induction results as [|r pre IH] using rev_ind; [constructor|].
  assert (Hmono : forall x, x ∈ dedup pre -> x ∈ dedup (pre ++ [r])).
  { intros x Hx. rewrite (dedup_app lower clean_text calculate_similarity).
    destruct (fold_step_prefix lower clean_text calculate_similarity [r] (dedup pre))
      as [k ->].
    apply elem_of_app. by left. }
  apply Forall_app. split.
  - eapply Forall_impl; [exact IH|]. simpl.
    intros x [Hx|(e & He & Hsim)]; [left; auto|right; exists e; auto].
  - apply Forall_singleton.
    rewrite (dedup_snoc lower clean_text calculate_similarity).
    destruct (step_cases lower clean_text calculate_similarity (dedup pre) r)
      as [[Hd ->]|[Hd ->]].
    + right. by apply is_duplicate_true.
    + left. apply elem_of_app. right. by apply list_elem_of_singleton.
Qed.

Lemma ForallOrdPairs_NoDup_fmap {A B} (R : A -> A -> Prop) (f : A -> B) (l : list A) :
  (forall a b, R a b -> f a <> f b) ->
  ForallOrdPairs R l -> NoDup (f <$> l).
Proof.
  intros HR. induction 1 as [|a l Ha Hl IH]; simpl; constructor; [|done].
  intros (b & Hab & Hb)%list_elem_of_fmap.
  rewrite Forall_forall in Ha. by apply (HR a b (Ha b Hb)).
Qed.

(** X3.  When every title is more than [0.8] similar to itself, no two
    results of the output have the same normalized title: results with
    identical normalized titles collapse to the first of them. *)
Theorem deduplicate_results_distinct_titles (results : list PaperSearchResult) :
  (forall t, (Dedup.threshold < sim t t)%Q) ->
  NoDup (norm <$> dedup results).
Proof.
  intros Hself.
  eapply ForallOrdPairs_NoDup_fmap; [|apply dedup_pairwise].
  simpl. intros a b Hle Heq. rewrite Heq in Hle.
  by apply Qlt_not_le in Hle.
Qed.

End DedupMore.

(** ** Search, continued *)

(** X4.  For a non-negative [max_results], the search returns at most
    [max_results] results, and they are a subsequence of the results of the
    providers that answered, taken in provider order: nothing is invented
    and nothing is reordered. *)
Theorem search_papers_bounded_subsequence
    (w : World) (query : string) (max_results : Z) (st : St) :
  (0 <= max_results)%Z ->
  exists rs st',
    WebSearchService.search_papers w query max_results st = (Ok rs, st')
    /\ length rs <= Z.to_nat max_results
    /\ rs `sublist_of`
         (surviving (search_semantic_scholar w query max_results)
          ++ surviving (search_crossref w query max_results)
          ++ surviving (search_arxiv w query max_results)).
Proof.
  intros Hmax. rewrite search_papers_run. eexists _, _. split; [reflexivity|].
  unfold search_result, slice_to. apply Z.leb_le in Hmax. rewrite Hmax.
  split; [rewrite length_take; lia|].
  etrans; [apply sublist_take|]. apply dedup_sublist.
Qed.

(** ** Batch extraction, continued *)

Lemma omap_length_le {A B} (f : A -> option B) (l : list A) :
  length (omap f l) <= length l.
Proof. induction l as [|x l IH]; csimpl; [done|]. destruct (f x); csimpl; lia. Qed.

Lemma gather_cons {A} (t : M A) (ts : list (M A)) st r st1 :
  t st = (r, st1) ->
  gather (t :: ts) st = (let* rs := gather ts in ret (r :: rs)) st1.
Proof. simpl. by intros ->. Qed.

Lemma extraction_task_run w p st :
  exists st1,
    GrobidClient.extraction_task w p st = (extraction_outcome w p, st1)
    /\ events st1 = events st ++ (EvExtractUrl <$> pdf_links [p])
    /\ n_llm_calls st1 = n_llm_calls st
    /\ n_commits st1 = n_commits st.
Proof.
  unfold GrobidClient.extraction_task, extraction_outcome, pdf_links. simpl.
  destruct (pdf_url p) as [u|]; simpl.
  - destruct (negb (u =? "")%string); simpl.
    + eexists. split; [reflexivity|]. done.
    + exists st. by rewrite app_nil_r.
  - exists st. by rewrite app_nil_r.
Qed.

Lemma pdf_links_cons p papers : pdf_links (p :: papers) = pdf_links [p] ++ pdf_links papers.
Proof. unfold pdf_links. simpl. by destruct (if truthy_str (pdf_url p) then _ else _). Qed.

Lemma gather_extraction_tasks w papers : forall st,
  exists st',
    gather (map (GrobidClient.extraction_task w) papers) st
    = (Ok (map (extraction_outcome w) papers), st')
    /\ events st' = events st ++ (EvExtractUrl <$> pdf_links papers)
    /\ n_llm_calls st' = n_llm_calls st
    /\ n_commits st' = n_commits st.
Proof.
  induction papers as [|p papers IH]; intros st.
  - exists st. simpl. by rewrite app_nil_r.
  - destruct (extraction_task_run w p st) as (st1 & Ht & Hev1 & Hl1 & Hc1).
    destruct (IH st1) as (st' & Hg & Hev & Hl & Hc).
    simpl map. rewrite (gather_cons _ _ _ _ _ Ht), (bind_ok _ _ _ _ _ Hg).
    exists st'. split; [done|].
    rewrite pdf_links_cons, fmap_app, Hev, Hev1, <- app_assoc.
    split; [done|]. split; congruence.
Qed.

(** X5.  Batch extraction calls the extraction service exactly once for each
    paper that has a non-empty PDF link, in the order of the papers, and
    makes no outside call for a paper without one; it never commits and
    never calls the language model. *)
Theorem extract_batch_outside_calls
    (w : World) (papers : list PaperSearchResult) (st : St) :
  exists contents st',
    GrobidClient.extract_batch w papers st = (Ok contents, st')
    /\ events st' = events st ++ (EvExtractUrl <$> pdf_links papers)
    /\ length (pdf_links papers) <= length papers
    /\ n_llm_calls st' = n_llm_calls st
    /\ n_commits st' = n_commits st.
Proof.
  destruct (gather_extraction_tasks w papers st) as (st' & Hg & Hev & Hl & Hc).
  unfold GrobidClient.extract_batch. rewrite (bind_ok _ _ _ _ _ Hg).
  eexists _, st'. split; [reflexivity|]. split; [done|].
  split; [|done]. unfold pdf_links. apply omap_length_le.
Qed.

(** ** Language-model calls, continued *)


Lemma str_join_check_ok i texts :
  (exists u, GeminiService.str_join_check i texts = Ok u)
  <-> Forall (fun text : option string => text <> None) texts.
Proof.
  revert i. induction texts as [|[t|] texts IH]; intros i; simpl.
  - split; [constructor|by eexists].
  - rewrite IH. split; [by constructor|by inversion 1].
  - split; [by intros [u ?]|]. by inversion 1.
Qed.

Lemma sections_check_ok sections :
  (exists u, GeminiService.sections_check sections = Ok u)
  <-> Forall (fun section =>
                truthy_str (sr_title section) = true ->
                Forall (fun text : option string => text <> None)
                       (take 3 (sr_paragraphs section)))
             sections.
Proof.
  induction sections as [|section sections IH]; simpl.
  - split; [constructor|by eexists].
  - destruct (truthy_str (sr_title section)) eqn:Ht.
    + destruct (GeminiService.str_join_check 0 _) as [u|e] eqn:Hj.
      * rewrite IH. split.
        -- intros H. constructor; [|done]. intros _.
           apply (str_join_check_ok 0). by eexists.
        -- by inversion 1.
      * split; [by intros [u ?]|]. inversion 1 as [|? ? Hs _]; subst.
        apply (str_join_check_ok 0) in Hs; [|done].
        destruct Hs as [u Hu]. congruence.
    + rewrite IH. split; [|by inversion 1].
      intros H. constructor; [|done]. intros Ht'. congruence.
Qed.

(** One run of candidate generation. *)
Lemma generate_initial_gaps_run w paper_data extracted_content st :
  exists st',
    GeminiService.generate_initial_gaps w paper_data extracted_content st
    = (Ok (candidates_from w (n_llm_calls st) paper_data extracted_content), st')
    /\ events st'
       = events st ++ EvRateLimit :: candidate_calls paper_data extracted_content
    /\ n_llm_calls st'
       = n_llm_calls st + length (candidate_calls paper_data extracted_content)
    /\ n_executes st' = n_executes st
    /\ same_records st st'.
Proof.
  unfold GeminiService.generate_initial_gaps, Helpers.retry_async, try_except, bind,
    Helpers.wait_if_needed, log, GeminiService.model_generate_content, lift, ret,
    candidates_from, candidate_calls, initial_gaps_from, same_records.
  simpl.
  destruct (GeminiService._prepare_paper_context _ _) as [[]|e0]; simpl.
  - destruct (generate_content w (n_llm_calls st) _) as [text|e]; simpl.
    + destruct (parse_initial_gaps w text); eexists; (split; [reflexivity|]);
        simpl; rewrite <- ?app_assoc, ?Nat.add_1_r; done.
    + eexists; (split; [reflexivity|]); simpl;
        rewrite <- ?app_assoc, ?Nat.add_1_r; done.
  - eexists; (split; [reflexivity|]); simpl; rewrite ?Nat.add_0_r; done.
Qed.

(** X7.  Candidate generation never raises and makes one attempt, without
    a retry.  It waits on the rate limiter and builds the context of the
    paper.  When the context builds, the model is called once and the
    decoded candidates are returned, or the empty list when the call or
    the decoding fails.  When building the context raises (among the first
    ten sections, a section with a title has a paragraph without text
    among its first three), the model is not called and the empty list is
    returned. *)
Theorem generate_initial_gaps_single_attempt
    (w : World) (paper_data : string) (extracted_content : ExtractedDict)
    (st : St) :
  exists gaps st',
    GeminiService.generate_initial_gaps w paper_data extracted_content st
    = (Ok gaps, st')
    /\ (context_builds extracted_content ->
        gaps = initial_gaps_from w
                 (generate_content w (n_llm_calls st)
                    (PromptInitialGaps paper_data extracted_content))
        /\ events st'
           = events st
             ++ [EvRateLimit;
                 EvGenerateContent
                   (PromptInitialGaps paper_data extracted_content)]
        /\ n_llm_calls st' = S (n_llm_calls st))
    /\ (~ context_builds extracted_content ->
        gaps = []
        /\ events st' = events st ++ [EvRateLimit]
        /\ n_llm_calls st' = n_llm_calls st).
Proof.
  destruct (generate_initial_gaps_run w paper_data extracted_content st)
    as (st' & Hrun & Hev & Hn & _).
  eexists _, st'. split; [exact Hrun|].
  unfold candidates_from, candidate_calls in *.
  pose proof (sections_check_ok (take 10 (xd_sections extracted_content)))
    as Hok.
  fold (context_builds extracted_content) in Hok.
  unfold GeminiService._prepare_paper_context in *.
  destruct (GeminiService.sections_check _) as [u|e].
  - split.
    + intros _. simpl in Hn. rewrite Nat.add_1_r in Hn. done.
    + intros Hno. destruct Hno. apply Hok. by eexists.
  - split.
    + intros [u Hu]%Hok. discriminate.
    + intros _. simpl in Hn. rewrite Nat.add_0_r in Hn. done.
Qed.

Lemma expand_gap_details_value w gap validation st :
  GeminiService.expand_gap_details w gap validation st
  = (Ok GeminiService.unavailable_details,
     set_events (events st ++ [EvRateLimit]) st).
Proof. reflexivity. Qed.

(** X8.  The expansion call, given the [dict] that [_expand_gap_details]
    passes as [validation], never reaches the model: after the wait on the
    rate limiter, building the prompt reads [validation.confidence], which
    a [dict] does not have, and the call returns the "unable to generate"
    placeholders with no suggested topic, whatever the model would have
    answered. *)
Theorem expand_gap_details_never_calls_model
    (w : World) (gap : InitialGap) (validation : GeminiService.ValidationDict)
    (st : St) :
  exists st',
    GeminiService.expand_gap_details w gap validation st
    = (Ok GeminiService.unavailable_details, st')
    /\ events st' = events st ++ [EvRateLimit]
    /\ n_llm_calls st' = n_llm_calls st
    /\ ed_suggested_topics GeminiService.unavailable_details = []
    /\ (forall w', 
          fst (GeminiService.expand_gap_details w' gap validation st)
          = Ok GeminiService.unavailable_details).
Proof.
  rewrite expand_gap_details_value. eexists. split; [reflexivity|]. done.
Qed.

(** ** The orchestrator, continued *)

(** X9.  The expansion step never raises, not even when its commit fails,
    and since the expansion call always falls back, it stores the "unable
    to generate" placeholders and an empty list of suggested topics, adds
    no topic row and makes no call to the model; the evidence anchors are
    rebuilt from the supporting papers followed by the conflicting ones,
    one anchor per paper. *)
Theorem expand_gap_details_stores_placeholders
    (w : World) (gap : InitialGap) (h : nat) (st : St) (g : ResearchGap) :
  gap_store st !! h = Some g ->
  exists st' g',
    GapAnalysisService._expand_gap_details w gap h st = (Ok tt, st')
    /\ gap_store st' !! h = Some g'
    /\ rg_expansion g' = ed_expansion GeminiService.unavailable_details
    /\ rg_suggested_topics g' = Some []
    /\ rg_evidence_anchors g'
       = Some (GapAnalysisService.anchors_of "supporting" (rg_supporting_papers g)
               ++ GapAnalysisService.anchors_of "conflicting"
                    (rg_conflicting_papers g))
    /\ length (default [] (rg_evidence_anchors g'))
       = GapAnalysisService.len_or_zero (rg_supporting_papers g)
         + GapAnalysisService.len_or_zero (rg_conflicting_papers g)
    /\ topics st' = topics st
    /\ n_llm_calls st' = n_llm_calls st.
Proof.
  intros Hg.
  unfold GapAnalysisService._expand_gap_details, try_except.
  erewrite bind_ok by (unfold read_gap; rewrite Hg; reflexivity).
  erewrite bind_ok by reflexivity.
  erewrite bind_ok by reflexivity.
  erewrite bind_ok by reflexivity.
  erewrite bind_ok by reflexivity.
  erewrite bind_ok
    by (unfold read_gap; st_fields; rewrite !list_lookup_alter_eq, Hg; reflexivity).
  erewrite bind_ok by reflexivity.
  unfold commit. st_fields.
  assert (Hlen : length (GapAnalysisService.anchors_of "supporting"
                           (rg_supporting_papers g)
                         ++ GapAnalysisService.anchors_of "conflicting"
                              (rg_conflicting_papers g))
                 = GapAnalysisService.len_or_zero (rg_supporting_papers g)
                   + GapAnalysisService.len_or_zero (rg_conflicting_papers g)).
  { rewrite length_app. unfold GapAnalysisService.anchors_of,
      GapAnalysisService.len_or_zero.
    destruct (rg_supporting_papers g), (rg_conflicting_papers g);
      simpl; rewrite ?length_map; done. }
  destruct (commit_outcome w (n_commits st)); unfold ret;
    eexists _, _; (split; [reflexivity|]); st_fields;
    rewrite !list_lookup_alter_eq, Hg; simpl; done.
Qed.

Lemma apply_validation_outcome w gap h v st g :
  gap_store st !! h = Some g ->
  exists g',
    gap_store (snd (GapAnalysisService.apply_validation w gap h v st)) !! h
    = Some g'
    /\ status_fits (fst (GapAnalysisService.apply_validation w gap h v st))
                   (rg_validation_status g').
Proof.
  intros Hg. destruct (commit_outcome w (n_commits st)) as [e|] eqn:Hc.
  - destruct (lookup_after _ h st g (apply_validation_length w gap h v) Hg)
      as (g' & Hg').
    exists g'. split; [done|].
    by rewrite (apply_validation_commit_raises w gap h v st e Hc).
  - destruct (apply_validation_branches w gap h v st g Hg Hc)
      as (st' & g' & Hrun & Hg' & _ & Hst & _).
    rewrite Hrun. exists g'. split; [done|]. simpl. rewrite Hst.
    destruct (is_valid v); [destruct (should_modify v)|]; simpl; auto.
Qed.

Lemma validate_body_outcome w gap h st g :
  gap_store st !! h = Some g ->
  exists g',
    gap_store (snd (GapAnalysisService.validate_body w gap h st)) !! h = Some g'
    /\ status_fits (fst (GapAnalysisService.validate_body w gap h st))
                   (rg_validation_status g').
Proof.
  intros Hg. unfold GapAnalysisService.validate_body.
  erewrite bind_ok by reflexivity.
  destruct (commit_outcome w (n_commits st)) as [e|] eqn:Hc0.
  { erewrite bind_raise by (apply commit_raise; exact Hc0). simpl.
    rewrite list_lookup_alter_eq, Hg. by eexists. }
  erewrite bind_ok by (apply commit_ok; exact Hc0).
  erewrite bind_ok by apply generate_search_query_run.
  erewrite bind_ok by reflexivity.
  erewrite bind_ok by apply search_papers_run.
  st_fields.
  destruct (search_result w _ 10) as [|p ps] eqn:Hsearch.
  - unfold GapAnalysisService.assume_valid.
    do 4 (erewrite bind_ok by reflexivity).
    destruct (commit_outcome w (S (n_commits st))) as [e|] eqn:Hc1.
    + erewrite bind_raise by (apply commit_raise; exact Hc1). simpl.
      rewrite !list_lookup_alter_eq, Hg. by eexists.
    + erewrite bind_ok by (apply commit_ok; exact Hc1). simpl.
      rewrite !list_lookup_alter_eq, Hg. eexists. split; [reflexivity|].
      simpl. by left.
  - match goal with
    | |- context [bind (GrobidClient.extract_batch w ?l) ?k ?s] =>
        destruct (extract_batch_run w l s) as (st4 & Hrun4 & Hf4)
    end.
    erewrite bind_ok by exact Hrun4.
    match goal with
    | |- context [bind (mapM ?f ?l) ?k ?s] =>
        destruct (add_validation_papers_run h l s) as (us & st5 & Hrun5 & Hf5)
    end.
    erewrite bind_ok by exact Hrun5.
    erewrite bind_ok by reflexivity.
    match goal with
    | |- context [bind (GeminiService.validate_gap w gap ?l) ?k ?s] =>
        destruct (validate_gap_default_on_failure w gap l s)
          as (st6 & Hrun6 & _ & _ & _ & Hgs6 & _)
    end.
    erewrite bind_ok by exact Hrun6.
    pose proof (Hf4 _ gap_store (fun _ _ => eq_refl)) as Hs4.
    pose proof (Hf5 _ gap_store (fun _ _ => eq_refl)) as Hs5.
    st_fields.
    eapply apply_validation_outcome.
    rewrite Hgs6, Hs5, Hs4, !list_lookup_alter_eq, Hg. reflexivity.
Qed.

(** After the validation of a gap its record is never left [INITIAL] or
    [VALIDATING]; the step answers [True] only with [VALID] or [MODIFIED]
    and [False] only with [INVALID]. *)
Lemma validate_gap_outcome w gap h st g :
  gap_store st !! h = Some g ->
  exists g',
    gap_store (snd (GapAnalysisService._validate_gap w gap h st)) !! h = Some g'
    /\ status_fits (fst (GapAnalysisService._validate_gap w gap h st))
                   (rg_validation_status g')
    /\ rg_validation_status g' ∈ [VALID; MODIFIED; INVALID].
Proof.
  intros Hg.
  destruct (validate_body_outcome w gap h st g Hg) as (g1 & Hg1 & Hfit).
  unfold GapAnalysisService._validate_gap, try_except.
  destruct (GapAnalysisService.validate_body w gap h st) as [[b|e] st1];
    simpl in Hg1, Hfit |- *.
  - exists g1. split; [done|]. split; [done|].
    destruct b; simpl in Hfit; [destruct Hfit as [-> | ->]|rewrite Hfit];
      set_solver.
  - unfold GapAnalysisService.validate_handler.
    do 3 (erewrite bind_ok by reflexivity).
    unfold bind, commit, ret. st_fields.
    destruct (commit_outcome w (n_commits st1)); simpl;
      rewrite !list_lookup_alter_eq, Hg1; simpl;
      (eexists; split; [reflexivity|]); simpl; (split; [auto|set_solver]).
Qed.

(** X10.  Processing one gap never raises, and a gap is handed on to the
    report only with status [VALID] or [MODIFIED]: the handle returned is
    the one of the record created for the gap, and that record is never
    [INVALID], [INITIAL] or [VALIDATING]. *)
Theorem process_single_gap_returns_validated
    (w : World) (analysis_id : nat) (gap : InitialGap) (index : nat) (st : St) :
  match GapAnalysisService._process_single_gap w analysis_id gap index st with
  | (Ok (Some h), st') =>
      h = length (gap_store st)
      /\ exists g,
           gap_store st' !! h = Some g
           /\ (rg_validation_status g = VALID \/ rg_validation_status g = MODIFIED)
  | (Ok None, _) => True
  | (Raise _, _) => False
  end.
Proof.
  unfold GapAnalysisService._process_single_gap, try_except.
  set (h := length (gap_store st)).
  set (g0 := mk_ResearchGap h analysis_id (uuid4 w h) index
               (name gap) (description gap) (category gap)
               (reasoning gap) (evidence gap)
               INITIAL None None None None None None None None
               no_expansion None None).
  destruct (commit_outcome w (n_commits st)) as [e|] eqn:Hc0.
  { erewrite bind_raise; [done|].
    unfold GapAnalysisService._create_gap_record.
    erewrite bind_raise by (apply commit_raise; exact Hc0). reflexivity. }
  set (st1 := set_n_commits (S (n_commits st))
                (set_events (events st ++ [EvCommit])
                   (set_gap_store (gap_store st ++ [g0]) st))).
  assert (Hcreate :
            GapAnalysisService._create_gap_record w analysis_id gap index st
            = (Ok h, st1)).
  { unfold GapAnalysisService._create_gap_record.
    erewrite bind_ok by (apply commit_ok; exact Hc0). reflexivity. }
  erewrite bind_ok by exact Hcreate.
  assert (Hg0 : gap_store st1 !! h = Some g0).
  { subst st1 h. st_fields. by rewrite lookup_app_r, Nat.sub_diag. }
  destruct (validate_gap_outcome w gap h st1 g0 Hg0) as (g2 & Hg2 & Hfit & _).
  unfold bind at 1.
  destruct (GapAnalysisService._validate_gap w gap h st1) as [[b|e] st2];
    simpl in Hg2, Hfit; [|done].
  destruct b; [|done].
  destruct (expand_gap_details_run w gap h st2 g2 Hg2)
    as (st3 & g3 & Hexp & Hg3 & Hst3 & _).
  erewrite bind_ok by exact Hexp. unfold ret.
  split; [done|]. exists g3. split; [done|]. by rewrite Hst3.
Qed.

(** ** Counts of a run *)

Lemma process_length {B} (tasks : list (M (option B))) : forall st,
  exists rs st',
    Helpers.process tasks st = (Ok rs, st') /\ length rs = length tasks.
Proof.
  induction tasks as [|t ts IH]; intros st; simpl.
  - by exists [], st.
  - destruct (t st) as [[r|e] st1]; destruct (IH st1) as (rs & st2 & Hp & Hlen);
      rewrite (bind_ok _ _ _ _ _ Hp); unfold ret;
      eexists _, _; (split; [reflexivity|]); simpl; congruence.
Qed.

Lemma mapM_length {A B} (f : A -> M B) (l : list A) : forall st ys st',
  mapM f l st = (Ok ys, st') -> length ys = length l.
Proof.
  induction l as [|x l IH]; intros st ys st'; simpl.
  - by intros [= <- <-].
  - intros (y & st1 & _ & Hrest)%bind_ok_inv.
    apply bind_ok_inv in Hrest as (ys' & st2 & Hys & Hret).
    injection Hret as <- <-. simpl. f_equal. by eapply IH.
Qed.

Lemma run_prepare_gap_details w hs :
  preserves run (mapM (GapAnalysisService.prepare_gap_detail w) hs).
Proof.
  apply preserves_mapM. intros h.
  unfold GapAnalysisService.prepare_gap_detail. preserves_tac.
Qed.

Lemma update_analysis_summary_ok w total valid st st' :
  GapAnalysisService._update_analysis_summary w total valid st = (Ok tt, st') ->
  run st'
  = (fun a =>
       set_ga_completed_at (Some (clock st))
         (set_ga_status COMPLETED
            (set_ga_invalid_gaps_count (Some (total - valid)%Z)
               (set_ga_valid_gaps_count (Some valid)
                  (set_ga_total_gaps_identified (Some total) a)))))
    <$> run st.
Proof.
  unfold GapAnalysisService._update_analysis_summary, bind, modify_run,
    assign_status, datetime_now, commit. simpl.
  destruct (commit_outcome w (n_commits st)); [done|].
  intros [= <-]. simpl. by destruct (run st).
Qed.

(** What a response returned by steps 2 to 6 says, and the record it leaves. *)
Lemma run_pipeline_success w request a st resp st' :
  GapAnalysisService.run_pipeline w request a st = (Ok resp, st') ->
  status resp = "SUCCESS"
  /\ error resp = None
  /\ (1 <= total_gaps resp)%Z
  /\ (0 <= valid_gaps resp <= total_gaps resp)%Z
  /\ (exists details,
        gaps resp = Some details
        /\ Z.of_nat (length details) = valid_gaps resp)
  /\ exists an,
       run st' = Some an
       /\ ga_status an = COMPLETED
       /\ ga_total_gaps_identified an = Some (total_gaps resp)
       /\ ga_valid_gaps_count an = Some (valid_gaps resp)
       /\ ga_invalid_gaps_count an
          = Some (total_gaps resp - valid_gaps resp)%Z.
Proof.
  unfold GapAnalysisService.run_pipeline.
  intros (pid & s1 & _ & H)%bind_ok_inv.
  apply bind_ok_inv in H as (xid & s2 & _ & H).
  apply bind_ok_inv in H as (fetched & s3 & _ & H).
  destruct fetched as [[paper_data|] extracted_content]; [|done].
  apply bind_ok_inv in H as (initial_gaps & s4 & _ & H).
  destruct initial_gaps as [|gap0 gaps0]; [done|].
  apply bind_ok_inv in H as (rs & s5 & Hproc & H).
  apply bind_ok_inv in H as ([] & s6 & Hsum & H).
  apply bind_ok_inv in H as (resp' & s7 & Hprep & Hret).
  injection Hret as -> ->.
  destruct (process_length
              (imap (fun i gap =>
                       GapAnalysisService._process_single_gap w a gap i)
                    (gap0 :: gaps0)) s4) as (rs' & s5' & Hproc' & Hlen).
  rewrite Hproc in Hproc'. injection Hproc' as <- <-.
  rewrite length_imap in Hlen.
  pose proof (omap_length_le id rs) as Hle.
  assert (Hpos : (1 <= Z.of_nat (length (gap0 :: gaps0)))%Z) by (simpl length; lia).
  assert (Hbound : (0 <= Z.of_nat (length (omap id rs))
                    <= Z.of_nat (length (gap0 :: gaps0)))%Z) by lia.
  remember (Z.of_nat (length (gap0 :: gaps0))) as total eqn:Etotal.
  remember (Z.of_nat (length (omap id rs))) as valid eqn:Evalid.
  apply update_analysis_summary_ok in Hsum.
  unfold GapAnalysisService._prepare_response in Hprep.
  apply bind_ok_inv in Hprep as (ds & s6a & Hds & Hprep).
  pose proof (run_prepare_gap_details w (omap id rs) s6) as Hrun.
  rewrite Hds in Hrun. simpl in Hrun.
  apply mapM_length in Hds.
  apply bind_ok_inv in Hprep as (an & s6b & Hread & Hprep).
  unfold read_run in Hread. destruct (run s6a) as [an'|] eqn:Han; [|done].
  injection Hread as -> ->.
  apply bind_ok_inv in Hprep as (total' & s6c & Htot & Hprep).
  apply bind_ok_inv in Hprep as (valid' & s6d & Hval & Hret).
  unfold lift in Htot, Hval. injection Htot as Htot <-. injection Hval as Hval <-.
  injection Hret as <- <-.
  rewrite Hsum in Hrun. destruct (run s5) as [a5|]; [|done]. simpl in Hrun.
  injection Hrun as ->. simpl in Htot, Hval.
  injection Htot as <-. injection Hval as <-. simpl.
  split; [done|]. split; [done|]. split; [done|]. split; [done|].
  split; [exists ds; split; [done|]; by rewrite Hds, Evalid|].
  eexists. split; [exact Han|]. done.
Qed.

Lemma run_cleanup w :
  preserves run (WebSearchService.close w >> GrobidClient.close w).
Proof. unfold WebSearchService.close, GrobidClient.close. preserves_tac. Qed.

(** X11.  A response with status [SUCCESS] comes from a run with at least
    one candidate: [total_gaps] is at least 1, [valid_gaps] lies between 0
    and [total_gaps], the response lists exactly [valid_gaps] gaps and no
    error, and the record of the run is [COMPLETED] with the same counts,
    its invalid count being the difference of the two. *)
Theorem analyze_paper_success_counts
    (w : World) (request : PyObject) (st st' : St) (resp : GapAnalysisResponse) :
  GapAnalysisService.analyze_paper w request st = (Ok resp, st') ->
  status resp = "SUCCESS" ->
  error resp = None
  /\ (1 <= total_gaps resp)%Z
  /\ (0 <= valid_gaps resp <= total_gaps resp)%Z
  /\ (exists details,
        gaps resp = Some details
        /\ Z.of_nat (length details) = valid_gaps resp)
  /\ exists an,
       run st' = Some an
       /\ ga_status an = COMPLETED
       /\ ga_total_gaps_identified an = Some (total_gaps resp)
       /\ ga_valid_gaps_count an = Some (valid_gaps resp)
       /\ ga_invalid_gaps_count an
          = Some (total_gaps resp - valid_gaps resp)%Z.
Proof.
  unfold GapAnalysisService.analyze_paper, try_finally.
  set (body := try_let _ _ _).
  destruct (body st) as [r s1] eqn:Hbody.
  pose proof (run_cleanup w s1) as Hclean.
  destruct ((WebSearchService.close w >> GrobidClient.close w) s1)
    as [[[]|e] s2]; [|done].
  simpl in Hclean. intros [= -> ->] Hsuccess.
  subst body. unfold try_let in Hbody.
  destruct (GapAnalysisService._create_gap_analysis w request st) as [[a|e] s0].
  - unfold try_except in Hbody.
    destruct (GapAnalysisService.run_pipeline w request a s0)
      as [[resp0|e] s] eqn:Hpipe.
    + injection Hbody as -> ->.
      destruct (run_pipeline_success w request a s0 resp s1 Hpipe)
        as (_ & Herr & Htot & Hval & Hdet & an & Han & Hrest).
      split; [done|]. split; [done|]. split; [done|]. split; [done|].
      exists an. split; [congruence|done].
    + destruct (on_failure_writes w request (Some a) e s) as (_ & Hf).
      rewrite Hbody in Hf. simpl in Hf. congruence.
  - destruct (on_failure_writes w request None e s0) as (_ & Hf).
    rewrite Hbody in Hf. simpl in Hf. congruence.
Qed.

(** X12.  Whatever happens in the body of [analyze_paper], the search
    client is closed last of all, followed by the extraction client; the
    extraction client is not closed when closing the search client raises,
    and then that exception is what [analyze_paper] raises. *)
Theorem analyze_paper_closes_clients
    (w : World) (request : PyObject) (st : St) :
  exists before,
    events (snd (GapAnalysisService.analyze_paper w request st))
    = before ++ EvCloseSearch
               :: match close_search_outcome w with
                  | None => [EvCloseGrobid]
                  | Some _ => []
                  end
    /\ match close_search_outcome w with
       | Some e =>
           fst (GapAnalysisService.analyze_paper w request st) = Raise e
       | None => True
       end.
Proof.
  unfold GapAnalysisService.analyze_paper, try_finally.
  set (body := try_let _ _ _).
  destruct (body st) as [r s1].
  unfold WebSearchService.close, GrobidClient.close, bind, log, lift_outcome.
  destruct (close_search_outcome w) as [e|]; simpl.
  - by exists (events s1).
  - destruct (close_grobid_outcome w); simpl;
      exists (events s1); by rewrite <- app_assoc.
Qed.

(** ** Failed runs *)

Lemma create_gap_analysis_ok w request st pid xid cid rid cfg :
  getattr request "paper_id" = Ok pid ->
  getattr request "paper_extraction_id" = Ok xid ->
  getattr request "correlation_id" = Ok cid ->
  getattr request "request_id" = Ok rid ->
  getattr request "config" = Ok cfg ->
  commit_outcome w (n_commits st) = None ->
  GapAnalysisService._create_gap_analysis w request st
  = (Ok 0,
     set_n_commits (S (n_commits st))
       (set_events (events st ++ [EvCommit])
          (set_status_writes (status_writes st ++ [PROCESSING])
             (set_run
                (Some (mk_GapAnalysis 0 pid xid cid rid PROCESSING (clock st) cfg
                                      None None None None None))
                (set_clock (S (clock st)) st))))).
Proof.
  intros Hp Hx Hc Hr Hcfg Hcommit.
  unfold GapAnalysisService._create_gap_analysis.
  unfold lift. rewrite Hp, Hx, Hc, Hr, Hcfg.
  do 4 (erewrite bind_ok by reflexivity).
  erewrite bind_ok by reflexivity.
  erewrite bind_ok by reflexivity.
  erewrite bind_ok by reflexivity.
  erewrite bind_ok by (apply commit_ok; exact Hcommit).
  reflexivity.
Qed.

Lemma on_failure_ok w request a e s cid rid :
  getattr request "correlation_id" = Ok cid ->
  getattr request "request_id" = Ok rid ->
  commit_outcome w (n_commits s) = None ->
  exists s',
    GapAnalysisService.on_failure w request (Some a) e s
    = (Ok (GapAnalysisService.failed_response rid cid e), s')
    /\ run s'
       = (fun an =>
            set_ga_completed_at (Some (clock s))
              (set_ga_error_message (Some (exn_str e))
                 (set_ga_status FAILED an))) <$> run s
    /\ status_writes s' = status_writes s ++ [FAILED]
    /\ gap_store s' = gap_store s
    /\ n_llm_calls s' = n_llm_calls s
    /\ events s' = events s ++ [EvCommit]
    /\ n_executes s' = n_executes s.
Proof.
  intros Hc Hr Hcommit.
  unfold GapAnalysisService.on_failure, GapAnalysisService._mark_analysis_failed.
  unfold lift. rewrite Hc, Hr.
  erewrite bind_ok; cycle 1.
  { do 4 (erewrite bind_ok by reflexivity).
    apply commit_ok. exact Hcommit. }
  do 2 (erewrite bind_ok by reflexivity).
  unfold ret. eexists. split; [reflexivity|]. st_fields.
  split; [by destruct (run s)|]. done.
Qed.

Lemma cleanup_ok w s :
  close_search_outcome w = None ->
  close_grobid_outcome w = None ->
  (WebSearchService.close w >> GrobidClient.close w) s
  = (Ok tt, set_events ((events s ++ [EvCloseSearch]) ++ [EvCloseGrobid])
              (set_events (events s ++ [EvCloseSearch]) s)).
Proof.
  intros Hs Hg.
  unfold WebSearchService.close, GrobidClient.close, bind, log, lift_outcome.
  by rewrite Hs, Hg.
Qed.

(** X13.  When the paper is not in the database (and the database and the
    clients otherwise work), the run is marked [FAILED] with the error text
    "Paper not found", the caller gets a [FAILED] response carrying that
    text and the ids of the request, and neither the language model is
    called nor a gap record created. *)
Theorem analyze_paper_paper_not_found
    (w : World) (request : PyObject) (st : St) (pid xid cid rid cfg : string) :
  getattr request "paper_id" = Ok pid ->
  getattr request "paper_extraction_id" = Ok xid ->
  getattr request "correlation_id" = Ok cid ->
  getattr request "request_id" = Ok rid ->
  getattr request "config" = Ok cfg ->
  commit_outcome w (n_commits st) = None ->
  commit_outcome w (S (n_commits st)) = None ->
  execute_outcome w (n_executes st) = None ->
  select_paper w pid = Ok None ->
  close_search_outcome w = None ->
  close_grobid_outcome w = None ->
  exists st',
    GapAnalysisService.analyze_paper w request st
    = (Ok (GapAnalysisService.failed_response rid cid (ValueError "Paper not found")),
       st')
    /\ ga_status <$> run st' = Some FAILED
    /\ ga_error_message <$> run st' = Some (Some "Paper not found")
    /\ status_writes st' = status_writes st ++ [PROCESSING; FAILED]
    /\ n_llm_calls st' = n_llm_calls st
    /\ gap_store st' = gap_store st.
Proof.
  intros Hp Hx Hc Hr Hcfg Hc0 Hc1 He0 Hpaper Hcs Hcg.
  unfold GapAnalysisService.analyze_paper, try_finally, try_let.
  rewrite (create_gap_analysis_ok w request st pid xid cid rid cfg) by done.
  unfold try_except.
  match goal with
  | |- context [GapAnalysisService.run_pipeline w request 0 ?s] =>
      assert (Hpipe : exists s1,
                 GapAnalysisService.run_pipeline w request 0 s
                 = (Raise (ValueError "Paper not found"), s1)
                 /\ run s1 = run s /\ status_writes s1 = status_writes s
                 /\ gap_store s1 = gap_store s /\ n_llm_calls s1 = n_llm_calls s
                 /\ n_commits s1 = n_commits s /\ clock s1 = clock s)
  end.
  { unfold GapAnalysisService.run_pipeline.
    erewrite bind_ok by (unfold lift; rewrite Hp; reflexivity).
    erewrite bind_ok by (unfold lift; rewrite Hx; reflexivity).
    erewrite bind_ok; cycle 1.
    { unfold GapAnalysisService._fetch_paper_data.
      erewrite bind_ok; cycle 1.
      { unfold execute. st_fields. rewrite He0. reflexivity. }
      erewrite bind_ok by (unfold lift; rewrite Hpaper; reflexivity).
      reflexivity. }
    eexists. split; [reflexivity|]. done. }
  destruct Hpipe as (s1 & -> & Hrun1 & Hsw1 & Hgs1 & Hl1 & Hn1 & Hk1).
  destruct (on_failure_ok w request 0 (ValueError "Paper not found") s1 cid rid)
    as (s2 & -> & Hrun2 & Hsw2 & Hgs2 & Hl2 & _); [done|done| |].
  { rewrite Hn1. exact Hc1. }
  rewrite cleanup_ok by done.
  eexists. split; [reflexivity|]. st_fields.
  rewrite Hrun2, Hrun1, Hsw2, Hsw1, Hl2, Hl1, Hgs2, Hgs1. st_fields.
  rewrite <- app_assoc. done.
Qed.

(** The queries for the paragraphs, one per section. *)
Lemma paragraph_queries_run w (sections : list SectionRow) : forall st,
  (forall k, k < length sections ->
             execute_outcome w (n_executes st + k) = None) ->
  exists us st',
    mapM (fun section : SectionRow => execute w) sections st = (Ok us, st')
    /\ n_executes st' = n_executes st + length sections
    /\ n_llm_calls st' = n_llm_calls st
    /\ same_records st st'.
Proof.
  induction sections as [|section sections IH]; intros st Hex; simpl.
  - exists [], st. rewrite Nat.add_0_r. by repeat split.
  - assert (H0 : execute_outcome w (n_executes st) = None).
    { rewrite <- (Nat.add_0_r (n_executes st)). apply Hex. simpl. lia. }
    erewrite bind_ok by (unfold execute; rewrite H0; reflexivity).
    edestruct (IH (set_n_executes (S (n_executes st))
                     (set_events (events st ++ [EvExecute]) st)))
      as (us & st' & Hrun & Hn & Hl & Hsame).
    { intros k Hk. st_fields.
      replace (S (n_executes st) + k) with (n_executes st + S k) by lia.
      apply Hex. simpl. lia. }
    erewrite bind_ok by exact Hrun.
    exists (tt :: us), st'. split; [reflexivity|].
    revert Hn Hl Hsame. unfold same_records. st_fields.
    intros -> -> Hsame. split; [lia|]. done.
Qed.

(** The paper is found: every query is made, and the answers are put
    together. *)
Lemma fetch_paper_data_found w pid xid st paper_data extraction :
  (forall k, k < fetch_queries extraction ->
             execute_outcome w (n_executes st + k) = None) ->
  select_paper w pid = Ok (Some paper_data) ->
  select_extraction w xid = Ok extraction ->
  exists st',
    GapAnalysisService._fetch_paper_data w pid xid st
    = (Ok (Some paper_data, Some (content_of w extraction)), st')
    /\ n_executes st' = n_executes st + fetch_queries extraction
    /\ n_llm_calls st' = n_llm_calls st
    /\ same_records st st'.
Proof.
  intros Hex Hpaper Hext.
  assert (H2 : 2 <= fetch_queries extraction)
    by (destruct extraction; simpl; lia).
  assert (E0 : execute_outcome w (n_executes st) = None).
  { rewrite <- (Nat.add_0_r (n_executes st)). apply Hex. lia. }
  assert (E1 : execute_outcome w (S (n_executes st)) = None).
  { replace (S (n_executes st)) with (n_executes st + 1) by lia.
    apply Hex. lia. }
  unfold GapAnalysisService._fetch_paper_data.
  erewrite bind_ok by (unfold execute; rewrite E0; reflexivity).
  erewrite bind_ok by (unfold lift; rewrite Hpaper; reflexivity).
  cbv beta iota.
  erewrite bind_ok by (unfold execute; st_fields; rewrite E1; reflexivity).
  erewrite bind_ok by (unfold lift; rewrite Hext; reflexivity).
  destruct extraction as [rows|]; simpl in Hex |- *.
  - assert (E2 : execute_outcome w (S (S (n_executes st))) = None).
    { replace (S (S (n_executes st))) with (n_executes st + 2) by lia.
      apply Hex. lia. }
    assert (E3 : execute_outcome w (S (S (S (n_executes st)))) = None).
    { replace (S (S (S (n_executes st)))) with (n_executes st + 3) by lia.
      apply Hex. lia. }
    assert (E4 : execute_outcome w (S (S (S (S (n_executes st))))) = None).
    { replace (S (S (S (S (n_executes st))))) with (n_executes st + 4) by lia.
      apply Hex. lia. }
    erewrite bind_ok by (unfold execute; st_fields; rewrite E2; reflexivity).
    erewrite bind_ok by (unfold execute; st_fields; rewrite E3; reflexivity).
    erewrite bind_ok by (unfold execute; st_fields; rewrite E4; reflexivity).
    match goal with
    | |- context [bind (mapM ?f ?l) ?k ?s] =>
        destruct (paragraph_queries_run w l s) as (us & st' & Hrun & Hn & Hl & Hs)
    end.
    { intros k Hk. st_fields.
      replace (S (S (S (S (S (n_executes st))))) + k)
        with (n_executes st + (5 + k)) by lia.
      apply Hex. lia. }
    erewrite bind_ok by exact Hrun.
    exists st'. split; [reflexivity|].
    revert Hn Hl Hs. unfold same_records. st_fields.
    intros -> -> Hs. split; [lia|]. done.
  - eexists. split; [reflexivity|]. unfold same_records. st_fields.
    split; [lia|]. done.
Qed.

(** X14.  When the paper is found, every query for its extraction succeeds
    and candidate generation yields no candidate (the context of the paper
    cannot be built, the call to the model fails, its answer cannot be
    decoded, or it is an empty list), the run is marked [FAILED] and the
    caller gets a [FAILED] response, in each case with the same error
    text, "No gaps could be identified"; the queries made are the two for
    the paper and the extraction and, when the extraction exists, three
    more and one per section; the model was called at most once, not at
    all when the context does not build; and no gap record exists. *)
Theorem analyze_paper_no_candidates
    (w : World) (request : PyObject) (st : St) (pid xid cid rid cfg : string)
    (paper_data : string) (extraction : option ExtractionRows) :
  getattr request "paper_id" = Ok pid ->
  getattr request "paper_extraction_id" = Ok xid ->
  getattr request "correlation_id" = Ok cid ->
  getattr request "request_id" = Ok rid ->
  getattr request "config" = Ok cfg ->
  commit_outcome w (n_commits st) = None ->
  commit_outcome w (S (n_commits st)) = None ->
  (forall k, k < fetch_queries extraction ->
             execute_outcome w (n_executes st + k) = None) ->
  select_paper w pid = Ok (Some paper_data) ->
  select_extraction w xid = Ok extraction ->
  candidates_from w (n_llm_calls st) paper_data (content_of w extraction) = [] ->
  close_search_outcome w = None ->
  close_grobid_outcome w = None ->
  exists st',
    GapAnalysisService.analyze_paper w request st
    = (Ok (GapAnalysisService.failed_response rid cid
             (ValueError "No gaps could be identified")), st')
    /\ ga_status <$> run st' = Some FAILED
    /\ ga_error_message <$> run st' = Some (Some "No gaps could be identified")
    /\ status_writes st' = status_writes st ++ [PROCESSING; FAILED]
    /\ n_executes st' = n_executes st + fetch_queries extraction
    /\ n_llm_calls st'
       = n_llm_calls st
         + length (candidate_calls paper_data (content_of w extraction))
    /\ length (candidate_calls paper_data (content_of w extraction)) <= 1
    /\ gap_store st' = gap_store st.
Proof.
  intros Hp Hx Hc Hr Hcfg Hc0 Hc1 Hex Hpaper Hext Hgaps Hcs Hcg.
  unfold GapAnalysisService.analyze_paper, try_finally, try_let.
  rewrite (create_gap_analysis_ok w request st pid xid cid rid cfg) by done.
  unfold try_except.
  match goal with
  | |- context [GapAnalysisService.run_pipeline w request 0 ?s] =>
      assert (Hpipe : exists s1,
                 GapAnalysisService.run_pipeline w request 0 s
                 = (Raise (ValueError "No gaps could be identified"), s1)
                 /\ n_executes s1 = n_executes s + fetch_queries extraction
                 /\ n_llm_calls s1
                    = n_llm_calls s
                      + length (candidate_calls paper_data
                                  (content_of w extraction))
                 /\ same_records s s1)
  end.
  { unfold GapAnalysisService.run_pipeline.
    erewrite bind_ok by (unfold lift; rewrite Hp; reflexivity).
    erewrite bind_ok by (unfold lift; rewrite Hx; reflexivity).
    match goal with
    | |- context [bind (GapAnalysisService._fetch_paper_data w pid xid) ?k ?s] =>
        destruct (fetch_paper_data_found w pid xid s paper_data extraction)
          as (s0 & Hfetch & Hn0 & Hl0 & Hs0); [exact Hex|done|done|]
    end.
    erewrite bind_ok by exact Hfetch.
    cbv beta iota.
    destruct (generate_initial_gaps_run w paper_data (content_of w extraction) s0)
      as (s1 & Hgen & _ & Hl1 & Hn1 & Hs1).
    change (default empty_dict (Some (content_of w extraction)))
      with (content_of w extraction).
    erewrite bind_ok by exact Hgen.
    revert Hl0 Hl1. st_fields. intros Hl0 Hl1.
    rewrite Hl0 in Hl1 |- *. rewrite Hgaps.
    exists s1. split; [reflexivity|].
    revert Hn0 Hn1 Hs0 Hs1. unfold same_records. st_fields.
    intros Hn0 Hn1 Hs0 Hs1. split; [lia|]. split; [done|].
    destruct Hs0 as (? & ? & ? & ? & ? & ? & ?),
      Hs1 as (? & ? & ? & ? & ? & ? & ?).
    repeat split; congruence. }
  destruct Hpipe as (s1 & -> & Hn1 & Hl1 & Hk1 & Hclk1 & Hrun1 & Hsw1 & Hgs1 & _).
  destruct (on_failure_ok w request 0 (ValueError "No gaps could be identified")
              s1 cid rid)
    as (s2 & -> & Hrun2 & Hsw2 & Hgs2 & Hl2 & Hev2 & Hn2); [done|done| |].
  { rewrite Hk1. exact Hc1. }
  rewrite cleanup_ok by done.
  eexists. split; [reflexivity|]. st_fields.
  rewrite Hrun2, Hrun1, Hsw2, Hsw1, Hl2, Hl1, Hgs2, Hgs1, Hn2, Hn1. st_fields.
  rewrite <- app_assoc.
  split; [done|]. split; [done|]. split; [done|].
  split; [done|]. split; [done|]. split; [|done].
  unfold candidate_calls.
  destruct (GeminiService._prepare_paper_context _ _); simpl; lia.
Qed.

(** ** The ids of the request *)

Lemma ids_modify_run f :
  (forall a, (ga_request_id (f a), ga_correlation_id (f a))
             = (ga_request_id a, ga_correlation_id a)) ->
  preserves run_ids (modify_run f).
Proof.
  intros Hf st. unfold modify_run, run_ids. simpl.
  destruct (run st) as [a|]; simpl; [|done]. by rewrite Hf.
Qed.

Lemma ids_assign_status s : preserves run_ids (assign_status s).
Proof. intros st. unfold assign_status, run_ids. simpl. by destruct (run st). Qed.

Lemma ids_create_gap_record w a gap i :
  preserves run_ids (GapAnalysisService._create_gap_record w a gap i).
Proof.
  intros st. unfold GapAnalysisService._create_gap_record, bind, commit, ret. simpl.
  by destruct (commit_outcome w (n_commits st)).
Qed.

#[export] Hint Resolve ids_modify_run ids_assign_status ids_create_gap_record
  : frames.
#[export] Hint Extern 1 (_ = _) => reflexivity : frames.

Lemma ids_process_single_gap w a gap i :
  preserves run_ids (GapAnalysisService._process_single_gap w a gap i).
Proof.
  unfold GapAnalysisService._process_single_gap, GapAnalysisService._validate_gap,
    GapAnalysisService.validate_body, GapAnalysisService.validate_handler,
    GapAnalysisService.assume_valid, GapAnalysisService.apply_validation,
    GapAnalysisService._expand_gap_details.
  preserves_tac.
Qed.

Lemma ids_run_pipeline w request a :
  preserves run_ids (GapAnalysisService.run_pipeline w request a).
Proof.
  unfold GapAnalysisService.run_pipeline.
  apply preserves_bind; [apply preserves_lift|]. intros paper_id.
  apply preserves_bind; [apply preserves_lift|]. intros extraction_id.
  apply preserves_bind.
  { unfold GapAnalysisService._fetch_paper_data. preserves_tac. }
  intros [[paper_data|] extracted_content]; [|apply preserves_raise].
  apply preserves_bind.
  { unfold GeminiService.generate_initial_gaps. preserves_tac. }
  intros [|gap0 gaps0]; [apply preserves_raise|].
  apply preserves_bind.
  { apply preserves_process. apply Forall_forall.
    intros t (i & gap & -> & _)%elem_of_lookup_imap.
    apply ids_process_single_gap. }
  intros gap_results.
  apply preserves_bind.
  { unfold GapAnalysisService._update_analysis_summary. preserves_tac. }
  intros _.
  unfold GapAnalysisService._prepare_response,
    GapAnalysisService.prepare_gap_detail.
  preserves_tac.
Qed.

Lemma prepare_response_ids w hs s resp s' :
  GapAnalysisService._prepare_response w hs s = (Ok resp, s') ->
  status resp = "SUCCESS"
  /\ run_ids s' = Some (request_id resp, correlation_id resp).
Proof.
  unfold GapAnalysisService._prepare_response.
  intros (ds & s1 & _ & H)%bind_ok_inv.
  apply bind_ok_inv in H as (an & s2 & Hread & H).
  unfold read_run in Hread. destruct (run s1) as [an'|] eqn:Han; [|done].
  injection Hread as -> ->.
  apply bind_ok_inv in H as (total & s3 & Htot & H).
  apply bind_ok_inv in H as (valid & s4 & Hval & Hret).
  unfold lift in Htot, Hval. injection Htot as _ <-. injection Hval as _ <-.
  injection Hret as <- <-. split; [done|].
  unfold run_ids. by rewrite Han.
Qed.

Lemma run_pipeline_ids w request a s resp s' :
  GapAnalysisService.run_pipeline w request a s = (Ok resp, s') ->
  status resp = "SUCCESS"
  /\ run_ids s' = Some (request_id resp, correlation_id resp).
Proof.
  unfold GapAnalysisService.run_pipeline.
  intros (pid & s1 & _ & H)%bind_ok_inv.
  apply bind_ok_inv in H as (xid & s2 & _ & H).
  apply bind_ok_inv in H as (fetched & s3 & _ & H).
  destruct fetched as [[paper_data|] extracted_content]; [|done].
  apply bind_ok_inv in H as (initial_gaps & s4 & _ & H).
  destruct initial_gaps as [|gap0 gaps0]; [done|].
  apply bind_ok_inv in H as (rs & s5 & _ & H).
  apply bind_ok_inv in H as ([] & s6 & _ & H).
  apply bind_ok_inv in H as (resp' & s7 & Hprep & Hret).
  injection Hret as -> ->. by eapply prepare_response_ids.
Qed.

(** X15.  When the request object has the attributes that are read, every
    commit succeeds and the two clients close, [analyze_paper] does not
    raise: it returns a response that carries the request id and the
    correlation id of the request, with status [SUCCESS], or with status
    [FAILED] and the error text, the run being marked [FAILED]. *)
Theorem analyze_paper_answers_with_request_ids
    (w : World) (request : PyObject) (st : St) (pid xid cid rid cfg : string) :
  getattr request "paper_id" = Ok pid ->
  getattr request "paper_extraction_id" = Ok xid ->
  getattr request "correlation_id" = Ok cid ->
  getattr request "request_id" = Ok rid ->
  getattr request "config" = Ok cfg ->
  (forall n, commit_outcome w n = None) ->
  close_search_outcome w = None ->
  close_grobid_outcome w = None ->
  exists resp st',
    GapAnalysisService.analyze_paper w request st = (Ok resp, st')
    /\ request_id resp = rid
    /\ correlation_id resp = cid
    /\ (status resp = "SUCCESS"
        \/ (status resp = "FAILED"
            /\ (exists text, error resp = Some text)
            /\ ga_status <$> run st' = Some FAILED)).
Proof.
  intros Hp Hx Hc Hr Hcfg Hcommit Hcs Hcg.
  unfold GapAnalysisService.analyze_paper, try_finally, try_let.
  rewrite (create_gap_analysis_ok w request st pid xid cid rid cfg) by done.
  unfold try_except.
  match goal with
  | |- context [GapAnalysisService.run_pipeline w request 0 ?s] =>
      pose proof (ids_run_pipeline w request 0 s) as Hids;
      destruct (GapAnalysisService.run_pipeline w request 0 s)
        as [[resp|e] s1] eqn:Hpipe
  end; simpl in Hids.
  - apply run_pipeline_ids in Hpipe as [Hst Hrid].
    rewrite Hids in Hrid. injection Hrid as Hrid Hcid.
    rewrite cleanup_ok by done.
    eexists _, _. split; [reflexivity|]. auto.
  - destruct (on_failure_ok w request 0 e s1 cid rid)
      as (s2 & -> & Hrun2 & _); [done|done|apply Hcommit|].
    rewrite cleanup_ok by done.
    eexists _, _. split; [reflexivity|]. simpl.
    split; [done|]. split; [done|]. right.
    split; [done|]. split; [by eexists|]. st_fields. rewrite Hrun2.
    unfold run_ids in Hids. by destruct (run s1).
Qed.

(* ===================================================================== *)
(** * The message adapter *)

Section Adapter.
Import RabbitMQService.









End Adapter.

(** ** The further properties on sample runs *)

Import MoreExamples.

Lemma deduplicate_results_distinct_titles_sample :
  NoDup (Dedup.normalized lower (fun s => s)
           <$> Dedup._deduplicate_results lower (fun s => s) exact_similarity
                 [paperA; paperB; paperA]).
Proof.
  apply (deduplicate_results_distinct_titles lower (fun s => s) exact_similarity).
  intros t. unfold exact_similarity. rewrite String.eqb_refl. reflexivity.
Defined.

Lemma search_papers_bounded_sample :
  exists rs st',
    WebSearchService.search_papers quiet_world "graph scalability" 1 st_init
    = (Ok rs, st')
    /\ length rs <= 1.
Proof.
  destruct (search_papers_bounded_subsequence
              quiet_world "graph scalability" 1 st_init)
    as (rs & st' & H & Hlen & _); [lia|].
  exists rs, st'. split; [exact H|exact Hlen].
Defined.

Lemma expand_gap_details_placeholders_sample :
  exists st' g',
    GapAnalysisService._expand_gap_details quiet_world gap1 0 (st_one quiet_world)
    = (Ok tt, st')
    /\ gap_store st' !! 0 = Some g'
    /\ rg_suggested_topics g' = Some [].
Proof.
  edestruct (expand_gap_details_stores_placeholders quiet_world gap1 0
               (st_one quiet_world))
    as (st' & g' & H1 & H2 & _ & H4 & _); [reflexivity|].
  exists st', g'. repeat split; assumption.
Defined.

Lemma analyze_paper_success_counts_sample :
  GapAnalysisService.analyze_paper quiet_world request_double st_init
  = (Ok response_quiet, snd run_quiet)
  /\ total_gaps response_quiet = 1%Z
  /\ (0 <= valid_gaps response_quiet <= total_gaps response_quiet)%Z.
Proof.
  assert (Hrun : GapAnalysisService.analyze_paper quiet_world request_double
                   st_init = (Ok response_quiet, snd run_quiet))
    by (vm_compute; reflexivity).
  assert (Hstatus : status response_quiet = "SUCCESS")
    by (vm_compute; reflexivity).
  destruct (analyze_paper_success_counts quiet_world request_double st_init
              (snd run_quiet) response_quiet Hrun Hstatus)
    as (_ & _ & Hvalid & _).
  split; [exact Hrun|]. split; [vm_compute; reflexivity|exact Hvalid].
Defined.

Lemma analyze_paper_paper_not_found_sample :
  exists st',
    GapAnalysisService.analyze_paper world_paper_missing request_double st_init
    = (Ok (GapAnalysisService.failed_response "req-1" "corr-1"
             (ValueError "Paper not found")), st')
    /\ status_writes st' = [PROCESSING; FAILED].
Proof.
  destruct (analyze_paper_paper_not_found world_paper_missing request_double
              st_init "P1" "E1" "corr-1" "req-1" "{}")
    as (st' & H & _ & _ & Hw & _);
    try (vm_compute; reflexivity).
  exists st'. split; [exact H|exact Hw].
Defined.

Lemma analyze_paper_no_candidates_sample :
  exists st',
    GapAnalysisService.analyze_paper world_no_context request_double st_init
    = (Ok (GapAnalysisService.failed_response "req-1" "corr-1"
             (ValueError "No gaps could be identified")), st')
    /\ n_executes st' = 6
    /\ n_llm_calls st' = 0.
Proof.
  destruct (analyze_paper_no_candidates world_no_context request_double
              st_init "P1" "E1" "corr-1" "req-1" "{}" "paper"
              (Some rows_without_text))
    as (st' & H & _ & _ & _ & He & Hn & _);
    try (vm_compute; reflexivity).
  exists st'. split; [exact H|]. split; [exact He|exact Hn].
Defined.

Lemma analyze_paper_answers_with_request_ids_sample :
  exists resp st',
    GapAnalysisService.analyze_paper quiet_world request_double st_init
    = (Ok resp, st')
    /\ request_id resp = "req-1"
    /\ correlation_id resp = "corr-1".
Proof.
  destruct (analyze_paper_answers_with_request_ids quiet_world request_double
              st_init "P1" "E1" "corr-1" "req-1" "{}")
    as (resp & st' & H & Hr & Hc & _);
    try (vm_compute; reflexivity).
  exists resp, st'. repeat split; assumption.
Defined.

Import RabbitMQService AdapterExamples.


Lemma deduplicate_results_symmetric_sample :
  Dedup._deduplicate_results lower (fun s => s) exact_similarity
    [paperA; paperB; paperA_again; paperC]
  = [paperA; paperB; paperC]
  /\ (exact_similarity (lower (title paperA)) (lower (title paperB)) <= 8 # 10)%Q.
Proof.
  split; [vm_compute; reflexivity|].
  destruct (deduplicate_results_first_occurrence lower (fun s => s)
              exact_similarity [paperA; paperB; paperA_again; paperC])
    as (_ & _ & _ & _ & _ & Hsym).
  apply (Hsym (fun s t => ltac:(unfold exact_similarity;
                                rewrite (String.eqb_sym s t); reflexivity))
              0 1 paperA paperB); [lia| |]; vm_compute; reflexivity.
Defined.
